(** * Theophilus Hospital Management System: pharmacy and prescription core

    A shallow embedding of the prescription controllers
    ([createPrescription], [updatePrescription], [fulfillPrescription]; the
    module the routes import as controllers/prescriptions.controller, whose
    text is the second half of controllers/auth.controller.ts) and of the
    pharmacy controller's [adjustStock] and [updateMedication]
    (controllers/pharmacy.controller.ts), together with the part of the
    relational schema (prisma/migrations/.../migration.sql) these controllers
    read and write.

    Modelling conventions.
    - The database is a record of tables; a table is the list of its rows in
      insertion order.  [findUnique] and [findFirst] return the first matching
      row, [update] rewrites the first row with the given key (Prisma's
      P2025 when there is none), [create] appends a row after checking the
      foreign keys declared in migration.sql (Prisma's P2003).
    - Primary keys are strings.  Prisma's [uuid()] default is modelled by a
      seed stored next to the tables: [uuid n] is the n-th generated key.
    - A DECIMAL price and a number of a request body are rationals ([Q]).
      An amount of money that the code computes, [Number(price) * quantity],
      is a double-precision product that a DECIMAL column then keeps: it is an
      [Amount], the product kept by its two factors, with its value in
      JavaScript ([computed]) and its value in exact arithmetic
      ([exactValue]) beside it.  INTEGER columns are [Z].
    - [new Date()] is the field [now] of the request.
    - A controller is a function from the request and the database to the
      HTTP response and the database it leaves behind.  Code inside
      [prisma.$transaction] runs in the monad [Prisma], which keeps the
      partially written database next to a thrown error; [transaction]
      is the combinator that discards it.
    - Columns that these controllers never read and that carry no key
      (description, category, reorderLevel, unitPrice, supplier, batchNumber
      of pharmacy_stock; description of transactions and expenses; details,
      ipAddress, userAgent of audit_logs; vitalSigns, notes of visits) and
      the createdAt/updatedAt stamps are left out.  Of users and patients only
      the keys are kept: that is all the foreign keys look at.
    - Requests are handled one at a time. *)

From Stdlib Require Import String ZArith QArith List Bool Lia Arith.
From Stdlib Require Import DecimalString DecimalNat.
From Stdlib Require Import Permutation Sorted.
From Stdlib Require PrimFloat Uint63 FloatOps SpecFloat.
Import ListNotations.

Local Open Scope string_scope.
Local Open Scope Z_scope.
Local Open Scope list_scope.

(** ** Amounts of money *)

(** A number held in a DECIMAL amount column.  [Product d n] is what the
    controllers compute as [Number(d) * n] from a DECIMAL [d] and an integer
    [n]: the product is taken in double precision and the column keeps what
    it is handed, so the stored number need not be the exact product.  It is
    kept here by its two factors; [computed] is the double that JavaScript
    computes and [exactValue] the product in exact arithmetic.  [Given d] is
    a number that a request body carried. *)
Inductive Amount :=
| Given (d : Q)
| Product (d : Q) (n : Z).

Definition exactValue (a : Amount) : Q :=
  match a with
  | Given d => d
  | Product d n => Qmult d (inject_Z n)
  end.

(** [Number(n)] for an integer: exact below 2^53 in absolute value (and for
    every integer below 2^63 [of_uint63] rounds to the nearest double, as
    JavaScript does). *)
Definition numberOfZ (z : Z) : PrimFloat.float :=
  match z with
  | Z0 => PrimFloat.zero
  | Zpos _ => PrimFloat.of_uint63 (Uint63.of_Z z)
  | Zneg m => PrimFloat.opp (PrimFloat.of_uint63 (Uint63.of_Z (Zpos m)))
  end.

(** [Number(d)] for a decimal [d]: the double nearest to it.  The quotient of
    two doubles is rounded once, so this is the nearest double whenever
    numerator and denominator are below 2^53. *)
Definition numberOfQ (d : Q) : PrimFloat.float :=
  PrimFloat.div (numberOfZ (Qnum d)) (numberOfZ (Zpos (Qden d))).

(** The JavaScript number of an amount. *)
Definition computed (a : Amount) : PrimFloat.float :=
  match a with
  | Given d => numberOfQ d
  | Product d n => PrimFloat.mul (numberOfQ d) (numberOfZ n)
  end.


(** [x > 0] on an amount.  A double product has the sign of the exact
    product: one factor is a price as JavaScript holds it, the other an
    integer, so the product is at least as large as the price in absolute
    value unless the integer is zero, and is zero only when a factor is. *)
Definition isPositive (a : Amount) : bool := negb (Qle_bool (exactValue a) 0).

(** ** Rows *)

Definition Id := string.

Record TokenPayload := mkTokenPayload
{ userId : Id;
  email : string;
  roleId : Id;
  roleName : string }.

Record Visit := mkVisit
{ v_id : Id;
  v_patientId : Id;
  v_doctorId : Id;
  v_visitDate : Z;
  v_chiefComplaint : string;
  v_status : string }.

Record Prescription := mkPrescription
{ p_id : Id;
  p_visitId : Id;
  p_prescribedBy : Id;
  p_medication : string;
  p_dosage : string;
  p_frequency : string;
  p_duration : string;
  p_quantity : Z;
  p_instructions : option string;
  p_status : string;
  p_totalAmount : option Amount;
  p_paymentStatus : string;
  p_paidAt : option Z;
  p_transactionId : option Id }.

Record PharmacyStock := mkPharmacyStock
{ s_id : Id;
  s_medicationName : string;
  s_currentStock : Z;
  s_minimumStock : Z;
  s_costPrice : Q;
  s_sellingPrice : Q;
  s_expiryDate : option string }.

Record Transaction := mkTransaction
{ t_id : Id;
  t_type : string;
  t_category : string;
  t_amount : Amount;
  t_referenceId : option Id;
  t_referenceType : option string;
  t_paymentMethod : option string;
  t_createdBy : Id;
  t_patientId : option Id }.

Record Expense := mkExpense
{ e_id : Id;
  e_category : string;
  e_amount : Amount;
  e_date : Z;
  e_createdBy : Id }.

Record AuditLog := mkAuditLog
{ a_id : Id;
  a_userId : Id;
  a_action : string;
  a_entity : string;
  a_entityId : option Id }.

(** ** The database *)

Record DB := mkDB
{ users : list Id;
  patients : list Id;
  visits : list Visit;
  prescriptions : list Prescription;
  pharmacyStock : list PharmacyStock;
  transactions : list Transaction;
  expenses : list Expense;
  auditLogs : list AuditLog;
  uuidSeed : nat }.

Definition uuid (n : nat) : Id := NilEmpty.string_of_uint (Nat.to_uint n).

Definition uuid_index (s : Id) : option nat :=
  option_map Nat.of_uint (NilEmpty.uint_of_string s).

(** ** Errors and responses *)

Inductive Error :=
| EitherVisitIdOrPatientIdRequired
| UserNotAuthenticated
| InvalidVisitID
| MedicationNotFound (name : string)
| InsufficientStockFor (name : string) (available required : Z)
| ForeignKeyViolation (constraint : string)
| RecordNotFound
| TypeError
| Message (text : string)
| InsufficientStock (available required : Z).

Inductive Response (A : Type) :=
| Json (status : nat) (payload : A)
| ErrorJson (status : nat) (error : Error).

Arguments Json {A} status payload.
Arguments ErrorJson {A} status error.

(** ** The monad of database code *)

Inductive Outcome (A : Type) :=
| Done (a : A)
| Thrown (e : Error).

Arguments Done {A} a.
Arguments Thrown {A} e.

Definition Prisma (A : Type) := DB -> Outcome A * DB.

Definition ret {A} (a : A) : Prisma A := fun db => (Done a, db).

Definition throw {A} (e : Error) : Prisma A := fun db => (Thrown e, db).

Definition bind {A B} (m : Prisma A) (k : A -> Prisma B) : Prisma B :=
  fun db =>
    match m db with
    | (Done a, db1) => k a db1
    | (Thrown e, db1) => (Thrown e, db1)
    end.

Notation "x <- m ;; k" := (bind m (fun x => k))
  (at level 61, m at next level, right associativity).

(** What a rolled-back transaction leaves: the tables as they were, the key
    generator where it got to. *)
Definition rollback (before after : DB) : DB :=
  mkDB (users before) (patients before) (visits before) (prescriptions before)
       (pharmacyStock before) (transactions before) (expenses before)
       (auditLogs before) (uuidSeed after).

(** [prisma.$transaction(async (tx) => body)] *)
Definition transaction {A} (body : Prisma A) : Prisma A :=
  fun db =>
    match body db with
    | (Done a, db1) => (Done a, db1)
    | (Thrown e, db1) => (Thrown e, rollback db db1)
    end.

(** ** Table primitives *)

Definition mem (x : Id) (l : list Id) : bool := existsb (String.eqb x) l.

Fixpoint update_first {A} (hit : A -> bool) (f : A -> A) (l : list A)
  : option (list A) :=
  match l with
  | [] => None
  | x :: rest =>
      if hit x then Some (f x :: rest)
      else option_map (cons x) (update_first hit f rest)
  end.

(** The [where] clauses. *)
Definition byVisitId (id : Id) (v : Visit) : bool := String.eqb (v_id v) id.

Definition byName (name : string) (s : PharmacyStock) : bool :=
  String.eqb (s_medicationName s) name.

Definition byStockId (id : Id) (s : PharmacyStock) : bool :=
  String.eqb (s_id s) id.

Definition byTransactionId (id : Id) (t : Transaction) : bool :=
  String.eqb (t_id t) id.

Definition byPrescriptionId (id : Id) (p : Prescription) : bool :=
  String.eqb (p_id p) id.

Definition set_visits (l : list Visit) (db : DB) : DB :=
  mkDB (users db) (patients db) l (prescriptions db) (pharmacyStock db)
       (transactions db) (expenses db) (auditLogs db) (uuidSeed db).

Definition set_prescriptions (l : list Prescription) (db : DB) : DB :=
  mkDB (users db) (patients db) (visits db) l (pharmacyStock db)
       (transactions db) (expenses db) (auditLogs db) (uuidSeed db).

Definition set_pharmacyStock (l : list PharmacyStock) (db : DB) : DB :=
  mkDB (users db) (patients db) (visits db) (prescriptions db) l
       (transactions db) (expenses db) (auditLogs db) (uuidSeed db).

Definition set_transactions (l : list Transaction) (db : DB) : DB :=
  mkDB (users db) (patients db) (visits db) (prescriptions db)
       (pharmacyStock db) l (expenses db) (auditLogs db) (uuidSeed db).

Definition set_expenses (l : list Expense) (db : DB) : DB :=
  mkDB (users db) (patients db) (visits db) (prescriptions db)
       (pharmacyStock db) (transactions db) l (auditLogs db) (uuidSeed db).

Definition set_auditLogs (l : list AuditLog) (db : DB) : DB :=
  mkDB (users db) (patients db) (visits db) (prescriptions db)
       (pharmacyStock db) (transactions db) (expenses db) l (uuidSeed db).

(** Draws the next primary key. *)
Definition newId : Prisma Id :=
  fun db =>
    (Done (uuid (uuidSeed db)),
     mkDB (users db) (patients db) (visits db) (prescriptions db)
          (pharmacyStock db) (transactions db) (expenses db) (auditLogs db)
          (S (uuidSeed db))).

(** A foreign key: the referenced row must exist. *)
Definition references (constraint : string) (key : Id) (table : DB -> list Id)
  : Prisma unit :=
  fun db =>
    if mem key (table db) then (Done tt, db)
    else (Thrown (ForeignKeyViolation constraint), db).

Definition references_opt (constraint : string) (key : option Id)
  (table : DB -> list Id) : Prisma unit :=
  match key with
  | None => ret tt
  | Some k => references constraint k table
  end.

Definition visit_ids (db : DB) : list Id := map v_id (visits db).

(** [visit.create]; the arguments are the data of the call, the key is
    generated. *)
Definition visit_create (patientId doctorId : Id) (chiefComplaint : string)
  (visitDate : Z) (status : string) : Prisma Visit :=
  _ <- references "visits_patientId_fkey" patientId patients ;;
  _ <- references "visits_doctorId_fkey" doctorId users ;;
  id <- newId ;;
  let row := mkVisit id patientId doctorId visitDate chiefComplaint status in
  fun db => (Done row, set_visits (visits db ++ [row]) db).

(** [visit.findUnique({ where: { id } })] *)
Definition visit_findUnique (id : Id) : Prisma (option Visit) :=
  fun db => (Done (find (byVisitId id) (visits db)), db).

(** [pharmacyStock.findFirst({ where: { medicationName } })] *)
Definition pharmacyStock_findFirst (name : string)
  : Prisma (option PharmacyStock) :=
  fun db =>
    (Done (find (byName name) (pharmacyStock db)), db).

(** [pharmacyStock.update({ where: { id }, data })] *)
Definition pharmacyStock_update (id : Id) (data : PharmacyStock -> PharmacyStock)
  : Prisma PharmacyStock :=
  fun db =>
    match find (byStockId id) (pharmacyStock db),
          update_first (byStockId id) data (pharmacyStock db)
    with
    | Some old, Some l => (Done (data old), set_pharmacyStock l db)
    | _, _ => (Thrown RecordNotFound, db)
    end.

(** [transaction.create] *)
Definition transaction_create (type category : string) (amount : Amount)
  (referenceId : option Id) (referenceType paymentMethod : option string)
  (createdBy : Id) (patientId : option Id) : Prisma Transaction :=
  _ <- references "transactions_createdBy_fkey" createdBy users ;;
  _ <- references_opt "transactions_patientId_fkey" patientId patients ;;
  id <- newId ;;
  let row := mkTransaction id type category amount referenceId referenceType
                           paymentMethod createdBy patientId in
  fun db => (Done row, set_transactions (transactions db ++ [row]) db).

(** [transaction.update({ where: { id }, data })] *)
Definition transaction_update (id : Id) (data : Transaction -> Transaction)
  : Prisma unit :=
  fun db =>
    match update_first (byTransactionId id) data (transactions db)
    with
    | Some l => (Done tt, set_transactions l db)
    | None => (Thrown RecordNotFound, db)
    end.

(** [prescription.create] *)
Definition prescription_create (row : Id -> Prescription) : Prisma Prescription :=
  id <- newId ;;
  let r := row id in
  _ <- references "prescriptions_visitId_fkey" (p_visitId r) visit_ids ;;
  _ <- references "prescriptions_prescribedBy_fkey" (p_prescribedBy r) users ;;
  fun db => (Done r, set_prescriptions (prescriptions db ++ [r]) db).

(** [prescription.update({ where: { id }, data })] *)
Definition prescription_update (id : Id) (data : Prescription -> Prescription)
  : Prisma Prescription :=
  fun db =>
    match find (byPrescriptionId id) (prescriptions db),
          update_first (byPrescriptionId id) data (prescriptions db)
    with
    | Some old, Some l => (Done (data old), set_prescriptions l db)
    | _, _ => (Thrown RecordNotFound, db)
    end.

(** [expense.create] *)
Definition expense_create (category : string) (amount : Amount) (date : Z)
  (createdBy : Id) : Prisma Expense :=
  _ <- references "expenses_createdBy_fkey" createdBy users ;;
  id <- newId ;;
  let row := mkExpense id category amount date createdBy in
  fun db => (Done row, set_expenses (expenses db ++ [row]) db).

(** [createAuditLog] of utils/audit.utils.ts: the insert is wrapped in a
    try/catch that only logs, so a failed insert leaves the tables alone. *)
Definition createAuditLog (userId action entity : string)
  (entityId : option Id) (db : DB) : DB :=
  if mem userId (users db) then
    match newId db with
    | (Done id, db1) =>
        set_auditLogs (auditLogs db1 ++ [mkAuditLog id userId action entity entityId]) db1
    | (Thrown _, db1) => db1
    end
  else db.

(** ** Requests *)

(** JavaScript truthiness of an optional string: [undefined] and the empty
    string are falsy. *)
Definition truthy (o : option string) : option string :=
  match o with
  | Some s => if String.eqb s "" then None else Some s
  | None => None
  end.

(** A date string of a request body with what [new Date] makes of it: a
    date, or Invalid Date.  Which strings parse is the JavaScript engine's
    business and is not modelled: the request says which of the two it is. *)
Inductive DateInput :=
| ValidDate (text : string)
| InvalidDate (text : string).

Definition dateText (d : DateInput) : string :=
  match d with
  | ValidDate text => text
  | InvalidDate text => text
  end.

(** Truthiness of an optional date string. *)
Definition truthyDate (o : option DateInput) : option DateInput :=
  match o with
  | Some d => if String.eqb (dateText d) "" then None else Some d
  | None => None
  end.

(** The DATETIME that [new Date(x)] gives a column, when it is a date. *)
Definition dateColumn (o : option DateInput) : option string :=
  match o with
  | Some (ValidDate text) => Some text
  | _ => None
  end.

Definition invalidDate (o : option DateInput) : bool :=
  match o with
  | Some (InvalidDate _) => true
  | _ => false
  end.

(** Prisma checks the [data] of a write before it sends the statement: with
    an Invalid Date in it the call throws and nothing is written. *)
Definition validated {A} (invalid : bool) (write : Prisma A) : Prisma A :=
  if invalid then throw (Message "Provided Date object is invalid")
  else write.

(** One entry of [req.body.medications]. *)
Record MedicationItem := mkMedicationItem
{ medication : string;
  dosage : string;
  frequency : string;
  duration : string;
  quantity : Z;
  instructions : option string }.

(** [req.body] of POST /prescriptions. *)
Record CreatePrescriptionBody := mkCreatePrescriptionBody
{ visitId : option Id;
  patientId : option Id;
  prescribedBy : Id;
  medications : list MedicationItem;
  paymentMethod : option string }.

(** ** The [data] objects of the update calls *)

(** [{ currentStock: v }] *)
Definition setCurrentStock (v : Z) (s : PharmacyStock) : PharmacyStock :=
  mkPharmacyStock (s_id s) (s_medicationName s) v (s_minimumStock s)
    (s_costPrice s) (s_sellingPrice s) (s_expiryDate s).

(** [{ referenceId: r }] *)
Definition setReferenceId (r : Id) (t : Transaction) : Transaction :=
  mkTransaction (t_id t) (t_type t) (t_category t) (t_amount t) (Some r)
    (t_referenceType t) (t_paymentMethod t) (t_createdBy t) (t_patientId t).

(** [{ totalAmount, paymentStatus: 'Paid', paidAt: new Date(),
       transactionId, status: 'Completed' }] *)
Definition markPaid (totalAmount : Amount) (now : Z) (transactionId : Id)
  (p : Prescription) : Prescription :=
  mkPrescription (p_id p) (p_visitId p) (p_prescribedBy p) (p_medication p)
    (p_dosage p) (p_frequency p) (p_duration p) (p_quantity p)
    (p_instructions p) "Completed" (Some totalAmount) "Paid" (Some now)
    (Some transactionId).

(** ** createPrescription *)

(** Step 1 of the transaction body: "Ensure Visit Exists". *)
Definition ensureVisit (user : option TokenPayload) (now : Z)
  (body : CreatePrescriptionBody) : Prisma Id :=
  match truthy (visitId body) with
  | Some finalVisitId => ret finalVisitId
  | None =>
      match truthy (patientId body) with
      | None => throw EitherVisitIdOrPatientIdRequired
      | Some patient =>
          match user with
          | None => throw UserNotAuthenticated
          | Some u =>
              visit <- visit_create patient (userId u) "Direct Prescription"
                                    now "Completed" ;;
              ret (v_id visit)
          end
      end
  end.

(** The [data] of the [prescription.create] call of the loop. *)
Definition newPrescription (now : Z) (body : CreatePrescriptionBody)
  (finalVisitId : Id) (med : MedicationItem) (totalAmount : Amount)
  (transactionId : Id) (id : Id) : Prescription :=
  mkPrescription id finalVisitId (prescribedBy body) (medication med)
    (dosage med) (frequency med) (duration med) (quantity med)
    (instructions med) "Completed" (Some totalAmount) "Paid" (Some now)
    (Some transactionId).

(** [req.user?.userId || ''] *)
Definition createdByOf (user : option TokenPayload) : Id :=
  match user with
  | Some u => userId u
  | None => ""
  end.

(** The body of the [for (const med of medications)] loop. *)
Definition fulfillItem (user : option TokenPayload) (now : Z)
  (body : CreatePrescriptionBody) (method : string) (finalVisitId : Id)
  (transactionPatientId : Id) (med : MedicationItem) : Prisma Prescription :=
  stockItem <- pharmacyStock_findFirst (medication med) ;;
  match stockItem with
  | None => throw (MedicationNotFound (medication med))
  | Some stockItem =>
      if s_currentStock stockItem <? quantity med then
        throw (InsufficientStockFor (medication med)
                                    (s_currentStock stockItem) (quantity med))
      else
        _ <- pharmacyStock_update (s_id stockItem)
               (setCurrentStock (s_currentStock stockItem - quantity med)) ;;
        let totalAmount := Product (s_sellingPrice stockItem) (quantity med) in
        tx <- transaction_create "SALE" "PHARMACY" totalAmount None
                (Some "Prescription") (Some method) (createdByOf user)
                (Some transactionPatientId) ;;
        prescription <- prescription_create
            (newPrescription now body finalVisitId med totalAmount (t_id tx)) ;;
        _ <- transaction_update (t_id tx)
               (setReferenceId (p_id prescription)) ;;
        ret prescription
  end.

(** The loop over [medications]; [createdPrescriptions] is built in request
    order. *)
Fixpoint fulfillItems (user : option TokenPayload) (now : Z)
  (body : CreatePrescriptionBody) (method : string) (finalVisitId : Id)
  (transactionPatientId : Id) (meds : list MedicationItem)
  : Prisma (list Prescription) :=
  match meds with
  | [] => ret []
  | med :: rest =>
      prescription <- fulfillItem user now body method finalVisitId
                                  transactionPatientId med ;;
      created <- fulfillItems user now body method finalVisitId
                              transactionPatientId rest ;;
      ret (prescription :: created)
  end.

(** The callback handed to [prisma.$transaction]. It also yields
    [finalVisitId], which the controller keeps in an outer variable. *)
Definition createPrescriptionTx (user : option TokenPayload) (now : Z)
  (body : CreatePrescriptionBody) (method : string)
  : Prisma (Id * list Prescription) :=
  finalVisitId <- ensureVisit user now body ;;
  visitData <- visit_findUnique finalVisitId ;;
  match visitData with
  | None => throw InvalidVisitID
  | Some visitData =>
      created <- fulfillItems user now body method finalVisitId
                              (v_patientId visitData) (medications body) ;;
      ret (finalVisitId, created)
  end.

(** [req.body.paymentMethod || 'Cash'] *)
Definition paymentMethodOf (o : option string) : string :=
  match truthy o with
  | Some m => m
  | None => "Cash"
  end.

Definition createPrescription (user : option TokenPayload) (now : Z)
  (body : CreatePrescriptionBody) (db : DB)
  : Response (list Prescription) * DB :=
  match transaction
          (createPrescriptionTx user now body
             (paymentMethodOf (paymentMethod body))) db
  with
  | (Done (finalVisitId, result), db1) =>
      let db2 :=
        match user with
        | Some u =>
            createAuditLog (userId u) "CREATE_PRESCRIPTION_AUTO_FULFILLED"
              "Prescription"
              (Some (match result with
                     | p :: _ => if String.eqb (p_id p) "" then "BATCH" else p_id p
                     | [] => "BATCH"
                     end))
              db1
        | None => db1
        end in
      (Json 201 result, db2)
  | (Thrown e, db1) => (ErrorJson 500 e, db1)
  end.

(** ** updatePrescription *)

(** [req.body] of PUT /prescriptions/:id as the controller uses it: the
    object is handed to [prescription.update] as its [data], so every
    column it names is written.  [None] is an absent key.  The keys kept
    here are the two of the route's schema and the quantity and payment
    columns, each with a value of its column's type.  A body with any other
    key -- one Prisma does not know, which it refuses, or the key, the
    visit, the prescriber or a relation of the row -- is not a value of this
    type: what is stated of [updatePrescription] is stated of bodies made of
    these seven keys. *)
Record PrescriptionUpdate := mkPrescriptionUpdate
{ u_status : option string;
  u_instructions : option string;
  u_quantity : option Z;
  u_totalAmount : option Q;
  u_paymentStatus : option string;
  u_paidAt : option Z;
  u_transactionId : option Id }.

Definition orElse {A} (o : option A) (d : A) : A :=
  match o with
  | Some a => a
  | None => d
  end.

Definition orKeep {A} (o : option A) (d : option A) : option A :=
  match o with
  | Some a => Some a
  | None => d
  end.

Definition applyUpdate (data : PrescriptionUpdate) (p : Prescription)
  : Prescription :=
  mkPrescription (p_id p) (p_visitId p) (p_prescribedBy p) (p_medication p)
    (p_dosage p) (p_frequency p) (p_duration p)
    (orElse (u_quantity data) (p_quantity p))
    (orKeep (u_instructions data) (p_instructions p))
    (orElse (u_status data) (p_status p))
    (orKeep (option_map Given (u_totalAmount data)) (p_totalAmount p))
    (orElse (u_paymentStatus data) (p_paymentStatus p))
    (orKeep (u_paidAt data) (p_paidAt p))
    (orKeep (u_transactionId data) (p_transactionId p)).

(** [updatePrescriptionSchema] of routes/prescriptions.routes.ts:
    [status] is one of the three states when present, [instructions] is a
    string when present.  A zod object schema does not reject keys it does
    not list, so the other keys of the body are unconstrained. *)
Definition updatePrescriptionSchema (data : PrescriptionUpdate) : bool :=
  match u_status data with
  | Some s => String.eqb s "Active" || String.eqb s "Completed"
              || String.eqb s "Cancelled"
  | None => true
  end.

Definition updatePrescription (user : option TokenPayload) (id : Id)
  (updateData : PrescriptionUpdate) (db : DB) : Response Prescription * DB :=
  match prescription_update id (applyUpdate updateData) db with
  | (Done prescription, db1) =>
      let db2 :=
        match user with
        | Some u => createAuditLog (userId u) "UPDATE_PRESCRIPTION"
                      "Prescription" (Some (p_id prescription)) db1
        | None => db1
        end in
      (Json 200 prescription, db2)
  | (Thrown _, db1) => (ErrorJson 500 (Message "Failed to update prescription"), db1)
  end.

(** Modelled from the spec: the validation middleware
    (middlewares/validation.middleware.ts, the [validate] of the routes) is
    not among the sources.  The spec has malformed input "rejected before any
    write"; here a body the schema refuses is answered 400 and a body the
    schema accepts reaches the controller as it was sent, which is what
    [adjustStock] and [createPrescription] rely on when they read
    [newCost], [newExpiry] and [paymentMethod], keys their schemas do not
    list. *)
Definition validate {B A} (schema : B -> bool)
  (controller : B -> DB -> Response A * DB) (body : B) (db : DB)
  : Response A * DB :=
  if schema body then controller body db
  else (ErrorJson 400 (Message "Validation failed"), db).

(** PUT /prescriptions/:id:
    [validate(updatePrescriptionSchema), updatePrescription]. *)
Definition putPrescription (user : option TokenPayload) (id : Id)
  : PrescriptionUpdate -> DB -> Response Prescription * DB :=
  validate updatePrescriptionSchema (updatePrescription user id).

(** ** fulfillPrescription *)

(** What a successful POST /prescriptions/:id/fulfill answers with. *)
Record Fulfilled := mkFulfilled
{ f_prescription : Prescription;
  f_transaction : Transaction;
  f_stockRemaining : Z }.

(** The callback handed to [prisma.$transaction] by [fulfillPrescription].
    [prescription.visit] is the joined visit row; reading [patientId] off a
    missing one is a TypeError. *)
Definition fulfillPrescriptionTx (u : TokenPayload) (now : Z) (id : Id)
  (method : string) (prescription : Prescription) (medication : PharmacyStock)
  (totalAmount : Amount) : Prisma Fulfilled :=
  updatedStock <- pharmacyStock_update (s_id medication)
     (setCurrentStock (s_currentStock medication - p_quantity prescription)) ;;
  visit <- visit_findUnique (p_visitId prescription) ;;
  match visit with
  | None => throw TypeError
  | Some visit =>
      tx <- transaction_create "SALE" "PHARMACY" totalAmount
              (Some (p_id prescription)) (Some "Prescription") (Some method)
              (userId u) (Some (v_patientId visit)) ;;
      updatedPrescription <- prescription_update id
         (markPaid totalAmount now (t_id tx)) ;;
      ret (mkFulfilled updatedPrescription tx (s_currentStock updatedStock))
  end.

Definition fulfillPrescription (user : option TokenPayload) (now : Z) (id : Id)
  (method : option string) (db : DB) : Response Fulfilled * DB :=
  match user with
  | None => (ErrorJson 401 (Message "Not authenticated"), db)
  | Some u =>
    match find (byPrescriptionId id) (prescriptions db) with
    | None => (ErrorJson 404 (Message "Prescription not found"), db)
    | Some prescription =>
      if String.eqb (p_paymentStatus prescription) "Paid" then
        (ErrorJson 400 (Message "Prescription already fulfilled"), db)
      else if String.eqb (p_status prescription) "Cancelled" then
        (ErrorJson 400 (Message "Cannot fulfill cancelled prescription"), db)
      else
        match find (byName (p_medication prescription)) (pharmacyStock db) with
        | None =>
            (ErrorJson 404 (Message "Medication not found in pharmacy stock"), db)
        | Some medication =>
          if s_currentStock medication <? p_quantity prescription then
            (ErrorJson 400 (InsufficientStock (s_currentStock medication)
                                              (p_quantity prescription)), db)
          else
            let totalAmount := Product (s_sellingPrice medication)
                                       (p_quantity prescription) in
            match transaction
                    (fulfillPrescriptionTx u now id (orElse method "Cash")
                       prescription medication totalAmount) db
            with
            | (Done result, db1) =>
                (Json 200 result,
                 createAuditLog (userId u) "FULFILL_PRESCRIPTION"
                   "Prescription" (Some (p_id prescription)) db1)
            | (Thrown _, db1) =>
                (ErrorJson 500 (Message "Failed to fulfill prescription"), db1)
            end
        end
    end
  end.

(** ** adjustStock (controllers/pharmacy.controller.ts) *)

(** [req.body] of POST /pharmacy/:id/stock. *)
Record AdjustStockBody := mkAdjustStockBody
{ adj_quantity : Z;
  adj_type : string;
  newCost : option Q;
  newExpiry : option DateInput }.

Definition isAdd (body : AdjustStockBody) : bool :=
  String.eqb (adj_type body) "add".

(** [type === 'add' ? currentStock + quantity : currentStock - quantity] *)
Definition newStockOf (medication : PharmacyStock) (body : AdjustStockBody) : Z :=
  if isAdd body then s_currentStock medication + adj_quantity body
  else s_currentStock medication - adj_quantity body.

(** The [updateData] object; [new Date(newExpiry)] as the column would hold
    it (an Invalid Date never gets there, see [adjustStockWrites]). *)
Definition stockUpdateData (medication : PharmacyStock) (body : AdjustStockBody)
  (s : PharmacyStock) : PharmacyStock :=
  mkPharmacyStock (s_id s) (s_medicationName s) (newStockOf medication body)
    (s_minimumStock s)
    (if isAdd body then orElse (newCost body) (s_costPrice s)
     else s_costPrice s)
    (s_sellingPrice s)
    (if isAdd body then orKeep (dateColumn (newExpiry body)) (s_expiryDate s)
     else s_expiryDate s).

(** [newCost ? Number(newCost) : Number(medication.costPrice)]: a number is
    truthy when it is not zero. *)
Definition costPerUnitOf (medication : PharmacyStock) (body : AdjustStockBody) : Q :=
  match newCost body with
  | Some c => if Qeq_bool c 0 then s_costPrice medication else c
  | None => s_costPrice medication
  end.

Definition totalCostOf (medication : PharmacyStock) (body : AdjustStockBody)
  : Amount :=
  Product (costPerUnitOf medication body) (adj_quantity body).

(** The writes of [adjustStock], in program order.  They are issued on the
    plain client, one statement each: nothing here goes through
    [transaction].  The update is refused before it writes when [updateData]
    holds an Invalid Date, which it can only on "add". *)
Definition adjustStockWrites (user : option TokenPayload) (now : Z) (id : Id)
  (medication : PharmacyStock) (body : AdjustStockBody) : Prisma PharmacyStock :=
  updated <- validated (isAdd body && invalidDate (newExpiry body))
               (pharmacyStock_update id (stockUpdateData medication body)) ;;
  _ <- (if isAdd body && (0 <? adj_quantity body) then
          let totalCost := totalCostOf medication body in
          if isPositive totalCost then
            match user with
            | None => throw TypeError
            | Some u =>
                _ <- expense_create "INVENTORY" totalCost now (userId u) ;;
                _ <- transaction_create "EXPENSE" "PHARMACY" totalCost
                       (Some (s_id medication)) (Some "PharmacyStock") None
                       (userId u) None ;;
                ret tt
            end
          else ret tt
        else ret tt) ;;
  ret updated.

Definition adjustStock (user : option TokenPayload) (now : Z) (id : Id)
  (body : AdjustStockBody) (db : DB) : Response PharmacyStock * DB :=
  match find (byStockId id) (pharmacyStock db) with
  | None => (ErrorJson 404 (Message "Medication not found"), db)
  | Some medication =>
      if newStockOf medication body <? 0 then
        (ErrorJson 400 (Message "Insufficient stock"), db)
      else
        match adjustStockWrites user now id medication body db with
        | (Done updated, db1) =>
            let db2 :=
              match user with
              | Some u => createAuditLog (userId u) "ADJUST_STOCK"
                            "PharmacyStock" (Some (s_id medication)) db1
              | None => db1
              end in
            (Json 200 updated, db2)
        | (Thrown _, db1) =>
            (ErrorJson 500 (Message "Failed to adjust stock"), db1)
        end
  end.

(** ** updateMedication: the one controller that rewrites [sellingPrice]

    [expiryDate ? new Date(expiryDate) : undefined]: an Invalid Date makes
    the update throw before it writes. *)

Record MedicationUpdate := mkMedicationUpdate
{ m_medicationName : option string;
  m_minimumStock : option Z;
  m_costPrice : option Q;
  m_sellingPrice : option Q;
  m_expiryDate : option DateInput }.

(** The unique index on [medicationName]
    (pharmacy_stock_medicationName_key) on an update: the name is refused
    when a row with another key holds it. *)
Definition nameTaken (id : Id) (name : option string) (db : DB) : bool :=
  match name with
  | Some n => existsb (fun s => byName n s && negb (byStockId id s))
                      (pharmacyStock db)
  | None => false
  end.

(** [pharmacyStock.update] with a [data] that may carry [medicationName]. *)
Definition pharmacyStock_rename (id : Id) (name : option string)
  (data : PharmacyStock -> PharmacyStock) : Prisma PharmacyStock :=
  fun db =>
    if nameTaken id name db then
      (Thrown (Message "Unique constraint failed on the fields: (`medicationName`)"), db)
    else pharmacyStock_update id data db.

Definition updateMedication (user : option TokenPayload) (id : Id)
  (data : MedicationUpdate) (db : DB) : Response PharmacyStock * DB :=
  match validated (invalidDate (truthyDate (m_expiryDate data)))
          (pharmacyStock_rename id (m_medicationName data)
             (fun s => mkPharmacyStock (s_id s)
                         (orElse (m_medicationName data) (s_medicationName s))
                         (s_currentStock s)
                         (orElse (m_minimumStock data) (s_minimumStock s))
                         (orElse (m_costPrice data) (s_costPrice s))
                         (orElse (m_sellingPrice data) (s_sellingPrice s))
                         (orKeep (dateColumn (truthyDate (m_expiryDate data)))
                                 (s_expiryDate s)))) db
  with
  | (Done medication, db1) =>
      let db2 :=
        match user with
        | Some u => createAuditLog (userId u) "UPDATE_MEDICATION"
                      "PharmacyStock" (Some (s_id medication)) db1
        | None => db1
        end in
      (Json 200 medication, db2)
  | (Thrown _, db1) => (ErrorJson 500 (Message "Failed to update medication"), db1)
  end.

(** ** requireRole (middlewares/rbac.middleware.ts) *)

(** [requireRole(...allowedRoles)] in front of the handler [next]. *)
Definition requireRole {A} (allowedRoles : list string)
  (user : option TokenPayload) (next : DB -> Response A * DB) (db : DB)
  : Response A * DB :=
  match user with
  | None => (ErrorJson 401 (Message "Authentication required"), db)
  | Some u =>
      if existsb (String.eqb (roleName u)) allowedRoles then next db
      else (ErrorJson 403 (Message "Access denied"), db)
  end.

(** ** createMedication (controllers/pharmacy.controller.ts) *)

(** [req.body] of POST /pharmacy; [None] is an absent key. *)
Record CreateMedicationBody := mkCreateMedicationBody
{ cm_medicationName : string;
  cm_minimumStock : option Z;
  cm_costPrice : option Q;
  cm_sellingPrice : option Q;
  cm_expiryDate : option DateInput;
  cm_currentStock : option Z }.

(** [Number(x) || d] on an integer: zero and a missing value give [d]. *)
Definition numberOrZ (x : option Z) (d : Z) : Z :=
  match x with
  | Some v => if v =? 0 then d else v
  | None => d
  end.

(** [Number(x) || d] on a decimal. *)
Definition numberOrQ (x : option Q) (d : Q) : Q :=
  match x with
  | Some v => if Qeq_bool v 0 then d else v
  | None => d
  end.

(** [pharmacyStock.create]: the unique index on [medicationName]
    (pharmacy_stock_medicationName_key) refuses a name that is taken. *)
Definition pharmacyStock_create (row : Id -> PharmacyStock) : Prisma PharmacyStock :=
  id <- newId ;;
  let r := row id in
  fun db =>
    if existsb (byName (s_medicationName r)) (pharmacyStock db) then
      (Thrown (Message "Unique constraint failed on the fields: (`medicationName`)"), db)
    else (Done r, set_pharmacyStock (pharmacyStock db ++ [r]) db).

(** The [data] of the create call;
    [expiryDate ? new Date(expiryDate) : null] as the column would hold it
    (an Invalid Date never gets there, see [createMedication]). *)
Definition newMedication (body : CreateMedicationBody) (id : Id) : PharmacyStock :=
  mkPharmacyStock id (cm_medicationName body)
    (numberOrZ (cm_currentStock body) 0)
    (numberOrZ (cm_minimumStock body) 10)
    (numberOrQ (cm_costPrice body) 0)
    (numberOrQ (cm_sellingPrice body) 0)
    (dateColumn (truthyDate (cm_expiryDate body))).

Definition createMedication (user : option TokenPayload)
  (body : CreateMedicationBody) (db : DB) : Response PharmacyStock * DB :=
  match validated (invalidDate (truthyDate (cm_expiryDate body)))
          (pharmacyStock_create (newMedication body)) db
  with
  | (Done medication, db1) =>
      let db2 :=
        match user with
        | Some u => createAuditLog (userId u) "CREATE_MEDICATION"
                      "PharmacyStock" (Some (s_id medication)) db1
        | None => db1
        end in
      (Json 200 medication, db2)
  | (Thrown _, db1) => (ErrorJson 500 (Message "Failed to create medication"), db1)
  end.

(** ** The pharmacy routes (routes/pharmacy.routes.ts) *)

(** [createMedicationSchema]: a name of at least one character, stock and
    minimum stock integers that are not negative, both prices positive. *)
Definition createMedicationSchema (body : CreateMedicationBody) : bool :=
  negb (String.eqb (cm_medicationName body) "")
  && match cm_currentStock body with Some v => 0 <=? v | None => false end
  && match cm_minimumStock body with Some v => 0 <=? v | None => false end
  && match cm_costPrice body with
     | Some c => negb (Qle_bool c 0)
     | None => false
     end
  && match cm_sellingPrice body with
     | Some c => negb (Qle_bool c 0)
     | None => false
     end.

(** [adjustStockSchema]: a positive integer quantity, a type that is "add"
    or "subtract". *)
Definition adjustStockSchema (body : AdjustStockBody) : bool :=
  (0 <? adj_quantity body)
  && (String.eqb (adj_type body) "add" || String.eqb (adj_type body) "subtract").

(** [updateMedicationSchema]: the numbers it lists are a minimum stock that
    is not negative and positive prices. *)
Definition updateMedicationSchema (data : MedicationUpdate) : bool :=
  match m_minimumStock data with Some v => 0 <=? v | None => true end
  && match m_costPrice data with Some c => negb (Qle_bool c 0) | None => true end
  && match m_sellingPrice data with Some c => negb (Qle_bool c 0) | None => true end.

(** POST /pharmacy *)
Definition postMedication (user : option TokenPayload)
  (body : CreateMedicationBody) : DB -> Response PharmacyStock * DB :=
  requireRole ["Admin"; "Pharmacist"] user
    (validate createMedicationSchema (createMedication user) body).

(** PUT /pharmacy/:id *)
Definition putMedication (user : option TokenPayload) (id : Id)
  (data : MedicationUpdate) : DB -> Response PharmacyStock * DB :=
  requireRole ["Admin"; "Pharmacist"] user
    (validate updateMedicationSchema (updateMedication user id) data).

(** POST /pharmacy/:id/stock *)
Definition postStock (user : option TokenPayload) (now : Z) (id : Id)
  (body : AdjustStockBody) : DB -> Response PharmacyStock * DB :=
  requireRole ["Admin"; "Pharmacist"] user
    (validate adjustStockSchema (adjustStock user now id) body).

(** ** getLowStockAlerts and the low_stock listing *)

(** [ORDER BY]: insertion into an ordered list.  Rows that tie keep their
    table order (SQLite leaves the order of ties open). *)
Fixpoint insertBy {A} (le : A -> A -> bool) (x : A) (l : list A) : list A :=
  match l with
  | [] => [x]
  | y :: rest => if le x y then x :: l else y :: insertBy le x rest
  end.

Definition orderBy {A} (le : A -> A -> bool) (l : list A) : list A :=
  fold_right (insertBy le) [] l.

(** [SELECT * FROM pharmacy_stock WHERE currentStock <= minimumStock
     ORDER BY currentStock ASC] *)
Definition getLowStockAlerts (db : DB) : Response (list PharmacyStock) * DB :=
  (Json 200
     (orderBy (fun a b => s_currentStock a <=? s_currentStock b)
        (filter (fun s => s_currentStock s <=? s_minimumStock s)
                (pharmacyStock db))),
   db).

(** [getAllMedications] with [status=low_stock]: the controller answers with
    this query and returns; search and category are not applied.
    [SELECT * FROM pharmacy_stock WHERE currentStock <= minimumStock AND
     currentStock > 0 ORDER BY medicationName ASC] *)
Definition getAllMedications_low_stock (db : DB)
  : Response (list PharmacyStock) * DB :=
  (Json 200
     (orderBy (fun a b => String.leb (s_medicationName a) (s_medicationName b))
        (filter (fun s => (s_currentStock s <=? s_minimumStock s)
                          && (0 <? s_currentStock s))
                (pharmacyStock db))),
   db).

(** ** The prescription routes and read controllers *)

(** POST /prescriptions/:id/fulfill *)
Definition postFulfill (user : option TokenPayload) (now : Z) (id : Id)
  (method : option string) : DB -> Response Fulfilled * DB :=
  requireRole ["Admin"; "Pharmacist"] user (fulfillPrescription user now id method).

(** PUT /prescriptions/:id with its role check. *)
Definition routePutPrescription (user : option TokenPayload) (id : Id)
  (data : PrescriptionUpdate) : DB -> Response Prescription * DB :=
  requireRole ["Admin"; "Doctor"; "Pharmacist"] user (putPrescription user id data).

(** [getPrescriptionsByVisit]: the prescriptions of a visit, newest first
    ([createdAt] grows with the position in the table). *)
Definition getPrescriptionsByVisit (visit : Id) (db : DB)
  : Response (list Prescription) * DB :=
  (Json 200 (rev (filter (fun p => String.eqb (p_visitId p) visit)
                         (prescriptions db))), db).

(** The [counts] object of [getPrescriptionStats]. *)
Record PrescriptionCounts := mkPrescriptionCounts
{ c_total : nat;
  c_active : nat;
  c_completed : nat;
  c_cancelled : nat }.

Definition countStatus (status : string) (l : list Prescription) : nat :=
  length (filter (fun p => String.eqb (p_status p) status) l).

Definition prescriptionCounts (db : DB) : PrescriptionCounts :=
  mkPrescriptionCounts (length (prescriptions db))
    (countStatus "Active" (prescriptions db))
    (countStatus "Completed" (prescriptions db))
    (countStatus "Cancelled" (prescriptions db)).

(** ** Predicates used in the statements *)

(** [preserves P m]: running [m] keeps [P], whether it returns or throws. *)
Definition preserves {A} (P : DB -> Prop) (m : Prisma A) : Prop :=
  forall db, P db -> P (snd (m db)).

(** A property of the tables, indifferent to the key generator. *)
Definition on_tables (P : DB -> Prop) : Prop :=
  forall a b, P a -> P (rollback a b).

(** All tables of two databases agree. *)
Definition same_tables (a b : DB) : Prop :=
  users a = users b /\ patients a = patients b /\ visits a = visits b /\
  prescriptions a = prescriptions b /\ pharmacyStock a = pharmacyStock b /\
  transactions a = transactions b /\ expenses a = expenses b /\
  auditLogs a = auditLogs b.

(** Every stock level is non-negative. *)
Definition stock_nonneg (db : DB) : Prop :=
  Forall (fun s => 0 <= s_currentStock s) (pharmacyStock db).

(** One request to one of the three controllers that write [currentStock]. *)
Inductive StockOp :=
| OpAdjustStock (user : option TokenPayload) (now : Z) (id : Id)
    (body : AdjustStockBody)
| OpCreatePrescription (user : option TokenPayload) (now : Z)
    (body : CreatePrescriptionBody)
| OpFulfillPrescription (user : option TokenPayload) (now : Z) (id : Id)
    (method : option string).

(** The database a request leaves behind. *)
Definition runOp (op : StockOp) (db : DB) : DB :=
  match op with
  | OpAdjustStock user now id body => snd (adjustStock user now id body db)
  | OpCreatePrescription user now body => snd (createPrescription user now body db)
  | OpFulfillPrescription user now id method =>
      snd (fulfillPrescription user now id method db)
  end.

(** The databases seen after each request of a sequence, in order. *)
Fixpoint trace (ops : list StockOp) (db : DB) : list DB :=
  match ops with
  | [] => []
  | op :: rest => runOp op db :: trace rest (runOp op db)
  end.


(** The row written by the [transaction.create] call of the loop. *)
Definition saleOf (user : option TokenPayload) (method : string)
  (transactionPatientId : Id) (amount : Amount) (id : Id) : Transaction :=
  mkTransaction id "SALE" "PHARMACY" amount None (Some "Prescription")
    (Some method) (createdByOf user) (Some transactionPatientId).

(** [price * quantity] as the loop computes it. *)
Definition lineAmount (s : PharmacyStock) (med : MedicationItem) : Amount :=
  Product (s_sellingPrice s) (quantity med).

(** The rows a line of the batch refers to exist: the caller and the
    prescriber among the users, the patient among the patients, the visit
    among the visits. *)
Definition line_refs (user : option TokenPayload) (body : CreatePrescriptionBody)
  (finalVisitId transactionPatientId : Id) (db : DB) : Prop :=
  mem (createdByOf user) (users db) = true /\
  mem transactionPatientId (patients db) = true /\
  mem finalVisitId (map v_id (visits db)) = true /\
  mem (prescribedBy body) (users db) = true.

(** The stock conditions of the contract, read against the stock as the
    earlier lines of the batch leave it: the batch is refused with error [e]
    when some line asks for a medication that has no stock row
    ([MedicationNotFound]) or for more than its row holds
    ([InsufficientStockFor]), every line before it having been served. *)
Inductive batch_refusal : list PharmacyStock -> list MedicationItem -> Error -> Prop :=
| refusal_unknown : forall stock med rest,
    find (byName (medication med)) stock = None ->
    batch_refusal stock (med :: rest) (MedicationNotFound (medication med))
| refusal_insufficient : forall stock med rest s,
    find (byName (medication med)) stock = Some s ->
    s_currentStock s < quantity med ->
    batch_refusal stock (med :: rest)
      (InsufficientStockFor (medication med) (s_currentStock s) (quantity med))
| refusal_later : forall stock med rest s stock' e,
    find (byName (medication med)) stock = Some s ->
    quantity med <= s_currentStock s ->
    update_first (byStockId (s_id s))
      (setCurrentStock (s_currentStock s - quantity med)) stock = Some stock' ->
    batch_refusal stock' rest e ->
    batch_refusal stock (med :: rest) e.

(** The anchor conditions of the contract. *)
Definition missing_anchor (body : CreatePrescriptionBody) : Prop :=
  truthy (visitId body) = None /\ truthy (patientId body) = None.

Definition invalid_visit (body : CreatePrescriptionBody) (db : DB) : Prop :=
  exists v, truthy (visitId body) = Some v /\
            find (byVisitId v) (visits db) = None.

(** The rows a request refers to exist: the caller is authenticated and has a
    user row, the prescriber has a user row, the patient named for a new
    visit has a patient row, and the visits of the database point at
    patients that exist (the foreign key [visits_patientId_fkey]). *)
Definition request_refs_ok (user : option TokenPayload)
  (body : CreatePrescriptionBody) (db : DB) : bool :=
  forallb (fun v => mem (v_patientId v) (patients db)) (visits db)
  && mem (prescribedBy body) (users db)
  && match user with
     | Some u => mem (userId u) (users db)
     | None => false
     end
  && match truthy (visitId body), truthy (patientId body) with
     | None, Some p => mem p (patients db)
     | _, _ => true
     end.

(** The visit that anchors a batch sent without [visitId]. *)
Definition directVisit (id patient doctor : Id) (now : Z) : Visit :=
  mkVisit id patient doctor now "Direct Prescription" "Completed".

(** The four failure conditions of the contract, each with the error that
    reports it.  The anchor is checked before any line is looked at. *)
Definition contract_failure (body : CreatePrescriptionBody) (db : DB)
  (e : Error) : Prop :=
  (missing_anchor body /\ e = EitherVisitIdOrPatientIdRequired) \/
  (invalid_visit body db /\ e = InvalidVisitID) \/
  (~ missing_anchor body /\ ~ invalid_visit body db /\
   batch_refusal (pharmacyStock db) (medications body) e).

(** The stock a fully served batch leaves: each line found its row, the row
    held enough, and the row with that key was rewritten. *)
Inductive batch_served : list PharmacyStock -> list MedicationItem
                         -> list PharmacyStock -> Prop :=
| served_none : forall stock, batch_served stock [] stock
| served_line : forall stock med rest s stock' stock'',
    find (byName (medication med)) stock = Some s ->
    quantity med <= s_currentStock s ->
    update_first (byStockId (s_id s))
      (setCurrentStock (s_currentStock s - quantity med)) stock = Some stock' ->
    batch_served stock' rest stock'' ->
    batch_served stock (med :: rest) stock''.

(** No key occurs twice. *)
Fixpoint distinct (l : list Id) : bool :=
  match l with
  | [] => true
  | x :: rest => negb (mem x rest) && distinct rest
  end.

(** The stock level of the medication called [name]. *)
Definition stockOf (db : DB) (name : string) : option Z :=
  option_map s_currentStock (find (byName name) (pharmacyStock db)).

(** The visits table after a call: as before, or with the one visit the
    call created. *)
Definition visits_after (user : option TokenPayload) (now : Z)
  (body : CreatePrescriptionBody) (db db' : DB) : Prop :=
  visits db' = visits db \/
  exists patient u,
    truthy (visitId body) = None /\ truthy (patientId body) = Some patient /\
    user = Some u /\
    visits db' = visits db ++ [directVisit (uuid (uuidSeed db)) patient (userId u) now].

(** The request has an anchor: a visit id that resolves, or a patient id. *)
Definition anchor_ok (body : CreatePrescriptionBody) (db : DB) : bool :=
  match truthy (visitId body) with
  | Some v =>
      match find (byVisitId v) (visits db) with
      | Some _ => true
      | None => false
      end
  | None =>
      match truthy (patientId body) with
      | Some _ => true
      | None => false
      end
  end.

(** [below n id]: [id] is not a key the generator will hand out from seed
    [n] on. *)
Definition below (n : nat) (id : Id) : bool :=
  match uuid_index id with
  | Some k => Nat.ltb k n
  | None => true
  end.

(** No transaction already carries a key that is still to be generated. *)
Definition fresh_transaction_ids (db : DB) : bool :=
  forallb (fun t => below (uuidSeed db) (t_id t)) (transactions db).



Inductive Forall3 {A B C} (R : A -> B -> C -> Prop)
  : list A -> list B -> list C -> Prop :=
| Forall3_nil : Forall3 R [] [] []
| Forall3_cons : forall a b c la lb lc,
    R a b c -> Forall3 R la lb lc ->
    Forall3 R (a :: la) (b :: lb) (c :: lc).




(** The payment side of a prescription row. *)
Definition payment_view (p : Prescription)
  : Id * string * option Amount * option Z * option Id * Z :=
  (p_id p, p_paymentStatus p, p_totalAmount p, p_paidAt p, p_transactionId p,
   p_quantity p).

(** The body carries no other key than those of
    [updatePrescriptionSchema]. *)
Definition schema_keys_only (data : PrescriptionUpdate) : bool :=
  match u_quantity data, u_totalAmount data, u_paymentStatus data,
        u_paidAt data, u_transactionId data with
  | None, None, None, None, None => true
  | _, _, _, _, _ => false
  end.

(** One request to one of the three prescription controllers. *)
Inductive PrescriptionOp :=
| PCreate (user : option TokenPayload) (now : Z) (body : CreatePrescriptionBody)
| PUpdate (user : option TokenPayload) (id : Id) (data : PrescriptionUpdate)
| PFulfill (user : option TokenPayload) (now : Z) (id : Id)
    (method : option string).

Definition runPrescriptionOp (op : PrescriptionOp) (db : DB) : DB :=
  match op with
  | PCreate user now body => snd (createPrescription user now body db)
  | PUpdate user id data => snd (updatePrescription user id data db)
  | PFulfill user now id method => snd (fulfillPrescription user now id method db)
  end.

Definition runPrescriptionOps (ops : list PrescriptionOp) (db : DB) : DB :=
  fold_left (fun d op => runPrescriptionOp op d) ops db.

Definition within_schema (op : PrescriptionOp) : bool :=
  match op with
  | PUpdate _ _ data => schema_keys_only data
  | _ => true
  end.

(** ** Tactics *)

(** Unfolds the table primitives down to their tests. *)
Ltac prim :=
  unfold visit_create, visit_findUnique, pharmacyStock_findFirst,
    pharmacyStock_update, transaction_create,
    transaction_update, prescription_create, prescription_update, expense_create, references_opt, references, newId,
    bind, ret, throw, set_visits, set_prescriptions, set_pharmacyStock,
    set_transactions, set_expenses, set_auditLogs in *.

(** Two lookups of the same table with the same clause found the same row. *)
Ltac same_row :=
  repeat match goal with
         | H1 : ?x = Some ?a, H2 : ?x = Some ?b |- _ =>
             first [ constr_eq a b; fail 1
                   | assert (a = b) by congruence; subst a; clear H1 ]
         end.

Ltac split_tests :=
  repeat match goal with
         | |- context [if ?c then _ else _] => destruct c eqn:?
         | |- context [match ?x with Some _ => _ | None => _ end] =>
             destruct x eqn:?
         end; simpl in *.

(** ** Worked data *)

Definition admin : TokenPayload :=
  mkTokenPayload "admin-1" "admin@theophilus.local" "role-admin" "Admin".

Definition stockRow (id name : string) (stock : Z) (cost price : Q)
  : PharmacyStock :=
  mkPharmacyStock id name stock 10 cost price None.

Definition item (name : string) (q : Z) : MedicationItem :=
  mkMedicationItem name "500mg" "3x daily" "5 days" q None.

(** Stock A = 10 and B = 3, one user, one patient, nothing else. *)
Definition db_AB : DB :=
  mkDB ["admin-1"; "doc-1"] ["pat-1"] [] []
       [stockRow "med-A" "A" 10 (1#4) (1#2); stockRow "med-B" "B" 3 (1#1) (2#1)]
       [] [] [] 0.

(** The batch of the spec: 5 of A, then 100 of B. *)
Definition batch_A5_B100 : CreatePrescriptionBody :=
  mkCreatePrescriptionBody None (Some "pat-1") "admin-1"
    [item "A" 5; item "B" 100] None.

(** A restock, a sale of two lines, a withdrawal that is refused, and the
    fulfilment of a prescription that does not exist. *)
Definition sample_ops : list StockOp :=
  [ OpAdjustStock (Some admin) 1000 "med-A" (mkAdjustStockBody 50 "add" (Some (2#1)) None);
    OpCreatePrescription (Some admin) 1001
      (mkCreatePrescriptionBody None (Some "pat-1") "doc-1" [item "A" 60; item "B" 3] None);
    OpAdjustStock (Some admin) 1002 "med-B" (mkAdjustStockBody 1 "subtract" None None);
    OpFulfillPrescription (Some admin) 1003 "no-such-prescription" None ].

(** A caller whose token is still valid but whose user row is gone
    ([deleteUser] removes rows for good; tokens are not stored). *)
Definition ghost : TokenPayload :=
  mkTokenPayload "deleted-user" "gone@theophilus.local" "role-pharm" "Pharmacist".


(** A batch for an existing patient, prescribed by the doctor and entered by
    the administrator. *)
Definition batch_by_doctor : CreatePrescriptionBody :=
  mkCreatePrescriptionBody None (Some "pat-1") "doc-1" [item "A" 4] None.

(** The same batch naming a prescriber that has no user row. *)
Definition batch_unknown_prescriber : CreatePrescriptionBody :=
  mkCreatePrescriptionBody None (Some "pat-1") "no-such-user" [item "A" 4] None.

(** Ten units of A asked for in one line, against a stock of exactly ten. *)
Definition batch_all_of_A : CreatePrescriptionBody :=
  mkCreatePrescriptionBody None (Some "pat-1") "doc-1" [item "A" 10] None.

(** Six and five units of A in two lines of one batch, against a stock of
    ten. *)
Definition batch_A6_A5 : CreatePrescriptionBody :=
  mkCreatePrescriptionBody None (Some "pat-1") "doc-1"
    [item "A" 6; item "A" 5] None.

(** The scenario of the spec: Paracetamol, 10 in stock, sold at 0.50. *)
Definition db_paracetamol : DB :=
  mkDB ["admin-1"; "doc-1"] ["pat-1"] [] []
       [stockRow "med-P" "Paracetamol" 10 (3#10) (1#2)] [] [] [] 0.

Definition batch_paracetamol_4 : CreatePrescriptionBody :=
  mkCreatePrescriptionBody None (Some "pat-1") "doc-1"
    [item "Paracetamol" 4] None.

(** [db_AB] with one visit and one prescription of 4 units of A that is still
    to be paid. *)
Definition pendingRow : Prescription :=
  mkPrescription "rx-1" "visit-1" "doc-1" "A" "500mg" "3x daily" "5 days" 4
    None "Active" None "Pending" None None.

Definition db_pending : DB :=
  mkDB ["admin-1"; "doc-1"] ["pat-1"]
       [mkVisit "visit-1" "pat-1" "doc-1" 900 "Fever" "Completed"]
       [pendingRow]
       [stockRow "med-A" "A" 10 (1#4) (1#2); stockRow "med-B" "B" 3 (1#1) (2#1)]
       [] [] [] 0.

(** [db_AB] after the sale of 5 units of A: prescription "2" is Paid. *)
Definition db_paid : DB :=
  snd (createPrescription (Some admin) 1000
         (mkCreatePrescriptionBody None (Some "pat-1") "doc-1" [item "A" 5] None)
         db_AB).

(** A body that passes [updatePrescriptionSchema] and resets the payment
    status. *)
Definition reopen : PrescriptionUpdate :=
  mkPrescriptionUpdate None None None None (Some "Pending") None None.

(** A body with the two keys of the schema only. *)
Definition cancel : PrescriptionUpdate :=
  mkPrescriptionUpdate (Some "Cancelled") (Some "patient allergic") None None
    None None None.

(** The Paid row of [db_paid]. *)
Definition paidRow : Prescription :=
  Eval cbv in
    match prescriptions db_paid with
    | p :: _ => p
    | [] => pendingRow
    end.

(** A change of status within the schema, a second attempt to fulfil, and
    another batch. *)
Definition later_ops : list PrescriptionOp :=
  [ PUpdate (Some admin) "2" cancel;
    PFulfill (Some admin) 1002 "2" None;
    PCreate (Some admin) 1003
      (mkCreatePrescriptionBody None (Some "pat-1") "doc-1" [item "B" 1] None) ].

(** 5 of A, then a medication the pharmacy does not stock. *)
Definition batch_A5_unknown : CreatePrescriptionBody :=
  mkCreatePrescriptionBody None (Some "pat-1") "doc-1"
    [item "A" 5; item "Zzz" 1] None.

(** A batch attached to a visit that does not exist. *)
Definition batch_bad_visit : CreatePrescriptionBody :=
  mkCreatePrescriptionBody (Some "no-such-visit") None "doc-1" [item "A" 5] None.

(** A batch with neither visit nor patient. *)
Definition batch_no_anchor : CreatePrescriptionBody :=
  mkCreatePrescriptionBody None None "doc-1" [item "A" 5] None.

(** The rows a fulfilment refers to exist: the caller has a user row, and
    the visit of the prescription exists and points at a patient row. *)
Definition fulfil_refs_ok (user : option TokenPayload) (id : Id) (db : DB) : bool :=
  match user with
  | Some u => mem (userId u) (users db)
  | None => false
  end
  && match find (byPrescriptionId id) (prescriptions db) with
     | None => true
     | Some pr =>
         match find (byVisitId (p_visitId pr)) (visits db) with
         | Some v => mem (v_patientId v) (patients db)
         | None => false
         end
     end.

(** A pharmacist and a doctor. *)
Definition pharmacist : TokenPayload :=
  mkTokenPayload "pharm-1" "pharm@theophilus.local" "role-pharm" "Pharmacist".

Definition doctor : TokenPayload :=
  mkTokenPayload "doc-1" "doc@theophilus.local" "role-doc" "Doctor".

(** A clinic with three users, one patient, one visit with a prescription
    still to be paid, and three medications: A (10 in stock, minimum 10),
    B (3 in stock, minimum 10) and C (none in stock, minimum 5). *)
Definition db_clinic : DB :=
  mkDB ["admin-1"; "doc-1"; "pharm-1"] ["pat-1"]
       [mkVisit "visit-1" "pat-1" "doc-1" 900 "Fever" "Completed"]
       [pendingRow]
       [stockRow "med-A" "A" 10 (1#4) (1#2);
        stockRow "med-B" "B" 3 (1#1) (2#1);
        mkPharmacyStock "med-C" "C" 0 5 (1#1) (3#1) None]
       [] [] [] 0.

(** The units on the shelves: the sum of all stock levels. *)
Definition totalUnits (stock : list PharmacyStock) : Z :=
  fold_right Z.add 0 (map s_currentStock stock).

Definition sumZ (l : list Z) : Z := fold_right Z.add 0 l.

(** The catalogue: the medication rows without their levels. *)
Definition catalogue (db : DB) : list PharmacyStock :=
  map (setCurrentStock 0) (pharmacyStock db).

(** How a paid line of a batch is attributed: the prescription carries the
    request line, the prescriber of the body and the visit; the transaction
    carries the patient of the visit, the caller and the payment method;
    each of the two rows refers to the other. *)
Definition line_attribution (user : option TokenPayload) (now : Z)
  (body : CreatePrescriptionBody) (method : string)
  (finalVisitId transactionPatientId : Id)
  (med : MedicationItem) (p : Prescription) (t : Transaction) : Prop :=
  p_visitId p = finalVisitId /\
  p_prescribedBy p = prescribedBy body /\
  p_medication p = medication med /\ p_dosage p = dosage med /\
  p_frequency p = frequency med /\ p_duration p = duration med /\
  p_quantity p = quantity med /\ p_instructions p = instructions med /\
  p_status p = "Completed" /\ p_paidAt p = Some now /\
  t_patientId t = Some transactionPatientId /\
  t_createdBy t = createdByOf user /\
  t_paymentMethod t = Some method /\
  t_referenceType t = Some "Prescription" /\
  t_referenceId t = Some (p_id p) /\
  p_transactionId p = Some (t_id t).

(** A batch on the existing visit of [db_clinic], paid by card; the patient
    it names has no row. *)
Definition batch_on_visit : CreatePrescriptionBody :=
  mkCreatePrescriptionBody (Some "visit-1") (Some "pat-2") "doc-1"
    [item "A" 4; item "B" 3] (Some "Card").



(** * Properties *)

(** ** Reasoning about [Prisma] code *)

Lemma bind_Done {A B} (m : Prisma A) (k : A -> Prisma B) db b db' :
  bind m k db = (Done b, db') ->
  exists a db1, m db = (Done a, db1) /\ k a db1 = (Done b, db').
Proof.
  unfold bind. destruct (m db) as [[a|e] db1]; intros H.
  - exists a, db1. split; [reflexivity | exact H].
  - discriminate H.
Qed.

Lemma bind_Thrown {A B} (m : Prisma A) (k : A -> Prisma B) db e db' :
  bind m k db = (Thrown e, db') ->
  m db = (Thrown e, db') \/
  exists a db1, m db = (Done a, db1) /\ k a db1 = (Thrown e, db').
Proof.
  unfold bind. destruct (m db) as [[a|e0] db1]; intros H.
  - right. exists a, db1. split; [reflexivity | exact H].
  - left. inversion H; subst. reflexivity.
Qed.

Lemma bind_Thrown_left {A B} (m : Prisma A) (k : A -> Prisma B) db e db' :
  m db = (Thrown e, db') -> bind m k db = (Thrown e, db').
Proof. unfold bind. intros ->. reflexivity. Qed.

Lemma bind_step {A B} (m : Prisma A) (k : A -> Prisma B) db a db1 :
  m db = (Done a, db1) -> bind m k db = k a db1.
Proof. unfold bind. intros ->. reflexivity. Qed.

Lemma preserves_ret {A} P (a : A) : preserves P (ret a).
Proof. intros db H. exact H. Qed.

Lemma preserves_throw {A} P e : preserves P (@throw A e).
Proof. intros db H. exact H. Qed.

Lemma preserves_validated {A} (P : DB -> Prop) invalid (m : Prisma A) :
  preserves P m -> preserves P (validated invalid m).
Proof.
  intros Hm. unfold validated. destruct invalid; [|exact Hm].
  intros db H. exact H.
Qed.

Lemma validated_Done {A} invalid (m : Prisma A) db a db' :
  validated invalid m db = (Done a, db') ->
  invalid = false /\ m db = (Done a, db').
Proof.
  unfold validated. destruct invalid; [discriminate|].
  intros H. split; [reflexivity | exact H].
Qed.

Lemma validated_Thrown {A} invalid (m : Prisma A) db e db' :
  validated invalid m db = (Thrown e, db') ->
  (invalid = true /\ db' = db) \/ (invalid = false /\ m db = (Thrown e, db')).
Proof.
  unfold validated, throw. destruct invalid; intros H.
  - left. inversion H. split; reflexivity.
  - right. split; [reflexivity | exact H].
Qed.

Lemma validated_false {A} (m : Prisma A) : validated false m = m.
Proof. reflexivity. Qed.

Lemma preserves_bind {A B} P (m : Prisma A) (k : A -> Prisma B) :
  preserves P m -> (forall a, preserves P (k a)) -> preserves P (bind m k).
Proof.
  intros Hm Hk db H. unfold bind.
  specialize (Hm db H). destruct (m db) as [[a|e] db1]; simpl in *.
  - apply Hk. exact Hm.
  - exact Hm.
Qed.

Lemma preserves_transaction {A} P (m : Prisma A) :
  on_tables P -> preserves P m -> preserves P (transaction m).
Proof.
  intros Ht Hm db H. unfold transaction.
  specialize (Hm db H). destruct (m db) as [[a|e] db1]; simpl in *.
  - exact Hm.
  - apply Ht. exact H.
Qed.

Lemma same_tables_rollback a b : same_tables a (rollback a b).
Proof. unfold same_tables, rollback. simpl. repeat split. Qed.

Lemma same_tables_refl a : same_tables a a.
Proof. unfold same_tables. repeat split. Qed.

Lemma transaction_Thrown {A} (m : Prisma A) db e db' :
  transaction m db = (Thrown e, db') ->
  same_tables db db' /\ exists partial, m db = (Thrown e, partial).
Proof.
  unfold transaction. destruct (m db) as [[a|e0] db1]; intros H.
  - discriminate H.
  - inversion H; subst. split.
    + apply same_tables_rollback.
    + exists db1. reflexivity.
Qed.

Lemma transaction_Done {A} (m : Prisma A) db a db' :
  transaction m db = (Done a, db') -> m db = (Done a, db').
Proof.
  unfold transaction. destruct (m db) as [[a0|e0] db1]; intros H.
  - exact H.
  - discriminate H.
Qed.

(** ** C1: a failed batch leaves no trace *)

(** C1. Whatever the transaction body had written when it threw (the
    database [partial]: stock deducted for earlier lines, the new visit,
    transactions, prescriptions), [createPrescription] answers with that error
    and leaves every table as it was before the call; and whenever it answers
    with an error, whatever the cause, every table is as it was before the
    call. *)
Theorem createPrescription_all_or_nothing :
  forall user now body db,
    (forall e partial,
       createPrescriptionTx user now body
         (paymentMethodOf (paymentMethod body)) db = (Thrown e, partial) ->
       exists db',
         createPrescription user now body db = (ErrorJson 500 e, db') /\
         same_tables db db')
    /\
    (forall status e db',
       createPrescription user now body db = (ErrorJson status e, db') ->
       same_tables db db').
Proof.
  intros user now body db. split.
  - intros e partial H. exists (rollback db partial). split.
    + unfold createPrescription, transaction. rewrite H. reflexivity.
    + apply same_tables_rollback.
  - intros status e db' H.
    unfold createPrescription in H.
    destruct (transaction _ db) as [[[fv result]|e0] db1] eqn:Htx.
    + discriminate H.
    + inversion H; subst.
      apply transaction_Thrown in Htx. tauto.
Qed.

(** The spec's batch: 5 of A (stock 10) then 100 of B (stock 3).  Inside the
    transaction A is down to 5 when B is refused; after the call it is 10. *)
Lemma createPrescription_all_or_nothing_witness :
  exists partial db',
    createPrescriptionTx (Some admin) 1000 batch_A5_B100
      (paymentMethodOf (paymentMethod batch_A5_B100)) db_AB
      = (Thrown (InsufficientStockFor "B" 3 100), partial) /\
    stockOf partial "A" = Some 5 /\
    createPrescription (Some admin) 1000 batch_A5_B100 db_AB
      = (ErrorJson 500 (InsufficientStockFor "B" 3 100), db') /\
    same_tables db_AB db' /\
    stockOf db' "A" = Some 10.
Proof.
  destruct (createPrescriptionTx (Some admin) 1000 batch_A5_B100
              (paymentMethodOf (paymentMethod batch_A5_B100)) db_AB)
    as [o partial] eqn:E.
  assert (Ho : o = Thrown (InsufficientStockFor "B" 3 100)).
  { vm_compute in E. inversion E. reflexivity. }
  assert (Hp : stockOf partial "A" = Some 5).
  { vm_compute in E. inversion E. reflexivity. }
  subst o.
  destruct (proj1 (createPrescription_all_or_nothing (Some admin) 1000
                     batch_A5_B100 db_AB) _ _ E) as (db' & Hcall & Hsame).
  exists partial, db'. split; [reflexivity|]. split; [exact Hp|].
  split; [exact Hcall|]. split; [exact Hsame|].
  destruct Hsame as (_ & _ & _ & _ & Hs & _).
  unfold stockOf. rewrite <- Hs. reflexivity.
Defined.

(** The same batch inside the transaction: when B is refused, A has already
    been charged; that is the state the roll-back discards. *)
Example batch_A5_B100_partial_writes :
  exists partial,
    createPrescriptionTx (Some admin) 1000 batch_A5_B100 "Cash" db_AB
      = (Thrown (InsufficientStockFor "B" 3 100), partial)
    /\ map s_currentStock (pharmacyStock partial) = [5; 3]
    /\ length (visits partial) = 1%nat
    /\ length (transactions partial) = 1%nat
    /\ length (prescriptions partial) = 1%nat.
Proof.
  eexists. split; [vm_compute; reflexivity |].
  repeat split.
Qed.

Example batch_A5_B100_after_call :
  map s_currentStock
      (pharmacyStock (snd (createPrescription (Some admin) 1000 batch_A5_B100 db_AB)))
    = [10; 3].
Proof. vm_compute. reflexivity. Qed.

(** The other three causes named by the contract, each answered with its
    error and with the tables of [db_AB] untouched. *)
Example other_failures_leave_no_trace :
  (exists db', createPrescription (Some admin) 1000 batch_A5_unknown db_AB
                 = (ErrorJson 500 (MedicationNotFound "Zzz"), db')
               /\ pharmacyStock db' = pharmacyStock db_AB
               /\ visits db' = [] /\ transactions db' = []
               /\ prescriptions db' = []) /\
  (exists db', createPrescription (Some admin) 1000 batch_bad_visit db_AB
                 = (ErrorJson 500 InvalidVisitID, db')
               /\ pharmacyStock db' = pharmacyStock db_AB) /\
  (exists db', createPrescription (Some admin) 1000 batch_no_anchor db_AB
                 = (ErrorJson 500 EitherVisitIdOrPatientIdRequired, db')
               /\ pharmacyStock db' = pharmacyStock db_AB).
Proof.
  repeat split; eexists; (split; [vm_compute; reflexivity|]); repeat split.
Qed.

(** ** C2: stock levels never go negative *)

Lemma update_first_Forall {A} (P : A -> Prop) hit f (l l' : list A) :
  Forall P l -> (forall x, P x -> P (f x)) ->
  update_first hit f l = Some l' -> Forall P l'.
Proof.
  intros Hl Hf. revert l'. induction Hl as [|x l Hx Hl IH]; intros l' H; simpl in H.
  - discriminate H.
  - destruct (hit x).
    + inversion H; subst. constructor; auto.
    + destruct (update_first hit f l) as [l0|]; simpl in H; [|discriminate H].
      inversion H; subst. constructor; auto.
Qed.

Lemma on_tables_stock_nonneg : on_tables stock_nonneg.
Proof. intros a b H. exact H. Qed.

Lemma stock_nonneg_findFirst name : preserves stock_nonneg (pharmacyStock_findFirst name).
Proof. intros db H. exact H. Qed.

Lemma stock_nonneg_visit_findUnique id : preserves stock_nonneg (visit_findUnique id).
Proof. intros db H. exact H. Qed.

Lemma stock_nonneg_visit_create p d c t s :
  preserves stock_nonneg (visit_create p d c t s).
Proof. intros db H. prim. split_tests; exact H. Qed.

Lemma stock_nonneg_transaction_create ty c a r rt pm cb pid :
  preserves stock_nonneg (transaction_create ty c a r rt pm cb pid).
Proof. intros db H. prim. destruct pid; split_tests; exact H. Qed.

Lemma stock_nonneg_transaction_update id f :
  preserves stock_nonneg (transaction_update id f).
Proof. intros db H. prim. split_tests; exact H. Qed.

Lemma stock_nonneg_prescription_create row :
  preserves stock_nonneg (prescription_create row).
Proof. intros db H. prim. split_tests; exact H. Qed.

Lemma stock_nonneg_prescription_update id f :
  preserves stock_nonneg (prescription_update id f).
Proof. intros db H. prim. split_tests; exact H. Qed.

Lemma stock_nonneg_expense_create c a d cb :
  preserves stock_nonneg (expense_create c a d cb).
Proof. intros db H. prim. split_tests; exact H. Qed.

Lemma stock_nonneg_createAuditLog u a e i db :
  stock_nonneg db -> stock_nonneg (createAuditLog u a e i db).
Proof. intros H. unfold createAuditLog. destruct (mem u (users db)); exact H. Qed.

(** Writing a non-negative level keeps the invariant. *)
Lemma stock_nonneg_pharmacyStock_update id f :
  (forall s, 0 <= s_currentStock (f s)) ->
  preserves stock_nonneg (pharmacyStock_update id f).
Proof.
  intros Hf db H. prim.
  destruct (find _ (pharmacyStock db)); [|exact H].
  destruct (update_first _ f (pharmacyStock db)) as [l|] eqn:E; [|exact H].
  simpl. unfold stock_nonneg. simpl.
  eapply update_first_Forall; [exact H | | exact E].
  intros x _. apply Hf.
Qed.

Create HintDb stock.

#[local] Hint Resolve preserves_ret preserves_throw stock_nonneg_findFirst
  stock_nonneg_visit_findUnique stock_nonneg_visit_create
  stock_nonneg_transaction_create stock_nonneg_transaction_update
  stock_nonneg_prescription_create stock_nonneg_prescription_update
  stock_nonneg_expense_create on_tables_stock_nonneg : stock.

Lemma stock_nonneg_fulfillItem user now body method fv pid med :
  preserves stock_nonneg (fulfillItem user now body method fv pid med).
Proof.
  unfold fulfillItem.
  apply preserves_bind; [auto with stock|].
  intros [s|]; [|auto with stock].
  destruct (Z.ltb_spec (s_currentStock s) (quantity med)); [auto with stock|].
  apply preserves_bind.
  { apply stock_nonneg_pharmacyStock_update. intros x. simpl. lia. }
  intros _. repeat (apply preserves_bind; [auto with stock | intros ?]).
  auto with stock.
Qed.

Lemma stock_nonneg_fulfillItems user now body method fv pid meds :
  preserves stock_nonneg (fulfillItems user now body method fv pid meds).
Proof.
  induction meds as [|med rest IH]; simpl.
  - auto with stock.
  - apply preserves_bind; [apply stock_nonneg_fulfillItem|].
    intros p. apply preserves_bind; [exact IH|]. intros ?. auto with stock.
Qed.

Lemma stock_nonneg_createPrescription user now body db :
  stock_nonneg db -> stock_nonneg (snd (createPrescription user now body db)).
Proof.
  intros H. unfold createPrescription.
  assert (Htx : preserves stock_nonneg
                  (transaction (createPrescriptionTx user now body
                                  (paymentMethodOf (paymentMethod body))))).
  { apply preserves_transaction; [auto with stock|].
    unfold createPrescriptionTx.
    apply preserves_bind.
    - unfold ensureVisit.
      destruct (truthy (visitId body)); [auto with stock|].
      destruct (truthy (patientId body)); [|auto with stock].
      destruct user; [|auto with stock].
      apply preserves_bind; [auto with stock|]. intros ?. auto with stock.
    - intros fv. apply preserves_bind; [auto with stock|].
      intros [v|]; [|auto with stock].
      apply preserves_bind; [apply stock_nonneg_fulfillItems|].
      intros ?. auto with stock. }
  specialize (Htx db H).
  destruct (transaction _ db) as [[[fv result]|e] db1]; simpl in *.
  - destruct user; [apply stock_nonneg_createAuditLog|]; exact Htx.
  - exact Htx.
Qed.

Lemma stock_nonneg_fulfillPrescription user now id method db :
  stock_nonneg db -> stock_nonneg (snd (fulfillPrescription user now id method db)).
Proof.
  intros H. unfold fulfillPrescription.
  destruct user as [u|]; [|exact H].
  destruct (find _ (prescriptions db)) as [p|]; [|exact H].
  destruct (String.eqb (p_paymentStatus p) "Paid"); [exact H|].
  destruct (String.eqb (p_status p) "Cancelled"); [exact H|].
  destruct (find _ (pharmacyStock db)) as [m|]; [|exact H].
  destruct (Z.ltb_spec (s_currentStock m) (p_quantity p)); [exact H|].
  match goal with
  | |- context [transaction ?body db] =>
      assert (Htx : preserves stock_nonneg (transaction body))
  end.
  { apply preserves_transaction; [auto with stock|].
    unfold fulfillPrescriptionTx.
    apply preserves_bind.
    { apply stock_nonneg_pharmacyStock_update. intros x. simpl. lia. }
    intros ?. apply preserves_bind; [auto with stock|].
    intros [v|]; [|auto with stock].
    repeat (apply preserves_bind; [auto with stock | intros ?]).
    auto with stock. }
  specialize (Htx db H).
  destruct (transaction _ db) as [[r|e] db1]; simpl in *.
  - apply stock_nonneg_createAuditLog. exact Htx.
  - exact Htx.
Qed.

Lemma stock_nonneg_adjustStock user now id body db :
  stock_nonneg db -> stock_nonneg (snd (adjustStock user now id body db)).
Proof.
  intros H. unfold adjustStock.
  destruct (find _ (pharmacyStock db)) as [m|]; [|exact H].
  destruct (Z.ltb_spec (newStockOf m body) 0); [exact H|].
  assert (Hw : preserves stock_nonneg (adjustStockWrites user now id m body)).
  { unfold adjustStockWrites.
    apply preserves_bind.
    { apply preserves_validated.
      apply stock_nonneg_pharmacyStock_update. intros x. simpl. lia. }
    intros ?. apply preserves_bind; [|intros ?; auto with stock].
    destruct (isAdd body && (0 <? adj_quantity body))%bool; [|auto with stock].
    destruct (isPositive _); [|auto with stock].
    destruct user; [|auto with stock].
    repeat (apply preserves_bind; [auto with stock | intros ?]).
    auto with stock. }
  specialize (Hw db H).
  destruct (adjustStockWrites user now id m body db) as [[r|e] db1]; simpl in *.
  - destruct user; [apply stock_nonneg_createAuditLog|]; exact Hw.
  - exact Hw.
Qed.

Lemma stock_nonneg_runOp op db : stock_nonneg db -> stock_nonneg (runOp op db).
Proof.
  destruct op; simpl.
  - apply stock_nonneg_adjustStock.
  - apply stock_nonneg_createPrescription.
  - apply stock_nonneg_fulfillPrescription.
Qed.

(** C2. Starting from stock levels that are all non-negative, they are all
    non-negative after each request of any sequence of [adjustStock],
    [createPrescription] and [fulfillPrescription] requests, accepted or
    refused. *)
Theorem currentStock_never_negative :
  forall ops db,
    stock_nonneg db -> Forall stock_nonneg (trace ops db).
Proof.
  induction ops as [|op rest IH]; intros db H; simpl.
  - constructor.
  - constructor.
    + apply stock_nonneg_runOp. exact H.
    + apply IH. apply stock_nonneg_runOp. exact H.
Qed.

Lemma currentStock_never_negative_witness :
  stock_nonneg db_AB /\ Forall stock_nonneg (trace sample_ops db_AB).
Proof.
  assert (H : stock_nonneg db_AB).
  { unfold stock_nonneg, db_AB. simpl. repeat constructor; simpl; lia. }
  split.
  - exact H.
  - exact (currentStock_never_negative sample_ops db_AB H).
Defined.

Example sample_ops_stock_levels :
  map (fun db => map s_currentStock (pharmacyStock db)) (trace sample_ops db_AB)
    = [[60; 3]; [0; 0]; [0; 0]; [0; 0]].
Proof. vm_compute. reflexivity. Qed.

(** ** C4: the restock path is not atomic *)

(** C4. A restock whose Expense insert is refused (here: the caller's user
    row no longer exists, so the [createdBy] foreign key fails) answers 500,
    and yet the stock level written by the first statement stays: A went from
    10 to 15 and neither an Expense nor a Transaction records it. *)
Theorem adjustStock_restock_not_atomic :
  exists db',
    adjustStock (Some ghost) 1000 "med-A" (mkAdjustStockBody 5 "add" None None) db_AB
      = (ErrorJson 500 (Message "Failed to adjust stock"), db')
    /\ map s_currentStock (pharmacyStock db_AB) = [10; 3]
    /\ map s_currentStock (pharmacyStock db') = [15; 3]
    /\ expenses db' = []
    /\ transactions db' = []
    /\ ~ same_tables db_AB db'.
Proof.
  eexists. split; [vm_compute; reflexivity |].
  repeat split.
  unfold same_tables. simpl. intros (_ & _ & _ & _ & H & _).
  discriminate H.
Qed.

(** ** The table primitives as equations *)

Lemma createAuditLog_tables u a e i db :
  users (createAuditLog u a e i db) = users db /\
  patients (createAuditLog u a e i db) = patients db /\
  visits (createAuditLog u a e i db) = visits db /\
  prescriptions (createAuditLog u a e i db) = prescriptions db /\
  pharmacyStock (createAuditLog u a e i db) = pharmacyStock db /\
  transactions (createAuditLog u a e i db) = transactions db /\
  expenses (createAuditLog u a e i db) = expenses db.
Proof.
  unfold createAuditLog. destruct (mem u (users db)); simpl; repeat split.
Qed.

Lemma expense_create_eq c a d cb db :
  expense_create c a d cb db =
  if mem cb (users db) then
    (Done (mkExpense (uuid (uuidSeed db)) c a d cb),
     mkDB (users db) (patients db) (visits db) (prescriptions db)
          (pharmacyStock db) (transactions db)
          (expenses db ++ [mkExpense (uuid (uuidSeed db)) c a d cb])
          (auditLogs db) (S (uuidSeed db)))
  else (Thrown (ForeignKeyViolation "expenses_createdBy_fkey"), db).
Proof. prim. destruct (mem cb (users db)); reflexivity. Qed.

Lemma transaction_create_eq ty c a r rt pm cb pid db :
  transaction_create ty c a r rt pm cb pid db =
  if mem cb (users db) then
    if match pid with Some k => mem k (patients db) | None => true end then
      (Done (mkTransaction (uuid (uuidSeed db)) ty c a r rt pm cb pid),
       mkDB (users db) (patients db) (visits db) (prescriptions db)
            (pharmacyStock db)
            (transactions db ++ [mkTransaction (uuid (uuidSeed db)) ty c a r rt pm cb pid])
            (expenses db) (auditLogs db) (S (uuidSeed db)))
    else (Thrown (ForeignKeyViolation "transactions_patientId_fkey"), db)
  else (Thrown (ForeignKeyViolation "transactions_createdBy_fkey"), db).
Proof.
  prim. destruct (mem cb (users db)); [|reflexivity].
  destruct pid as [k|]; [destruct (mem k (patients db))|]; reflexivity.
Qed.

Lemma visit_create_eq p d c t s db :
  visit_create p d c t s db =
  if mem p (patients db) then
    if mem d (users db) then
      (Done (mkVisit (uuid (uuidSeed db)) p d t c s),
       mkDB (users db) (patients db)
            (visits db ++ [mkVisit (uuid (uuidSeed db)) p d t c s])
            (prescriptions db) (pharmacyStock db) (transactions db)
            (expenses db) (auditLogs db) (S (uuidSeed db)))
    else (Thrown (ForeignKeyViolation "visits_doctorId_fkey"), db)
  else (Thrown (ForeignKeyViolation "visits_patientId_fkey"), db).
Proof.
  prim. destruct (mem p (patients db)); [|reflexivity].
  destruct (mem d (users db)); reflexivity.
Qed.

Lemma prescription_create_eq row db :
  prescription_create row db =
  let r := row (uuid (uuidSeed db)) in
  let db1 := mkDB (users db) (patients db) (visits db) (prescriptions db)
               (pharmacyStock db) (transactions db) (expenses db)
               (auditLogs db) (S (uuidSeed db)) in
  if mem (p_visitId r) (map v_id (visits db)) then
    if mem (p_prescribedBy r) (users db) then
      (Done r,
       mkDB (users db) (patients db) (visits db) (prescriptions db ++ [r])
            (pharmacyStock db) (transactions db) (expenses db)
            (auditLogs db) (S (uuidSeed db)))
    else (Thrown (ForeignKeyViolation "prescriptions_prescribedBy_fkey"), db1)
  else (Thrown (ForeignKeyViolation "prescriptions_visitId_fkey"), db1).
Proof.
  prim. unfold visit_ids. simpl.
  destruct (mem _ (map v_id (visits db))); [|reflexivity].
  simpl. destruct (mem _ (users db)); reflexivity.
Qed.

Lemma pharmacyStock_update_Done id f db r db' :
  pharmacyStock_update id f db = (Done r, db') ->
  exists old l,
    find (byStockId id) (pharmacyStock db) = Some old /\
    update_first (byStockId id) f (pharmacyStock db) = Some l /\
    r = f old /\ db' = set_pharmacyStock l db.
Proof.
  unfold pharmacyStock_update.
  destruct (find _ (pharmacyStock db)) as [old|]; [|discriminate].
  destruct (update_first _ f (pharmacyStock db)) as [l|]; [|discriminate].
  intros H. inversion H; subst. exists old, l. repeat split.
Qed.

Lemma find_update_first {A} hit (f : A -> A) l x :
  find hit l = Some x -> exists l', update_first hit f l = Some l'.
Proof.
  induction l as [|y l IH]; simpl; [discriminate|].
  destruct (hit y).
  - intros _. eexists. reflexivity.
  - intros H. destruct (IH H) as [l' ->]. eexists. reflexivity.
Qed.

Lemma pharmacyStock_update_ok id f db old :
  find (byStockId id) (pharmacyStock db) = Some old ->
  exists l,
    update_first (byStockId id) f (pharmacyStock db) = Some l /\
    pharmacyStock_update id f db = (Done (f old), set_pharmacyStock l db).
Proof.
  intros H. destruct (find_update_first _ f _ _ H) as [l Hl].
  exists l. split; [exact Hl|].
  unfold pharmacyStock_update. rewrite H, Hl. reflexivity.
Qed.

(** ** C6: what a restock records *)

Lemma Qle_bool_false_of_pos (q : Q) : (0 < q)%Q -> Qle_bool q 0 = false.
Proof.
  intros H. destruct (Qle_bool q 0) eqn:E; [|reflexivity].
  apply Qle_bool_iff in E. exfalso. exact (Qlt_not_le _ _ H E).
Qed.




(** That product is 100, as computed and in exact arithmetic. *)
Example restock_50_at_2_is_100 :
  computed (Product (2#1) 50) = numberOfZ 100 /\
  (exactValue (Product (2#1) 50) == 100)%Q.
Proof. split; [vm_compute; reflexivity | reflexivity]. Qed.


(** ** One line of a batch, and the loop over the lines *)

Lemma transaction_update_eq id f db :
  transaction_update id f db =
  match update_first (byTransactionId id) f (transactions db) with
  | Some l => (Done tt, set_transactions l db)
  | None => (Thrown RecordNotFound, db)
  end.
Proof. reflexivity. Qed.

Lemma find_In_hit {A} (hit : A -> bool) l x :
  In x l -> hit x = true -> exists y, find hit l = Some y.
Proof.
  intros Hin Hx. destruct (find hit l) as [y|] eqn:E.
  - exists y. reflexivity.
  - exfalso. pose proof (find_none _ _ E x Hin) as Hn. congruence.
Qed.

Lemma byName_stock_id_found name stock s :
  find (byName name) stock = Some s ->
  exists old, find (byStockId (s_id s)) stock = Some old.
Proof.
  intros H. apply find_some in H. destruct H as [Hin _].
  apply (find_In_hit _ _ s Hin). unfold byStockId. apply String.eqb_refl.
Qed.

Lemma update_first_last_hit {A} hit (f : A -> A) l x :
  hit x = true -> exists l', update_first hit f (l ++ [x]) = Some l'.
Proof.
  intros Hx.
  destruct (find_In_hit hit (l ++ [x]) x) as [y Hy]; [|exact Hx|].
  - apply in_or_app. right. left. reflexivity.
  - exact (find_update_first _ f _ _ Hy).
Qed.

Section BatchLoop.

Variables (user : option TokenPayload) (now : Z) (body : CreatePrescriptionBody)
  (method : string) (fv pid : Id).

Lemma fulfillItem_Done med db p db' :
  fulfillItem user now body method fv pid med db = (Done p, db') ->
  exists s stock' txs',
    find (byName (medication med)) (pharmacyStock db) = Some s /\
    quantity med <= s_currentStock s /\
    update_first (byStockId (s_id s))
      (setCurrentStock (s_currentStock s - quantity med)) (pharmacyStock db)
      = Some stock' /\
    update_first (byTransactionId (uuid (uuidSeed db)))
      (setReferenceId (uuid (S (uuidSeed db))))
      (transactions db ++ [saleOf user method pid (lineAmount s med)
                                  (uuid (uuidSeed db))])
      = Some txs' /\
    p = newPrescription now body fv med (lineAmount s med)
          (uuid (uuidSeed db)) (uuid (S (uuidSeed db))) /\
    db' = mkDB (users db) (patients db) (visits db) (prescriptions db ++ [p])
               stock' txs' (expenses db) (auditLogs db) (S (S (uuidSeed db))) /\
    mem (createdByOf user) (users db) = true /\
    mem pid (patients db) = true /\
    mem fv (map v_id (visits db)) = true /\
    mem (prescribedBy body) (users db) = true.
Proof.
  intros H. unfold fulfillItem in H.
  apply bind_Done in H. destruct H as (o & db0 & Hfind & H).
  unfold pharmacyStock_findFirst in Hfind. inversion Hfind; subst. clear Hfind.
  destruct (find _ (pharmacyStock db0)) as [s|] eqn:Hs; [|discriminate H].
  destruct (Z.ltb_spec (s_currentStock s) (quantity med)) as [|Hq]; [discriminate H|].
  apply bind_Done in H. destruct H as (upd & db1 & Hupd & H).
  apply pharmacyStock_update_Done in Hupd.
  destruct Hupd as (old & stock' & _ & Hstock & _ & ->).
  apply bind_Done in H. destruct H as (tx & db2 & Htx & H).
  rewrite transaction_create_eq in Htx. simpl in Htx.
  destruct (mem (createdByOf user) (users db0)) eqn:Hcb; [|discriminate Htx].
  destruct (mem pid (patients db0)) eqn:Hpid; [|discriminate Htx].
  inversion Htx; subst. clear Htx.
  apply bind_Done in H. destruct H as (pr & db3 & Hpr & H).
  rewrite prescription_create_eq in Hpr. simpl in Hpr.
  destruct (mem fv (map v_id (visits db0))) eqn:Hfv; [|discriminate Hpr].
  destruct (mem (prescribedBy body) (users db0)) eqn:Hpb; [|discriminate Hpr].
  inversion Hpr; subst. clear Hpr.
  apply bind_Done in H. destruct H as ([] & db4 & Hupd & H).
  rewrite transaction_update_eq in Hupd. simpl in Hupd.
  match type of Hupd with
  | context [update_first ?h ?f ?l] => destruct (update_first h f l) as [txs'|] eqn:Htxs
  end; [|discriminate Hupd].
  inversion Hupd; subst. clear Hupd.
  unfold ret in H. inversion H; subst. clear H.
  exists s, stock', txs'. unfold byName, byStockId, lineAmount, saleOf.
  repeat split; try assumption.
Qed.

Lemma fulfillItem_ok med db s :
  line_refs user body fv pid db ->
  find (byName (medication med)) (pharmacyStock db) = Some s ->
  quantity med <= s_currentStock s ->
  exists p db', fulfillItem user now body method fv pid med db = (Done p, db').
Proof.
  intros (Hcb & Hpid & Hfv & Hpb) Hs Hq.
  unfold fulfillItem.
  rewrite (bind_step _ _ db (Some s) db) by (unfold pharmacyStock_findFirst; rewrite Hs; reflexivity).
  destruct (Z.ltb_spec (s_currentStock s) (quantity med)) as [Hlt|_]; [lia|].
  destruct (byName_stock_id_found _ _ _ Hs) as [old Hold].
  destruct (pharmacyStock_update_ok (s_id s)
              (setCurrentStock (s_currentStock s - quantity med)) db old Hold)
    as (stock' & _ & Hupd).
  rewrite (bind_step _ _ _ _ _ Hupd).
  unfold bind at 1. rewrite transaction_create_eq. simpl.
  rewrite Hcb, Hpid.
  unfold bind at 1. rewrite prescription_create_eq. simpl.
  rewrite Hfv, Hpb.
  unfold bind at 1. rewrite transaction_update_eq. simpl.
  match goal with
  | |- context [update_first ?h ?f (?l ++ [?x])] =>
      destruct (update_first_last_hit h f l x) as [txs' ->]
  end.
  { unfold byTransactionId. simpl. apply String.eqb_refl. }
  eexists. eexists. reflexivity.
Qed.

Lemma fulfillItem_Thrown med db e db' :
  line_refs user body fv pid db ->
  fulfillItem user now body method fv pid med db = (Thrown e, db') ->
  (find (byName (medication med)) (pharmacyStock db) = None /\
   e = MedicationNotFound (medication med)) \/
  (exists s, find (byName (medication med)) (pharmacyStock db) = Some s /\
             s_currentStock s < quantity med /\
             e = InsufficientStockFor (medication med) (s_currentStock s)
                                      (quantity med)).
Proof.
  intros Hrefs H.
  destruct (find (byName (medication med)) (pharmacyStock db)) as [s|] eqn:Hs.
  - right. exists s. split; [reflexivity|].
    destruct (Z.lt_ge_cases (s_currentStock s) (quantity med)) as [Hlt|Hge].
    + split; [exact Hlt|].
      unfold fulfillItem, bind at 1, pharmacyStock_findFirst in H.
      rewrite Hs in H. apply Z.ltb_lt in Hlt. rewrite Hlt in H.
      unfold throw in H. inversion H. reflexivity.
    + destruct (fulfillItem_ok med db s Hrefs Hs Hge)
        as (p & db1 & Hok).
      rewrite Hok in H. discriminate H.
  - left. split; [reflexivity|].
    unfold fulfillItem, bind at 1, pharmacyStock_findFirst in H.
    rewrite Hs in H. unfold throw in H. inversion H. reflexivity.
Qed.

Lemma fulfillItem_keeps_refs med db p db' :
  fulfillItem user now body method fv pid med db = (Done p, db') ->
  line_refs user body fv pid db -> line_refs user body fv pid db'.
Proof.
  intros H Hrefs. apply fulfillItem_Done in H.
  destruct H as (s & stock' & txs' & _ & _ & _ & _ & _ & -> & _).
  exact Hrefs.
Qed.

Lemma fulfillItems_cons_Done med rest db ps db' :
  fulfillItems user now body method fv pid (med :: rest) db = (Done ps, db') ->
  exists p db1 created,
    fulfillItem user now body method fv pid med db = (Done p, db1) /\
    fulfillItems user now body method fv pid rest db1 = (Done created, db') /\
    ps = p :: created.
Proof.
  simpl. intros H.
  apply bind_Done in H. destruct H as (p & db1 & Hp & H).
  apply bind_Done in H. destruct H as (created & db2 & Hrest & H).
  unfold ret in H. inversion H; subst.
  exists p, db1, created. repeat split; assumption.
Qed.

Lemma fulfillItems_cons_Thrown med rest db e db' :
  fulfillItems user now body method fv pid (med :: rest) db = (Thrown e, db') ->
  fulfillItem user now body method fv pid med db = (Thrown e, db') \/
  exists p db1,
    fulfillItem user now body method fv pid med db = (Done p, db1) /\
    fulfillItems user now body method fv pid rest db1 = (Thrown e, db').
Proof.
  simpl. intros H.
  apply bind_Thrown in H. destruct H as [H | (p & db1 & Hp & H)].
  - left. exact H.
  - right. exists p, db1. split; [exact Hp|].
    apply bind_Thrown in H. destruct H as [H | (c & db2 & _ & H)].
    + exact H.
    + unfold ret in H. discriminate H.
Qed.

(** What a completed loop leaves: one prescription per line, appended in
    order and attached to the visit; users, patients, visits and expenses
    untouched. *)
Lemma fulfillItems_Done meds : forall db ps db',
  fulfillItems user now body method fv pid meds db = (Done ps, db') ->
  users db' = users db /\ patients db' = patients db /\
  visits db' = visits db /\ expenses db' = expenses db /\
  auditLogs db' = auditLogs db /\
  prescriptions db' = prescriptions db ++ ps /\
  length ps = length meds /\
  Forall (fun p => p_visitId p = fv) ps.
Proof.
  induction meds as [|med rest IH]; intros db ps db' H.
  - simpl in H. unfold ret in H. inversion H; subst.
    rewrite app_nil_r. repeat split. constructor.
  - apply fulfillItems_cons_Done in H.
    destruct H as (p & db1 & created & Hp & Hrest & ->).
    apply fulfillItem_Done in Hp.
    destruct Hp as (s & stock' & txs' & _ & _ & _ & _ & Hpeq & -> & _).
    apply IH in Hrest. simpl in Hrest.
    destruct Hrest as (Hu & Hpa & Hv & He & Ha & Hpr & Hlen & Hall).
    rewrite Hu, Hpa, Hv, He, Ha, Hpr, <- app_assoc. simpl. rewrite Hlen.
    repeat split.
    constructor; [|exact Hall]. rewrite Hpeq. reflexivity.
Qed.

Lemma fulfillItems_Thrown meds : forall db e db',
  line_refs user body fv pid db ->
  fulfillItems user now body method fv pid meds db = (Thrown e, db') ->
  batch_refusal (pharmacyStock db) meds e.
Proof.
  induction meds as [|med rest IH]; intros db e db' Hrefs H.
  - simpl in H. unfold ret in H. discriminate H.
  - apply fulfillItems_cons_Thrown in H.
    destruct H as [H | (p & db1 & Hp & Hrest)].
    + apply (fulfillItem_Thrown _ _ _ _ Hrefs) in H.
      destruct H as [[Hnone ->] | (s & Hs & Hlt & ->)].
      * apply refusal_unknown. exact Hnone.
      * apply refusal_insufficient; assumption.
    + pose proof (fulfillItem_keeps_refs _ _ _ _ Hp Hrefs) as Hrefs1.
      apply fulfillItem_Done in Hp.
      destruct Hp as (s & stock' & txs' & Hs & Hq & Hstock & _ & _ & -> & _).
      specialize (IH _ _ _ Hrefs1 Hrest). simpl in IH.
      eapply refusal_later; eassumption.
Qed.

Lemma fulfillItems_refusal meds : forall db e,
  line_refs user body fv pid db ->
  batch_refusal (pharmacyStock db) meds e ->
  exists db', fulfillItems user now body method fv pid meds db = (Thrown e, db').
Proof.
  induction meds as [|med rest IH]; intros db e Hrefs Href.
  - inversion Href.
  - simpl.
    destruct (fulfillItem user now body method fv pid med db) as [[p|e1] db1] eqn:Hp.
    + pose proof (fulfillItem_keeps_refs _ _ _ _ Hp Hrefs) as Hrefs1.
      pose proof (fulfillItem_Done _ _ _ _ Hp) as Hd.
      destruct Hd as (s & stock' & txs' & Hs & Hq & Hstock & _ & _ & Hdb1 & _).
      rewrite (bind_step _ _ _ _ _ Hp).
      inversion Href; subst.
      * congruence.
      * same_row. lia.
      * same_row.
        match goal with
        | H3 : batch_refusal _ rest e |- _ =>
            destruct (IH _ e Hrefs1 H3) as [db' Hrest]
        end.
        exists db'. rewrite (bind_Thrown_left _ _ _ _ _ Hrest). reflexivity.
    + exists db1.
      apply (fulfillItem_Thrown _ _ _ _ Hrefs) in Hp as Hcase.
      assert (e1 = e).
      { destruct Hcase as [[Hnone ->] | (s & Hs & Hlt & ->)];
          inversion Href; subst; try congruence; same_row;
          first [reflexivity | lia]. }
      subst e1. unfold bind. rewrite Hp. reflexivity.
Qed.

Lemma fulfillItems_served meds : forall db ps db',
  fulfillItems user now body method fv pid meds db = (Done ps, db') ->
  batch_served (pharmacyStock db) meds (pharmacyStock db').
Proof.
  induction meds as [|med rest IH]; intros db ps db' H.
  - simpl in H. unfold ret in H. inversion H; subst. constructor.
  - apply fulfillItems_cons_Done in H.
    destruct H as (p & db1 & created & Hp & Hrest & ->).
    apply fulfillItem_Done in Hp.
    destruct Hp as (s & stock' & txs' & Hs & Hq & Hstock & _ & _ & -> & _).
    apply IH in Hrest. simpl in Hrest.
    eapply served_line; eassumption.
Qed.

End BatchLoop.

(** ** The anchor of a batch *)

Lemma mem_In x l : mem x l = true <-> In x l.
Proof.
  unfold mem. rewrite existsb_exists. split.
  - intros (y & Hin & Heq). apply String.eqb_eq in Heq. subst. exact Hin.
  - intros Hin. exists x. split; [exact Hin | apply String.eqb_refl].
Qed.

Lemma find_byVisitId_mem v l row :
  find (byVisitId v) l = Some row ->
  In row l /\ v_id row = v /\ mem v (map v_id l) = true.
Proof.
  intros H. apply find_some in H. destruct H as [Hin Hid].
  unfold byVisitId in Hid. apply String.eqb_eq in Hid.
  repeat split; try assumption.
  apply mem_In. rewrite <- Hid. apply in_map. exact Hin.
Qed.

(** How the transaction body reaches its loop.  Either the anchor is
    missing, or the visit named does not exist, or the loop runs from a
    database [db0] that differs from [db] by at most the new visit. *)
Lemma createPrescriptionTx_anchor user now body method db :
  request_refs_ok user body db = true ->
  (missing_anchor body /\
   createPrescriptionTx user now body method db
     = (Thrown EitherVisitIdOrPatientIdRequired, db))
  \/
  (invalid_visit body db /\
   createPrescriptionTx user now body method db = (Thrown InvalidVisitID, db))
  \/
  (exists fv pid db0,
     ~ missing_anchor body /\ ~ invalid_visit body db /\
     line_refs user body fv pid db0 /\
     users db0 = users db /\ patients db0 = patients db /\
     prescriptions db0 = prescriptions db /\
     pharmacyStock db0 = pharmacyStock db /\
     transactions db0 = transactions db /\
     expenses db0 = expenses db /\ auditLogs db0 = auditLogs db /\
     (uuidSeed db <= uuidSeed db0)%nat /\
     ((truthy (visitId body) = Some fv /\ visits db0 = visits db) \/
      (exists patient u,
         truthy (visitId body) = None /\
         truthy (patientId body) = Some patient /\ user = Some u /\
         fv = uuid (uuidSeed db) /\
         visits db0 = visits db ++ [directVisit fv patient (userId u) now])) /\
     createPrescriptionTx user now body method db
       = bind (fulfillItems user now body method fv pid (medications body))
              (fun created => ret (fv, created)) db0).
Proof.
  unfold request_refs_ok. intros H.
  apply andb_prop in H. destruct H as [H Hpat].
  apply andb_prop in H. destruct H as [H Hu].
  apply andb_prop in H. destruct H as [Hfk Hpb].
  destruct user as [u|]; [|discriminate Hu].
  rewrite forallb_forall in Hfk.
  destruct (truthy (visitId body)) as [v|] eqn:Hv.
  - destruct (find (byVisitId v) (visits db)) as [row|] eqn:Hrow.
    + right. right. exists v, (v_patientId row), db.
      destruct (find_byVisitId_mem _ _ _ Hrow) as (Hin & _ & Hmem).
      split; [intros [Hm _]; congruence|].
      split; [intros (v' & Hv' & Hn); congruence|].
      split; [repeat split; auto|].
      repeat split; auto.
      unfold createPrescriptionTx, ensureVisit. rewrite Hv.
      unfold bind, ret, visit_findUnique. rewrite Hrow. reflexivity.
    + right. left. split; [exists v; split; [exact Hv | exact Hrow]|].
      unfold createPrescriptionTx, ensureVisit. rewrite Hv.
      unfold bind, ret, visit_findUnique. rewrite Hrow. reflexivity.
  - destruct (truthy (patientId body)) as [patient|] eqn:Hp.
    + right. right.
      destruct (find (byVisitId (uuid (uuidSeed db)))
                     (visits db ++ [directVisit (uuid (uuidSeed db)) patient
                                                (userId u) now]))
        as [row|] eqn:Hrow.
      * destruct (find_byVisitId_mem _ _ _ Hrow) as (Hin & _ & Hmem).
        exists (uuid (uuidSeed db)), (v_patientId row),
          (mkDB (users db) (patients db)
                (visits db ++ [directVisit (uuid (uuidSeed db)) patient
                                           (userId u) now])
                (prescriptions db) (pharmacyStock db) (transactions db)
                (expenses db) (auditLogs db) (S (uuidSeed db))).
        split; [intros [_ Hm]; congruence|].
        split; [intros (v' & Hv' & Hn); congruence|].
        split.
        { repeat split; simpl; auto.
          apply in_app_or in Hin. destruct Hin as [Hin | [<- | []]].
          - apply Hfk. exact Hin.
          - exact Hpat. }
        simpl. repeat split; auto.
        { right. exists patient, u. repeat split. }
        unfold createPrescriptionTx, ensureVisit. rewrite Hv, Hp.
        unfold bind at 1. unfold bind at 1. rewrite visit_create_eq.
        rewrite Hpat, Hu. unfold ret at 1.
        unfold bind at 1, visit_findUnique. cbn [visits v_id].
        unfold directVisit in Hrow. rewrite Hrow. reflexivity.
      * exfalso.
        assert (Hf : byVisitId (uuid (uuidSeed db))
                       (directVisit (uuid (uuidSeed db)) patient (userId u) now)
                     = false).
        { apply (find_none _ _ Hrow). apply in_or_app. right. left. reflexivity. }
        unfold byVisitId in Hf. simpl in Hf. rewrite String.eqb_refl in Hf.
        discriminate Hf.
    + left. split; [split; assumption|].
      unfold createPrescriptionTx, ensureVisit. rewrite Hv, Hp. reflexivity.
Qed.

(** ** C5: the visit created for a direct prescription *)

Lemma createPrescription_Json user now body db status ps db' :
  createPrescription user now body db = (Json status ps, db') ->
  status = 201%nat /\
  exists fv db1,
    createPrescriptionTx user now body (paymentMethodOf (paymentMethod body)) db
      = (Done (fv, ps), db1) /\
    users db' = users db1 /\ patients db' = patients db1 /\
    visits db' = visits db1 /\ prescriptions db' = prescriptions db1 /\
    pharmacyStock db' = pharmacyStock db1 /\
    transactions db' = transactions db1 /\ expenses db' = expenses db1.
Proof.
  unfold createPrescription. intros H.
  destruct (transaction _ db) as [[[fv result]|e] db1] eqn:Htx; [|discriminate H].
  apply transaction_Done in Htx. inversion H; subst.
  split; [reflexivity|]. exists fv, db1. split; [exact Htx|].
  destruct user as [u|]; [|repeat split].
  apply createAuditLog_tables.
Qed.

Lemma createPrescription_of_Thrown user now body db e partial :
  createPrescriptionTx user now body (paymentMethodOf (paymentMethod body)) db
    = (Thrown e, partial) ->
  createPrescription user now body db = (ErrorJson 500 e, rollback db partial).
Proof.
  intros H. unfold createPrescription, transaction. rewrite H. reflexivity.
Qed.

Lemma createPrescription_of_Done user now body db fv ps db1 :
  createPrescriptionTx user now body (paymentMethodOf (paymentMethod body)) db
    = (Done (fv, ps), db1) ->
  exists db', createPrescription user now body db = (Json 201 ps, db').
Proof.
  intros H. unfold createPrescription, transaction. rewrite H.
  eexists. reflexivity.
Qed.

(** C5 (amended). A successful call that names a patient and no visit
    creates exactly one Visit: status Completed, chief complaint
    "Direct Prescription", for the given patient, and with the authenticated
    caller ([req.user.userId]) as its doctor; every prescription of the batch
    carries the key generated for that visit. *)
Theorem createPrescription_direct_visit :
  forall user now body db ps db' patient,
    truthy (visitId body) = None ->
    truthy (patientId body) = Some patient ->
    createPrescription user now body db = (Json 201 ps, db') ->
    exists u,
      user = Some u /\
      visits db' = visits db ++
        [mkVisit (uuid (uuidSeed db)) patient (userId u) now
                 "Direct Prescription" "Completed"] /\
      Forall (fun p => p_visitId p = uuid (uuidSeed db)) ps /\
      prescriptions db' = prescriptions db ++ ps /\
      length ps = length (medications body).
Proof.
  intros user now body db ps db' patient Hv Hp H.
  apply createPrescription_Json in H.
  destruct H as (_ & fv & db1 & Htx & _ & _ & Hvis & Hpr & _).
  rewrite Hvis, Hpr. clear Hvis Hpr db'.
  unfold createPrescriptionTx, ensureVisit in Htx. rewrite Hv, Hp in Htx.
  apply bind_Done in Htx. destruct Htx as (fv0 & db0 & Hens & Htx).
  destruct user as [u|]; [|discriminate Hens].
  exists u. split; [reflexivity|].
  apply bind_Done in Hens. destruct Hens as (visit & db00 & Hcreate & Hret).
  rewrite visit_create_eq in Hcreate.
  destruct (mem patient (patients db)); [|discriminate Hcreate].
  destruct (mem (userId u) (users db)); [|discriminate Hcreate].
  inversion Hcreate; subst. clear Hcreate.
  unfold ret in Hret. inversion Hret; subst. clear Hret.
  apply bind_Done in Htx. destruct Htx as (visitData & db2 & Hfind & Htx).
  unfold visit_findUnique in Hfind. inversion Hfind; subst. clear Hfind.
  destruct (find _ _) as [row|]; [|discriminate Htx].
  apply bind_Done in Htx. destruct Htx as (created & db3 & Hloop & Hret).
  unfold ret in Hret. inversion Hret; subst. clear Hret.
  apply fulfillItems_Done in Hloop. simpl in Hloop.
  destruct Hloop as (_ & _ & Hvis & _ & _ & Hpr & Hlen & Hall).
  rewrite Hvis, Hpr. repeat split; assumption.
Qed.

Lemma createPrescription_direct_visit_witness :
  exists ps db',
    createPrescription (Some admin) 1000 batch_by_doctor db_AB = (Json 201 ps, db') /\
    exists u,
      Some admin = Some u /\
      visits db' = visits db_AB ++
        [mkVisit (uuid (uuidSeed db_AB)) "pat-1" (userId u) 1000
                 "Direct Prescription" "Completed"] /\
      Forall (fun p => p_visitId p = uuid (uuidSeed db_AB)) ps /\
      prescriptions db' = prescriptions db_AB ++ ps /\
      length ps = length (medications batch_by_doctor).
Proof.
  destruct (createPrescription (Some admin) 1000 batch_by_doctor db_AB)
    as [r db'] eqn:E.
  assert (Hr : exists ps, r = Json 201 ps).
  { vm_compute in E. inversion E. eexists. reflexivity. }
  destruct Hr as [ps ->].
  exists ps, db'. split; [reflexivity|].
  exact (createPrescription_direct_visit (Some admin) 1000 batch_by_doctor
           db_AB ps db' "pat-1" eq_refl eq_refl E).
Defined.

(** C5 as stated fails: the doctor of the new visit is the caller, not the
    prescriber named in the request. *)
Lemma createPrescription_visit_doctor_is_caller :
  exists ps db' v,
    createPrescription (Some admin) 1000 batch_by_doctor db_AB = (Json 201 ps, db') /\
    truthy (visitId batch_by_doctor) = None /\
    truthy (patientId batch_by_doctor) = Some "pat-1" /\
    visits db' = [v] /\
    v_doctorId v = userId admin /\
    v_doctorId v <> prescribedBy batch_by_doctor.
Proof.
  eexists. eexists. eexists.
  split; [vm_compute; reflexivity|].
  repeat split. simpl. discriminate.
Qed.

(** ** C7: when a batch fails *)

Lemma anchor_conditions_exclusive body db :
  missing_anchor body -> invalid_visit body db -> False.
Proof. intros [H _] (v & Hv & _). congruence. Qed.

(** C7 (amended). For a call by an authenticated caller whose user row, the
    prescriber's user row and the patient's row exist, [createPrescription]
    fails with error [e] exactly when one of the four contract conditions
    holds and [e] is the error reporting it: no visit and no patient given;
    a visit id that resolves to no row; a medication without stock row
    (named in the error); a quantity above the stock its row holds once the
    earlier lines are served (name, available and required in the error).
    When none holds the call succeeds with one prescription per line. *)
Theorem createPrescription_fails_iff_contract :
  forall user now body db,
    request_refs_ok user body db = true ->
    (forall e,
       (exists status db',
          createPrescription user now body db = (ErrorJson status e, db'))
       <-> contract_failure body db e)
    /\
    ((forall e, ~ contract_failure body db e) ->
     exists ps db',
       createPrescription user now body db = (Json 201 ps, db') /\
       length ps = length (medications body)).
Proof.
  intros user now body db Hrefs.
  destruct (createPrescriptionTx_anchor user now body
              (paymentMethodOf (paymentMethod body)) db Hrefs)
    as [[Hmiss Htx] | [[Hinv Htx] | Hloop]].
  - apply createPrescription_of_Thrown in Htx. split.
    + intros e. split.
      * intros (status & db' & H). rewrite Htx in H. inversion H; subst.
        left. split; [exact Hmiss | reflexivity].
      * intros [[_ ->] | [[Hi _] | [Hn _]]].
        -- eexists. eexists. exact Htx.
        -- destruct (anchor_conditions_exclusive _ _ Hmiss Hi).
        -- destruct (Hn Hmiss).
    + intros Hnone. exfalso. apply (Hnone EitherVisitIdOrPatientIdRequired).
      left. split; [exact Hmiss | reflexivity].
  - apply createPrescription_of_Thrown in Htx. split.
    + intros e. split.
      * intros (status & db' & H). rewrite Htx in H. inversion H; subst.
        right. left. split; [exact Hinv | reflexivity].
      * intros [[Hm _] | [[_ ->] | [_ [Hn _]]]].
        -- destruct (anchor_conditions_exclusive _ _ Hm Hinv).
        -- eexists. eexists. exact Htx.
        -- destruct (Hn Hinv).
    + intros Hnone. exfalso. apply (Hnone InvalidVisitID).
      right. left. split; [exact Hinv | reflexivity].
  - destruct Hloop as (fv & pid & db0 & Hnm & Hni & Hline & _ & _ & _ & Hstock
                       & _ & _ & _ & _ & _ & Htx).
    destruct (fulfillItems user now body (paymentMethodOf (paymentMethod body))
                fv pid (medications body) db0) as [[ps|e1] db1] eqn:Hrun.
    + rewrite (bind_step _ _ _ _ _ Hrun) in Htx. unfold ret in Htx.
      destruct (createPrescription_of_Done _ _ _ _ _ _ _ Htx) as [db' Hok].
      split.
      * intros e. split.
        -- intros (status & db2 & H). rewrite Hok in H. discriminate H.
        -- intros [[Hm _] | [[Hi _] | (_ & _ & Href)]].
           ++ destruct (Hnm Hm).
           ++ destruct (Hni Hi).
           ++ rewrite <- Hstock in Href.
              destruct (fulfillItems_refusal user now body
                          (paymentMethodOf (paymentMethod body)) fv pid
                          (medications body) db0 e Hline Href) as [db2 Hthrown].
              rewrite Hrun in Hthrown. discriminate Hthrown.
      * intros _. exists ps, db'. split; [exact Hok|].
        apply fulfillItems_Done in Hrun. tauto.
    + rewrite (bind_Thrown_left _ _ _ _ _ Hrun) in Htx.
      apply createPrescription_of_Thrown in Htx.
      pose proof (fulfillItems_Thrown _ _ _ _ _ _ _ _ _ _ Hline Hrun) as Href.
      rewrite Hstock in Href.
      split.
      * intros e. split.
        -- intros (status & db2 & H). rewrite Htx in H. inversion H; subst.
           right. right. repeat split; assumption.
        -- intros [[Hm _] | [[Hi _] | (_ & _ & Href')]].
           ++ destruct (Hnm Hm).
           ++ destruct (Hni Hi).
           ++ rewrite <- Hstock in Href'.
              destruct (fulfillItems_refusal user now body
                          (paymentMethodOf (paymentMethod body)) fv pid
                          (medications body) db0 e Hline Href') as [db2 Hthrown].
              rewrite Hrun in Hthrown. inversion Hthrown; subst.
              eexists. eexists. exact Htx.
      * intros Hnone. exfalso. apply (Hnone e1).
        right. right. repeat split; assumption.
Qed.

(** The spec's batch again: it is refused, and the theorem names the cause. *)
Lemma createPrescription_fails_iff_contract_witness :
  request_refs_ok (Some admin) batch_A5_B100 db_AB = true /\
  contract_failure batch_A5_B100 db_AB (InsufficientStockFor "B" 3 100).
Proof.
  split; [reflexivity|].
  apply (proj1 (createPrescription_fails_iff_contract
                  (Some admin) 1000 batch_A5_B100 db_AB eq_refl)).
  destruct (createPrescription (Some admin) 1000 batch_A5_B100 db_AB)
    as [r db'] eqn:E.
  pose proof E as E'. vm_compute in E'. inversion E'; subst.
  exists 500%nat. eexists. reflexivity.
Defined.

Lemma no_refusal_of_nothing stock e : ~ batch_refusal stock [] e.
Proof. intros H. inversion H. Qed.

(** C7 as stated fails: a batch whose prescriber has no user row is refused
    although it has an anchor and every line is in stock. *)
Lemma createPrescription_fails_outside_contract :
  exists db',
    createPrescription (Some admin) 1000 batch_unknown_prescriber db_AB
      = (ErrorJson 500 (ForeignKeyViolation "prescriptions_prescribedBy_fkey"), db')
    /\ forall e, ~ contract_failure batch_unknown_prescriber db_AB e.
Proof.
  eexists. split; [vm_compute; reflexivity|].
  intros e [[[_ Hm] _] | [[(v & Hv & _) _] | (_ & _ & Href)]].
  - discriminate Hm.
  - discriminate Hv.
  - inversion Href; subst.
    + match goal with H : find _ _ = None |- _ => vm_compute in H; discriminate H end.
    + match goal with
      | H : find _ _ = Some ?s, H' : s_currentStock ?s < _ |- _ =>
          vm_compute in H; inversion H; subst; vm_compute in H'; discriminate H'
      end.
    + match goal with
      | H : batch_refusal _ [] _ |- _ => exact (no_refusal_of_nothing _ _ H)
      end.
Qed.

(** ** The two outcomes of a well-referenced batch *)

Lemma createPrescription_outcome user now body db :
  request_refs_ok user body db = true ->
  (exists e db',
     createPrescription user now body db = (ErrorJson 500 e, db') /\
     contract_failure body db e /\ same_tables db db')
  \/
  (exists ps db',
     createPrescription user now body db = (Json 201 ps, db') /\
     batch_served (pharmacyStock db) (medications body) (pharmacyStock db') /\
     length ps = length (medications body) /\
     users db' = users db /\ patients db' = patients db /\
     visits_after user now body db db').
Proof.
  intros Hrefs.
  destruct (createPrescriptionTx_anchor user now body
              (paymentMethodOf (paymentMethod body)) db Hrefs)
    as [[Hmiss Htx] | [[Hinv Htx] | Hloop]].
  - left. apply createPrescription_of_Thrown in Htx.
    eexists. eexists. split; [exact Htx|]. split.
    + left. split; [exact Hmiss | reflexivity].
    + apply same_tables_rollback.
  - left. apply createPrescription_of_Thrown in Htx.
    eexists. eexists. split; [exact Htx|]. split.
    + right. left. split; [exact Hinv | reflexivity].
    + apply same_tables_rollback.
  - destruct Hloop as (fv & pid & db0 & Hnm & Hni & Hline & Hu0 & Hp0 & _ & Hstock
                       & _ & _ & _ & _ & Hvis0 & Htx).
    destruct (fulfillItems user now body (paymentMethodOf (paymentMethod body))
                fv pid (medications body) db0) as [[ps|e1] db1] eqn:Hrun.
    + right.
      rewrite (bind_step _ _ _ _ _ Hrun) in Htx. unfold ret in Htx.
      destruct (createPrescription_of_Done _ _ _ _ _ _ _ Htx) as [db' Hok].
      exists ps, db'. split; [exact Hok|].
      pose proof (createPrescription_Json _ _ _ _ _ _ _ Hok) as HJ.
      destruct HJ as (_ & fv' & db1' & Htx' & Hu & Hp & Hv & _ & Hs & _).
      rewrite Htx in Htx'. inversion Htx'; subst fv' db1'.
      pose proof (fulfillItems_served _ _ _ _ _ _ _ _ _ _ Hrun) as Hserved.
      apply fulfillItems_Done in Hrun.
      destruct Hrun as (Hu1 & Hp1 & Hv1 & _ & _ & _ & Hlen & _).
      rewrite Hs, <- Hstock. split; [exact Hserved|].
      split; [exact Hlen|].
      split; [congruence|]. split; [congruence|].
      unfold visits_after. rewrite Hv, Hv1.
      destruct Hvis0 as [[_ Hsame] | (patient & u & H1 & H2 & H3 & H4 & H5)].
      * left. exact Hsame.
      * right. exists patient, u. subst fv. repeat split; assumption.
    + left.
      rewrite (bind_Thrown_left _ _ _ _ _ Hrun) in Htx.
      apply createPrescription_of_Thrown in Htx.
      pose proof (fulfillItems_Thrown _ _ _ _ _ _ _ _ _ _ Hline Hrun) as Href.
      rewrite Hstock in Href.
      eexists. eexists. split; [exact Htx|]. split.
      * right. right. repeat split; assumption.
      * apply same_tables_rollback.
Qed.

Lemma find_app_Some {A} (hit : A -> bool) l l' x :
  find hit l = Some x -> find hit (l ++ l') = Some x.
Proof.
  induction l as [|y l IH]; simpl; [discriminate|].
  destruct (hit y); [intros H; exact H | exact IH].
Qed.

(** A request that was well referenced and anchored stays so after the
    call. *)
Lemma request_still_ok user now body db db' :
  request_refs_ok user body db = true ->
  users db' = users db -> patients db' = patients db ->
  visits_after user now body db db' ->
  request_refs_ok user body db' = true /\
  (~ invalid_visit body db -> ~ invalid_visit body db').
Proof.
  unfold request_refs_ok. intros H Hu Hp Hv.
  apply andb_prop in H. destruct H as [H Hpat].
  apply andb_prop in H. destruct H as [H Huser].
  apply andb_prop in H. destruct H as [Hfk Hpb].
  rewrite Hu, Hp, Hpb, Huser, Hpat.
  destruct Hv as [Hv | (patient & u & H1 & H2 & H3 & Hv)]; rewrite Hv.
  - rewrite Hfk. split; [reflexivity|].
    intros Hn (v & Hv1 & Hv2). apply Hn. exists v. rewrite <- Hv.
    split; assumption.
  - rewrite forallb_app, Hfk. simpl.
    rewrite H1, H2 in Hpat. rewrite Hpat. split; [reflexivity|].
    intros _ (v & Hv1 & _). congruence.
Qed.

Lemma anchor_ok_spec body db :
  anchor_ok body db = true -> ~ missing_anchor body /\ ~ invalid_visit body db.
Proof.
  unfold anchor_ok, missing_anchor, invalid_visit. intros H. split.
  - intros [Hv Hp]. rewrite Hv, Hp in H. discriminate H.
  - intros (v & Hv & Hf). rewrite Hv, Hf in H. discriminate H.
Qed.

Lemma anchor_ok_of body db :
  ~ missing_anchor body -> ~ invalid_visit body db -> anchor_ok body db = true.
Proof.
  unfold anchor_ok, missing_anchor, invalid_visit. intros Hm Hi.
  destruct (truthy (visitId body)) as [v|] eqn:Hv.
  - destruct (find (byVisitId v) (visits db)) eqn:Hf; [reflexivity|].
    exfalso. apply Hi. exists v. split; [reflexivity | exact Hf].
  - destruct (truthy (patientId body)); [reflexivity|].
    exfalso. apply Hm. split; reflexivity.
Qed.

(** With distinct keys, the row found by name is the row rewritten by key. *)
Lemma update_first_named name v : forall stock s stock',
  distinct (map s_id stock) = true ->
  find (byName name) stock = Some s ->
  update_first (byStockId (s_id s)) (setCurrentStock v) stock = Some stock' ->
  find (byName name) stock' = Some (setCurrentStock v s).
Proof.
  induction stock as [|x rest IH]; intros s stock' Hd Hs Hu; simpl in *.
  - discriminate Hs.
  - apply andb_prop in Hd. destruct Hd as [Hx Hd].
    destruct (byName name x) eqn:Hn.
    + inversion Hs; subst x.
      unfold byStockId in Hu at 1. rewrite String.eqb_refl in Hu.
      inversion Hu; subst. simpl.
      unfold byName in *. simpl. rewrite Hn. reflexivity.
    + destruct (byStockId (s_id s) x) eqn:Hid.
      * exfalso. unfold byStockId in Hid. apply String.eqb_eq in Hid.
        apply find_some in Hs. destruct Hs as [Hin _].
        assert (Hmem : mem (s_id x) (map s_id rest) = true).
        { apply mem_In. rewrite Hid. apply in_map. exact Hin. }
        rewrite Hmem in Hx. discriminate Hx.
      * destruct (update_first _ _ rest) as [rest'|] eqn:Hr; [|discriminate Hu].
        simpl in Hu. inversion Hu; subst. simpl. rewrite Hn.
        apply (IH s rest' Hd Hs Hr).
Qed.

Lemma stockOf_same_tables db db' name :
  same_tables db db' -> stockOf db' name = stockOf db name.
Proof.
  intros (_ & _ & _ & _ & H & _). unfold stockOf. rewrite H. reflexivity.
Qed.

(** ** C9: selling the last units, twice *)

(** C9. A batch asking for exactly the quantity q > 0 that a medication holds
    is accepted and leaves its stock at 0; the same request sent again is
    refused with the insufficient-stock error (available 0, required q) and
    the stock is still 0: the refused call deducts nothing. *)
Theorem createPrescription_twice_exact_stock :
  forall user now now' body db med s,
    request_refs_ok user body db = true ->
    anchor_ok body db = true ->
    distinct (map s_id (pharmacyStock db)) = true ->
    medications body = [med] ->
    0 < quantity med ->
    find (byName (medication med)) (pharmacyStock db) = Some s ->
    s_currentStock s = quantity med ->
    exists ps db1 db2,
      createPrescription user now body db = (Json 201 ps, db1) /\
      stockOf db1 (medication med) = Some 0 /\
      createPrescription user now' body db1
        = (ErrorJson 500 (InsufficientStockFor (medication med) 0 (quantity med)),
           db2) /\
      stockOf db2 (medication med) = Some 0.
Proof.
  intros user now now' body db med s Hrefs Hanchor Hd Hmeds Hq Hs Hcur.
  destruct (anchor_ok_spec _ _ Hanchor) as [Hnm Hni].
  destruct (createPrescription_outcome user now body db Hrefs)
    as [(e & db' & _ & Hfail & _) | (ps & db1 & Hok & Hserved & _ & Hu & Hp & Hv)].
  { exfalso. destruct Hfail as [[Hm _] | [[Hi _] | (_ & _ & Href)]].
    - exact (Hnm Hm).
    - exact (Hni Hi).
    - rewrite Hmeds in Href. inversion Href; subst; same_row.
      + congruence.
      + lia.
      + match goal with
        | H : batch_refusal _ [] _ |- _ => exact (no_refusal_of_nothing _ _ H)
        end. }
  rewrite Hmeds in Hserved. inversion Hserved; subst. same_row.
  match goal with H : batch_served _ [] _ |- _ => inversion H; subst end.
  match goal with
  | Hf : find _ (pharmacyStock db) = Some _,
    H : update_first _ _ (pharmacyStock db) = Some _ |- _ =>
      pose proof (update_first_named _ _ _ _ _ Hd Hf H) as Hs1
  end.
  rewrite Hcur, Z.sub_diag in Hs1.
  assert (Hstock1 : stockOf db1 (medication med) = Some 0).
  { unfold stockOf. rewrite Hs1. reflexivity. }
  destruct (request_still_ok user now body db db1 Hrefs Hu Hp Hv) as [Hrefs1 Hni1].
  specialize (Hni1 Hni).
  destruct (createPrescription_outcome user now' body db1 Hrefs1)
    as [(e & db2 & Hfail2 & Hcf & Hsame) | (ps2 & db2 & _ & Hserved2 & _)].
  - exists ps, db1, db2. split; [exact Hok|]. split; [exact Hstock1|].
    assert (He : e = InsufficientStockFor (medication med) 0 (quantity med)).
    { destruct Hcf as [[Hm _] | [[Hi _] | (_ & _ & Href)]].
      - destruct (Hnm Hm).
      - destruct (Hni1 Hi).
      - rewrite Hmeds in Href. inversion Href; subst; same_row.
        + congruence.
        + reflexivity.
        + simpl in *. lia. }
    subst e. split; [exact Hfail2|].
    rewrite (stockOf_same_tables _ _ _ Hsame). exact Hstock1.
  - exfalso. rewrite Hmeds in Hserved2. inversion Hserved2; subst. same_row.
    simpl in *. lia.
Qed.

Lemma createPrescription_twice_exact_stock_witness :
  exists ps db1 db2,
    createPrescription (Some admin) 1000 batch_all_of_A db_AB = (Json 201 ps, db1) /\
    stockOf db1 "A" = Some 0 /\
    createPrescription (Some admin) 1001 batch_all_of_A db1
      = (ErrorJson 500 (InsufficientStockFor "A" 0 10), db2) /\
    stockOf db2 "A" = Some 0.
Proof.
  apply (createPrescription_twice_exact_stock (Some admin) 1000 1001
           batch_all_of_A db_AB (item "A" 10)
           (stockRow "med-A" "A" 10 (1#4) (1#2))).
  - reflexivity.
  - reflexivity.
  - reflexivity.
  - reflexivity.
  - simpl. lia.
  - reflexivity.
  - reflexivity.
Defined.

(** ** C10: one medication on two lines *)

(** C10. When a batch of two lines asks for the same medication, each line
    for no more than the stock holds but both together for more, the second
    line is checked against what the first left: the batch is refused with
    the insufficient-stock error and every table, stock included, is as
    before. *)
Theorem createPrescription_same_medication_twice :
  forall user now body db m1 m2 s,
    request_refs_ok user body db = true ->
    anchor_ok body db = true ->
    distinct (map s_id (pharmacyStock db)) = true ->
    medications body = [m1; m2] ->
    medication m2 = medication m1 ->
    find (byName (medication m1)) (pharmacyStock db) = Some s ->
    quantity m1 <= s_currentStock s ->
    quantity m2 <= s_currentStock s ->
    s_currentStock s < quantity m1 + quantity m2 ->
    exists db',
      createPrescription user now body db
        = (ErrorJson 500 (InsufficientStockFor (medication m1)
                            (s_currentStock s - quantity m1) (quantity m2)),
           db') /\
      same_tables db db' /\
      stockOf db' (medication m1) = Some (s_currentStock s).
Proof.
  intros user now body db m1 m2 s Hrefs Hanchor Hd Hmeds Hname Hs Hq1 Hq2 Hsum.
  destruct (anchor_ok_spec _ _ Hanchor) as [Hnm Hni].
  destruct (createPrescription_outcome user now body db Hrefs)
    as [(e & db' & Hfail & Hcf & Hsame) | (ps & db1 & _ & Hserved & _)].
  - exists db'.
    assert (He : e = InsufficientStockFor (medication m1)
                       (s_currentStock s - quantity m1) (quantity m2)).
    { destruct Hcf as [[Hm _] | [[Hi _] | (_ & _ & Href)]].
      - destruct (Hnm Hm).
      - destruct (Hni Hi).
      - rewrite Hmeds in Href. inversion Href; subst; same_row.
        + congruence.
        + lia.
        + match goal with
          | Hf : find _ (pharmacyStock db) = Some _,
            H : update_first _ _ (pharmacyStock db) = Some _ |- _ =>
              pose proof (update_first_named _ _ _ _ _ Hd Hf H) as Hs1
          end.
          rewrite <- Hname in Hs1.
          match goal with
          | H : batch_refusal _ [m2] _ |- _ => inversion H; subst; same_row
          end.
          * congruence.
          * rewrite Hname. reflexivity.
          * simpl in *. lia. }
    subst e. split; [exact Hfail|]. split; [exact Hsame|].
    rewrite (stockOf_same_tables _ _ _ Hsame). unfold stockOf.
    rewrite Hs. reflexivity.
  - exfalso. rewrite Hmeds in Hserved. inversion Hserved; subst. same_row.
    match goal with
    | Hf : find _ (pharmacyStock db) = Some _,
      H : update_first _ _ (pharmacyStock db) = Some _ |- _ =>
        pose proof (update_first_named _ _ _ _ _ Hd Hf H) as Hs1
    end.
    rewrite <- Hname in Hs1.
    match goal with
    | H : batch_served _ [m2] _ |- _ => inversion H; subst; same_row
    end.
    simpl in *. lia.
Qed.

Lemma createPrescription_same_medication_twice_witness :
  exists db',
    createPrescription (Some admin) 1000 batch_A6_A5 db_AB
      = (ErrorJson 500 (InsufficientStockFor "A" (10 - 6) 5), db') /\
    same_tables db_AB db' /\
    stockOf db' "A" = Some 10.
Proof.
  apply (createPrescription_same_medication_twice (Some admin) 1000
           batch_A6_A5 db_AB (item "A" 6) (item "A" 5)
           (stockRow "med-A" "A" 10 (1#4) (1#2))).
  - reflexivity.
  - reflexivity.
  - reflexivity.
  - reflexivity.
  - reflexivity.
  - reflexivity.
  - simpl. lia.
  - simpl. lia.
  - simpl. lia.
Defined.

(** ** C3: what a sale records *)

Lemma uuid_index_uuid n : uuid_index (uuid n) = Some n.
Proof.
  unfold uuid_index, uuid. rewrite NilEmpty.usu. simpl.
  rewrite Unsigned.of_to. reflexivity.
Qed.


Lemma below_not_generated n m id :
  below n id = true -> (n <= m)%nat -> String.eqb id (uuid m) = false.
Proof.
  unfold below. intros Hb Hle.
  destruct (String.eqb id (uuid m)) eqn:E; [|reflexivity].
  apply String.eqb_eq in E. subst id. rewrite uuid_index_uuid in Hb.
  apply Nat.ltb_lt in Hb. lia.
Qed.

Lemma below_mono n m id : below n id = true -> (n <= m)%nat -> below m id = true.
Proof.
  unfold below. destruct (uuid_index id) as [k|]; [|reflexivity].
  intros Hb Hle. apply Nat.ltb_lt in Hb. apply Nat.ltb_lt. lia.
Qed.

Lemma update_first_app_fresh {A} hit (f : A -> A) l y :
  (forall x, In x l -> hit x = false) -> hit y = true ->
  update_first hit f (l ++ [y]) = Some (l ++ [f y]).
Proof.
  intros Hl Hy. induction l as [|x l IH]; simpl.
  - rewrite Hy. reflexivity.
  - rewrite (Hl x) by (left; reflexivity).
    rewrite IH; [reflexivity|]. intros z Hz. apply Hl. right. exact Hz.
Qed.





Lemma ensureVisit_Done user now body db fv db0 :
  ensureVisit user now body db = (Done fv, db0) ->
  transactions db0 = transactions db /\
  pharmacyStock db0 = pharmacyStock db /\
  prescriptions db0 = prescriptions db /\
  (uuidSeed db <= uuidSeed db0)%nat.
Proof.
  unfold ensureVisit.
  destruct (truthy (visitId body)).
  - unfold ret. intros H. inversion H; subst. repeat split. lia.
  - destruct (truthy (patientId body)); [|discriminate].
    destruct user as [u|]; [|discriminate].
    intros H. apply bind_Done in H. destruct H as (v & db1 & Hc & Hr).
    rewrite visit_create_eq in Hc.
    destruct (mem _ (patients db)); [|discriminate Hc].
    destruct (mem _ (users db)); [|discriminate Hc].
    inversion Hc; subst. unfold ret in Hr. inversion Hr; subst.
    simpl. repeat split. lia.
Qed.






Lemma fresh_transaction_ids_Forall db :
  fresh_transaction_ids db = true ->
  Forall (fun t => below (uuidSeed db) (t_id t) = true) (transactions db).
Proof.
  unfold fresh_transaction_ids. rewrite forallb_forall, Forall_forall. auto.
Qed.


Lemma prescription_update_Done id f db r db' :
  prescription_update id f db = (Done r, db') ->
  exists old l,
    find (byPrescriptionId id) (prescriptions db) = Some old /\
    update_first (byPrescriptionId id) f (prescriptions db) = Some l /\
    r = f old /\ db' = set_prescriptions l db.
Proof.
  unfold prescription_update.
  destruct (find _ (prescriptions db)) as [old|]; [|discriminate].
  destruct (update_first _ f (prescriptions db)) as [l|]; [|discriminate].
  intros H. inversion H; subst. exists old, l. repeat split.
Qed.

(** What an accepted [fulfillPrescription] did. *)
Lemma fulfillPrescription_Json user now id method db status r db' :
  fulfillPrescription user now id method db = (Json status r, db') ->
  exists u pr m stock' l tx,
    user = Some u /\ status = 200%nat /\
    find (byPrescriptionId id) (prescriptions db) = Some pr /\
    String.eqb (p_paymentStatus pr) "Paid" = false /\
    find (byName (p_medication pr)) (pharmacyStock db) = Some m /\
    p_quantity pr <= s_currentStock m /\
    update_first (byStockId (s_id m))
      (setCurrentStock (s_currentStock m - p_quantity pr)) (pharmacyStock db)
      = Some stock' /\
    update_first (byPrescriptionId id)
      (markPaid (Product (s_sellingPrice m) (p_quantity pr)) now
                (uuid (uuidSeed db))) (prescriptions db) = Some l /\
    t_id tx = uuid (uuidSeed db) /\ t_type tx = "SALE" /\
    t_category tx = "PHARMACY" /\
    t_amount tx = Product (s_sellingPrice m) (p_quantity pr) /\
    t_referenceId tx = Some (p_id pr) /\
    f_transaction r = tx /\
    f_prescription r
      = markPaid (Product (s_sellingPrice m) (p_quantity pr)) now
                 (uuid (uuidSeed db)) pr /\
    prescriptions db' = l /\ pharmacyStock db' = stock' /\
    transactions db' = transactions db ++ [tx].
Proof.
  unfold fulfillPrescription. intros H.
  destruct user as [u|]; [|discriminate H].
  destruct (find _ (prescriptions db)) as [pr|] eqn:Hpr; [|discriminate H].
  destruct (String.eqb (p_paymentStatus pr) "Paid") eqn:Hpaid; [discriminate H|].
  destruct (String.eqb (p_status pr) "Cancelled"); [discriminate H|].
  destruct (find _ (pharmacyStock db)) as [m|] eqn:Hm; [|discriminate H].
  destruct (Z.ltb_spec (s_currentStock m) (p_quantity pr)) as [|Hq]; [discriminate H|].
  destruct (transaction _ db) as [[res|e] db1] eqn:Htx; [|discriminate H].
  apply transaction_Done in Htx. inversion H; subst. clear H.
  pose proof (createAuditLog_tables (userId u) "FULFILL_PRESCRIPTION"
                "Prescription" (Some (p_id pr)) db1) as T.
  destruct T as (_ & _ & _ & Tp & Ts & Tt & _). rewrite Tp, Ts, Tt.
  unfold fulfillPrescriptionTx in Htx.
  apply bind_Done in Htx. destruct Htx as (upd & db2 & Hupd & Htx).
  apply pharmacyStock_update_Done in Hupd.
  destruct Hupd as (old & stock' & _ & Hstock & _ & ->).
  apply bind_Done in Htx. destruct Htx as (visit & db3 & Hv & Htx).
  unfold visit_findUnique in Hv. inversion Hv; subst db3. clear Hv.
  destruct visit as [visit|]; [|discriminate Htx].
  apply bind_Done in Htx. destruct Htx as (tx & db4 & Hcreate & Htx).
  rewrite transaction_create_eq in Hcreate. simpl in Hcreate.
  destruct (mem (userId u) (users db)); [|discriminate Hcreate].
  destruct (mem (v_patientId visit) (patients db)); [|discriminate Hcreate].
  inversion Hcreate; subst. clear Hcreate.
  apply bind_Done in Htx. destruct Htx as (updated & db5 & Hupd & Hret).
  apply prescription_update_Done in Hupd. simpl in Hupd.
  destruct Hupd as (old' & l & Hold' & Hl & -> & ->).
  unfold ret in Hret. inversion Hret; subst. clear Hret.
  rewrite Hpr in Hold'. inversion Hold'; subst old'.
  exists u, pr, m, stock', l. eexists.
  repeat split; try eassumption; try reflexivity.
Qed.

Lemma update_first_find {A} hit (f : A -> A) : forall l l' x,
  find hit l = Some x -> update_first hit f l = Some l' ->
  hit (f x) = true -> find hit l' = Some (f x).
Proof.
  induction l as [|y l IH]; intros l' x Hf Hu Hhit; simpl in *.
  - discriminate Hf.
  - destruct (hit y) eqn:Hy.
    + inversion Hf; subst. inversion Hu; subst. simpl. rewrite Hhit. reflexivity.
    + destruct (update_first hit f l) as [l0|] eqn:E; [|discriminate Hu].
      simpl in Hu. inversion Hu; subst. simpl. rewrite Hy.
      apply (IH l0 x Hf eq_refl Hhit).
Qed.

Lemma pharmacyStock_update_Thrown id f db e db' :
  pharmacyStock_update id f db = (Thrown e, db') -> db' = db.
Proof.
  unfold pharmacyStock_update.
  destruct (find _ (pharmacyStock db)); [|intros H; inversion H; reflexivity].
  destruct (update_first _ f (pharmacyStock db)); intros H;
    [discriminate H | inversion H; reflexivity].
Qed.

Lemma pharmacyStock_rename_Done id name f db r db' :
  pharmacyStock_rename id name f db = (Done r, db') ->
  nameTaken id name db = false /\
  exists old l,
    find (byStockId id) (pharmacyStock db) = Some old /\
    update_first (byStockId id) f (pharmacyStock db) = Some l /\
    r = f old /\ db' = set_pharmacyStock l db.
Proof.
  unfold pharmacyStock_rename.
  destruct (nameTaken id name db); [discriminate|].
  intros H. split; [reflexivity|]. exact (pharmacyStock_update_Done _ _ _ _ _ H).
Qed.

Lemma pharmacyStock_rename_Thrown id name f db e db' :
  pharmacyStock_rename id name f db = (Thrown e, db') -> db' = db.
Proof.
  unfold pharmacyStock_rename.
  destruct (nameTaken id name db); [intros H; inversion H; reflexivity|].
  apply pharmacyStock_update_Thrown.
Qed.

(** What [updateMedication] leaves: the database as it was, or the catalogue
    with the addressed row rewritten by a function that keeps key and
    level. *)
Lemma updateMedication_snd user id data db :
  snd (updateMedication user id data db) = db \/
  exists old l f db1,
    (forall s, s_id (f s) = s_id s /\ s_currentStock (f s) = s_currentStock s) /\
    find (byStockId id) (pharmacyStock db) = Some old /\
    update_first (byStockId id) f (pharmacyStock db) = Some l /\
    db1 = set_pharmacyStock l db /\
    snd (updateMedication user id data db)
      = match user with
        | Some u => createAuditLog (userId u) "UPDATE_MEDICATION"
                      "PharmacyStock" (Some (s_id (f old))) db1
        | None => db1
        end.
Proof.
  unfold updateMedication.
  match goal with
  | |- context [validated ?b (pharmacyStock_rename id ?n ?g) db] =>
      set (f := g); destruct (validated b (pharmacyStock_rename id n f) db)
        as [[r|e] db1] eqn:H
  end.
  - right. apply validated_Done in H. destruct H as [_ H].
    apply pharmacyStock_rename_Done in H.
    destruct H as (_ & old & l & Hold & Hl & -> & ->).
    exists old, l, f, (set_pharmacyStock l db).
    split; [intros s0; split; reflexivity|].
    split; [exact Hold|]. split; [exact Hl|]. split; reflexivity.
  - left. simpl. apply validated_Thrown in H.
    destruct H as [[_ ->]|[_ H]]; [reflexivity|].
    exact (pharmacyStock_rename_Thrown _ _ _ _ _ _ H).
Qed.




(** The scenario of the spec: 4 of 10 Paracetamol at 0.50 leaves 6 in stock
    and a Paid prescription of 2.00, as computed and in exact arithmetic. *)
Example paracetamol_scenario :
  exists p db',
    createPrescription (Some admin) 1000 batch_paracetamol_4 db_paracetamol
      = (Json 201 [p], db') /\
    stockOf db' "Paracetamol" = Some 6 /\
    p_paymentStatus p = "Paid" /\
    (exists total,
       p_totalAmount p = Some total /\
       computed total = numberOfZ 2 /\ (exactValue total == 2)%Q).
Proof.
  eexists. eexists. split; [vm_compute; reflexivity|].
  split; [reflexivity|]. split; [reflexivity|].
  eexists. split; [reflexivity|].
  split; [vm_compute; reflexivity | reflexivity].
Qed.


(** ** C8: Paid is terminal *)

Lemma update_first_nth {A} hit (f : A -> A) : forall l l' x i y,
  update_first hit f l = Some l' -> find hit l = Some x ->
  nth_error l i = Some y ->
  nth_error l' i = Some y \/ (y = x /\ nth_error l' i = Some (f x)).
Proof.
  induction l as [|z l IH]; intros l' x i y Hu Hf Hn; simpl in *.
  - discriminate Hu.
  - destruct (hit z).
    + inversion Hu; subst. inversion Hf; subst.
      destruct i as [|i]; simpl in *.
      * inversion Hn; subst. right. split; reflexivity.
      * left. exact Hn.
    + destruct (update_first hit f l) as [l0|] eqn:E; [|discriminate Hu].
      simpl in Hu. inversion Hu; subst.
      destruct i as [|i]; simpl in *.
      * left. exact Hn.
      * apply (IH l0 x i y eq_refl Hf Hn).
Qed.

Lemma nth_error_app_keep {A} (l l' : list A) i y :
  nth_error l i = Some y -> nth_error (l ++ l') i = Some y.
Proof.
  intros H. rewrite nth_error_app1; [exact H|].
  apply nth_error_Some. congruence.
Qed.

Lemma createPrescription_appends user now body db :
  exists ps,
    prescriptions (snd (createPrescription user now body db))
      = prescriptions db ++ ps.
Proof.
  destruct (createPrescription user now body db) as [[status ps|status e] db'] eqn:H.
  - apply createPrescription_Json in H.
    destruct H as (_ & fv & db1 & Htx & _ & _ & _ & Hpr & _).
    simpl. rewrite Hpr. clear Hpr.
    unfold createPrescriptionTx in Htx.
    apply bind_Done in Htx. destruct Htx as (fv0 & db0 & Hens & Htx).
    apply ensureVisit_Done in Hens. destruct Hens as (_ & _ & Hp0 & _).
    apply bind_Done in Htx. destruct Htx as (visitData & db2 & Hfind & Htx).
    unfold visit_findUnique in Hfind. inversion Hfind; subst db2. clear Hfind.
    destruct visitData as [row|]; [|discriminate Htx].
    apply bind_Done in Htx. destruct Htx as (created & db3 & Hloop & Hret).
    unfold ret in Hret. inversion Hret; subst. clear Hret.
    apply fulfillItems_Done in Hloop.
    destruct Hloop as (_ & _ & _ & _ & _ & Hpr & _).
    exists ps. rewrite Hpr, Hp0. reflexivity.
  - exists []. rewrite app_nil_r. simpl.
    unfold createPrescription in H.
    destruct (transaction _ db) as [[[fv result]|e0] db1] eqn:Htx; [discriminate H|].
    inversion H; subst. apply transaction_Thrown in Htx.
    destruct Htx as [(_ & _ & _ & Hp & _) _]. symmetry. exact Hp.
Qed.

Lemma payment_view_applyUpdate data p :
  schema_keys_only data = true ->
  payment_view (applyUpdate data p) = payment_view p.
Proof.
  unfold schema_keys_only, payment_view, applyUpdate.
  destruct (u_quantity data); [discriminate|].
  destruct (u_totalAmount data); [discriminate|].
  destruct (u_paymentStatus data); [discriminate|].
  destruct (u_paidAt data); [discriminate|].
  destruct (u_transactionId data); [discriminate|].
  intros _. reflexivity.
Qed.

Lemma fulfillPrescription_refuses_paid user now id method db pr :
  find (byPrescriptionId id) (prescriptions db) = Some pr ->
  p_paymentStatus pr = "Paid" ->
  exists status msg,
    fulfillPrescription user now id method db = (ErrorJson status (Message msg), db).
Proof.
  intros Hpr Hpaid. unfold fulfillPrescription.
  destruct user as [u|].
  - rewrite Hpr, Hpaid. simpl. eexists. eexists. reflexivity.
  - eexists. eexists. reflexivity.
Qed.

(** A Paid row keeps its place and its payment side through any one request
    whose update body stays within the schema. *)
Lemma paid_row_kept op db i p :
  within_schema op = true ->
  nth_error (prescriptions db) i = Some p ->
  p_paymentStatus p = "Paid" ->
  exists p',
    nth_error (prescriptions (runPrescriptionOp op db)) i = Some p' /\
    payment_view p' = payment_view p.
Proof.
  intros Hop Hn Hpaid. destruct op as [user now body | user id data | user now id method];
    simpl in *.
  - destruct (createPrescription_appends user now body db) as [ps ->].
    exists p. split; [apply nth_error_app_keep; exact Hn | reflexivity].
  - unfold updatePrescription.
    destruct (prescription_update id (applyUpdate data) db) as [[r|e] db1] eqn:H.
    + apply prescription_update_Done in H.
      destruct H as (old & l & Hold & Hl & _ & ->).
      assert (Hrow : exists p', nth_error l i = Some p' /\
                                payment_view p' = payment_view p).
      { destruct (update_first_nth _ _ _ _ _ _ _ Hl Hold Hn) as [H | [-> H]].
        - exists p. split; [exact H | reflexivity].
        - exists (applyUpdate data old). split; [exact H|].
          apply payment_view_applyUpdate. exact Hop. }
      destruct user as [u|]; simpl; [|exact Hrow].
      pose proof (createAuditLog_tables (userId u) "UPDATE_PRESCRIPTION"
                    "Prescription" (Some (p_id r)) (set_prescriptions l db)) as T.
      destruct T as (_ & _ & _ & Tp & _). rewrite Tp. exact Hrow.
    + unfold prescription_update in H.
      destruct (find _ (prescriptions db)).
      * destruct (update_first _ _ (prescriptions db)); [discriminate H|].
        inversion H; subst. exists p. split; [exact Hn | reflexivity].
      * inversion H; subst. exists p. split; [exact Hn | reflexivity].
  - destruct (fulfillPrescription user now id method db) as [[status r|status e] db'] eqn:H.
    + apply fulfillPrescription_Json in H.
      destruct H as (u & pr & m & stock' & l & tx & _ & _ & Hpr & Hnot & _ & _ & _
                     & Hl & _ & _ & _ & _ & _ & _ & _ & Hp' & _).
      simpl. rewrite Hp'.
      destruct (update_first_nth _ _ _ _ _ _ _ Hl Hpr Hn) as [Hk | [-> _]].
      * exists p. split; [exact Hk | reflexivity].
      * rewrite Hpaid in Hnot. discriminate Hnot.
    + simpl. exists p. split; [|reflexivity].
      unfold fulfillPrescription in H.
      destruct user as [u|]; [|inversion H; subst; exact Hn].
      destruct (find _ (prescriptions db)) as [pr|]; [|inversion H; subst; exact Hn].
      destruct (String.eqb (p_paymentStatus pr) "Paid"); [inversion H; subst; exact Hn|].
      destruct (String.eqb (p_status pr) "Cancelled"); [inversion H; subst; exact Hn|].
      destruct (find _ (pharmacyStock db)) as [m|]; [|inversion H; subst; exact Hn].
      destruct (s_currentStock m <? p_quantity pr); [inversion H; subst; exact Hn|].
      destruct (transaction _ db) as [[res|e0] db1] eqn:Htx; [discriminate H|].
      inversion H; subst. apply transaction_Thrown in Htx.
      destruct Htx as [(_ & _ & _ & Hp & _) _]. rewrite <- Hp. exact Hn.
Qed.

(** What does hold.  [fulfillPrescription] refuses a prescription that is
    already Paid and changes nothing; and through any sequence of
    [createPrescription], [fulfillPrescription] and [updatePrescription]
    requests whose update bodies carry only the keys of the schema (status,
    instructions), a Paid prescription stays Paid with the same totalAmount,
    paidAt, transactionId and quantity: it is never paid a second time. *)
Lemma paid_rows_survive_schema_updates :
  (forall user now id method db pr,
     find (byPrescriptionId id) (prescriptions db) = Some pr ->
     p_paymentStatus pr = "Paid" ->
     exists status msg,
       fulfillPrescription user now id method db
         = (ErrorJson status (Message msg), db))
  /\
  (forall ops db i p,
     forallb within_schema ops = true ->
     nth_error (prescriptions db) i = Some p ->
     p_paymentStatus p = "Paid" ->
     exists p',
       nth_error (prescriptions (runPrescriptionOps ops db)) i = Some p' /\
       payment_view p' = payment_view p).
Proof.
  split.
  - exact fulfillPrescription_refuses_paid.
  - induction ops as [|op rest IH]; intros db i p Hops Hn Hpaid; simpl in *.
    + exists p. split; [exact Hn | reflexivity].
    + apply andb_prop in Hops. destruct Hops as [Hop Hrest].
      destruct (paid_row_kept op db i p Hop Hn Hpaid) as (p1 & Hn1 & Hv1).
      assert (Hpaid1 : p_paymentStatus p1 = "Paid").
      { unfold payment_view in Hv1. inversion Hv1. congruence. }
      destruct (IH _ i p1 Hrest Hn1 Hpaid1) as (p' & Hn' & Hv').
      exists p'. split; [exact Hn' | congruence].
Qed.

Example paid_rows_survive_schema_updates_example :
  find (byPrescriptionId "2") (prescriptions db_paid) = Some paidRow /\
  p_paymentStatus paidRow = "Paid" /\
  forallb within_schema later_ops = true /\
  (exists status msg,
     fulfillPrescription (Some admin) 1001 "2" None db_paid
       = (ErrorJson status (Message msg), db_paid)) /\
  (exists p',
     nth_error (prescriptions (runPrescriptionOps later_ops db_paid)) 0 = Some p' /\
     payment_view p' = payment_view paidRow).
Proof.
  assert (Hf : find (byPrescriptionId "2") (prescriptions db_paid) = Some paidRow)
    by (vm_compute; reflexivity).
  assert (Hn : nth_error (prescriptions db_paid) 0 = Some paidRow)
    by (vm_compute; reflexivity).
  split; [exact Hf|]. split; [reflexivity|]. split; [reflexivity|]. split.
  - exact (proj1 paid_rows_survive_schema_updates (Some admin) 1001 "2" None
             db_paid paidRow Hf eq_refl).
  - exact (proj2 paid_rows_survive_schema_updates later_ops db_paid 0%nat paidRow
             eq_refl Hn eq_refl).
Defined.

(** C8. The claim does not hold of the code.  A PUT whose body passes
    [updatePrescriptionSchema] and carries [paymentStatus] puts the Paid
    prescription "2" back to Pending; the guard of [fulfillPrescription]
    then lets it through and it is charged a second time: a second SALE
    transaction, and the stock of A goes from 5 to 0. *)
Theorem updatePrescription_reopens_paid :
  exists p1 db1 r db2,
    find (byPrescriptionId "2") (prescriptions db_paid) = Some paidRow /\
    p_paymentStatus paidRow = "Paid" /\
    updatePrescriptionSchema reopen = true /\
    putPrescription (Some admin) "2" reopen db_paid = (Json 200 p1, db1) /\
    find (byPrescriptionId "2") (prescriptions db1) = Some p1 /\
    p_paymentStatus p1 = "Pending" /\
    fulfillPrescription (Some admin) 1002 "2" None db1 = (Json 200 r, db2) /\
    p_paymentStatus (f_prescription r) = "Paid" /\
    p_transactionId paidRow <> p_transactionId (f_prescription r) /\
    length (transactions db_paid) = 1%nat /\
    length (transactions db2) = 2%nat /\
    stockOf db_paid "A" = Some 5 /\ stockOf db2 "A" = Some 0.
Proof.
  eexists. eexists. eexists. eexists.
  split; [vm_compute; reflexivity|].
  split; [reflexivity|].
  split; [reflexivity|].
  split; [vm_compute; reflexivity|].
  split; [vm_compute; reflexivity|].
  split; [reflexivity|].
  split; [vm_compute; reflexivity|].
  split; [reflexivity|].
  split; [simpl; discriminate|].
  repeat split.
Qed.

(** * Further properties of the controllers *)

(** ** fulfillPrescription *)

(** X1. Whenever [fulfillPrescription] answers with an error (401, 404, 400
    or 500), every table is as it was before the call: the stock deducted and
    the transaction inserted before a failure inside the transaction are
    rolled back. *)
Theorem fulfillPrescription_all_or_nothing :
  forall user now id method db status e db',
    fulfillPrescription user now id method db = (ErrorJson status e, db') ->
    same_tables db db'.
Proof.
  intros user now id method db status e db' H.
  unfold fulfillPrescription in H.
  destruct user as [u|]; [|inversion H; subst; apply same_tables_refl].
  destruct (find _ (prescriptions db)) as [pr|];
    [|inversion H; subst; apply same_tables_refl].
  destruct (String.eqb (p_paymentStatus pr) "Paid");
    [inversion H; subst; apply same_tables_refl|].
  destruct (String.eqb (p_status pr) "Cancelled");
    [inversion H; subst; apply same_tables_refl|].
  destruct (find _ (pharmacyStock db)) as [m|];
    [|inversion H; subst; apply same_tables_refl].
  destruct (s_currentStock m <? p_quantity pr);
    [inversion H; subst; apply same_tables_refl|].
  destruct (transaction _ db) as [[res|e0] db1] eqn:Htx; [discriminate H|].
  inversion H; subst. apply transaction_Thrown in Htx. tauto.
Qed.

Lemma fulfillPrescription_all_or_nothing_witness :
  exists db',
    fulfillPrescription (Some ghost) 1000 "rx-1" None db_pending
      = (ErrorJson 500 (Message "Failed to fulfill prescription"), db') /\
    same_tables db_pending db'.
Proof.
  destruct (fulfillPrescription (Some ghost) 1000 "rx-1" None db_pending)
    as [r db'] eqn:E.
  assert (Hr : r = ErrorJson 500 (Message "Failed to fulfill prescription")).
  { vm_compute in E. inversion E. reflexivity. }
  subst r. exists db'. split; [reflexivity|].
  exact (fulfillPrescription_all_or_nothing _ _ _ _ _ _ _ _ E).
Defined.

(** Inside that transaction the stock had been deducted when the insert of
    the transaction row was refused. *)
Example fulfil_by_ghost_partial_writes :
  exists partial,
    fulfillPrescriptionTx ghost 1000 "rx-1" "Cash" pendingRow
      (stockRow "med-A" "A" 10 (1#4) (1#2)) (Product (1#2) 4) db_pending
      = (Thrown (ForeignKeyViolation "transactions_createdBy_fkey"), partial) /\
    stockOf partial "A" = Some 6 /\ stockOf db_pending "A" = Some 10.
Proof. eexists. split; [vm_compute; reflexivity|]. split; reflexivity. Qed.

Lemma prescription_update_ok id f db old :
  find (byPrescriptionId id) (prescriptions db) = Some old ->
  exists l,
    update_first (byPrescriptionId id) f (prescriptions db) = Some l /\
    prescription_update id f db = (Done (f old), set_prescriptions l db).
Proof.
  intros H. destruct (find_update_first _ f _ _ H) as [l Hl].
  exists l. split; [exact Hl|].
  unfold prescription_update. rewrite H, Hl. reflexivity.
Qed.

(** The conditions under which the controller reaches its last line. *)
Lemma fulfillPrescription_accepts u now id method db pr m v :
  mem (userId u) (users db) = true ->
  find (byPrescriptionId id) (prescriptions db) = Some pr ->
  String.eqb (p_paymentStatus pr) "Paid" = false ->
  String.eqb (p_status pr) "Cancelled" = false ->
  find (byName (p_medication pr)) (pharmacyStock db) = Some m ->
  p_quantity pr <= s_currentStock m ->
  find (byVisitId (p_visitId pr)) (visits db) = Some v ->
  mem (v_patientId v) (patients db) = true ->
  exists r db', fulfillPrescription (Some u) now id method db = (Json 200 r, db').
Proof.
  intros Hu Hpr Hpaid Hcan Hm Hq Hv Hpat.
  unfold fulfillPrescription. rewrite Hpr, Hpaid, Hcan, Hm.
  destruct (Z.ltb_spec (s_currentStock m) (p_quantity pr)) as [Hlt|_]; [lia|].
  assert (Htx : exists res db1,
             fulfillPrescriptionTx u now id (orElse method "Cash") pr m
               (Product (s_sellingPrice m) (p_quantity pr)) db
             = (Done res, db1)).
  { unfold fulfillPrescriptionTx.
    destruct (byName_stock_id_found _ _ _ Hm) as [old Hold].
    destruct (pharmacyStock_update_ok (s_id m)
                (setCurrentStock (s_currentStock m - p_quantity pr)) db old Hold)
      as (stock' & _ & Hupd).
    rewrite (bind_step _ _ _ _ _ Hupd).
    unfold bind at 1, visit_findUnique. cbn [visits set_pharmacyStock].
    rewrite Hv.
    unfold bind at 1. rewrite transaction_create_eq.
    cbn [users patients set_pharmacyStock]. rewrite Hu, Hpat.
    match goal with
    | |- context [bind (prescription_update id ?f) _ ?d] =>
        destruct (prescription_update_ok id f d pr) as (l & _ & Hupd2);
          [exact Hpr|]
    end.
    rewrite (bind_step _ _ _ _ _ Hupd2). unfold ret.
    eexists. eexists. reflexivity. }
  destruct Htx as (res & db1 & Htx).
  unfold transaction. rewrite Htx. eexists. eexists. reflexivity.
Qed.

(** X2. For a caller with a user row and a prescription whose visit and
    patient exist, [fulfillPrescription] succeeds exactly when the
    prescription exists, is neither Paid nor Cancelled, its medication has a
    stock row, and that row holds at least the prescribed quantity. *)
Theorem fulfillPrescription_succeeds_iff :
  forall user now id method db,
    fulfil_refs_ok user id db = true ->
    ((exists r db', fulfillPrescription user now id method db = (Json 200 r, db'))
     <->
     (exists pr m,
        find (byPrescriptionId id) (prescriptions db) = Some pr /\
        p_paymentStatus pr <> "Paid" /\
        p_status pr <> "Cancelled" /\
        find (byName (p_medication pr)) (pharmacyStock db) = Some m /\
        p_quantity pr <= s_currentStock m)).
Proof.
  intros user now id method db Hrefs. split.
  - intros (r & db' & H). unfold fulfillPrescription in H.
    destruct user as [u|]; [|discriminate H].
    destruct (find _ (prescriptions db)) as [pr|]; [|discriminate H].
    destruct (String.eqb (p_paymentStatus pr) "Paid") eqn:Hpaid; [discriminate H|].
    destruct (String.eqb (p_status pr) "Cancelled") eqn:Hcan; [discriminate H|].
    destruct (find _ (pharmacyStock db)) as [m|] eqn:Hm; [|discriminate H].
    destruct (Z.ltb_spec (s_currentStock m) (p_quantity pr)) as [|Hq]; [discriminate H|].
    exists pr, m. repeat split; try assumption.
    + intros E. rewrite E in Hpaid. discriminate Hpaid.
    + intros E. rewrite E in Hcan. discriminate Hcan.
  - intros (pr & m & Hpr & Hpaid & Hcan & Hm & Hq).
    unfold fulfil_refs_ok in Hrefs. rewrite Hpr in Hrefs.
    destruct user as [u|]; [|discriminate Hrefs].
    apply andb_prop in Hrefs. destruct Hrefs as [Hu Hv].
    destruct (find (byVisitId (p_visitId pr)) (visits db)) as [v|] eqn:Hvis;
      [|discriminate Hv].
    apply (fulfillPrescription_accepts u now id method db pr m v); try assumption.
    + apply String.eqb_neq. exact Hpaid.
    + apply String.eqb_neq. exact Hcan.
Qed.

Lemma fulfillPrescription_succeeds_iff_witness :
  fulfil_refs_ok (Some pharmacist) "rx-1" db_clinic = true /\
  exists pr m,
    find (byPrescriptionId "rx-1") (prescriptions db_clinic) = Some pr /\
    p_paymentStatus pr <> "Paid" /\
    p_status pr <> "Cancelled" /\
    find (byName (p_medication pr)) (pharmacyStock db_clinic) = Some m /\
    p_quantity pr <= s_currentStock m.
Proof.
  split; [reflexivity|].
  apply (proj1 (fulfillPrescription_succeeds_iff (Some pharmacist) 1000 "rx-1"
                  None db_clinic eq_refl)).
  destruct (fulfillPrescription (Some pharmacist) 1000 "rx-1" None db_clinic)
    as [resp db'] eqn:E.
  pose proof E as E'. vm_compute in E'. inversion E'; subst.
  eexists. eexists. reflexivity.
Defined.

Lemma update_first_other_names name v : forall stock s stock',
  distinct (map s_id stock) = true ->
  find (byName name) stock = Some s ->
  update_first (byStockId (s_id s)) (setCurrentStock v) stock = Some stock' ->
  forall other, other <> name ->
    find (byName other) stock' = find (byName other) stock.
Proof.
  induction stock as [|x rest IH]; intros s stock' Hd Hs Hu other Hne; simpl in *.
  - discriminate Hs.
  - apply andb_prop in Hd. destruct Hd as [Hx Hd].
    destruct (byName name x) eqn:Hn.
    + inversion Hs; subst x.
      unfold byStockId in Hu at 1. rewrite String.eqb_refl in Hu.
      inversion Hu; subst. simpl.
      unfold byName in Hn. apply String.eqb_eq in Hn.
      unfold byName at 1 3. simpl. rewrite Hn.
      destruct (String.eqb name other) eqn:E; [|reflexivity].
      apply String.eqb_eq in E. congruence.
    + destruct (byStockId (s_id s) x) eqn:Hid.
      * exfalso. unfold byStockId in Hid. apply String.eqb_eq in Hid.
        apply find_some in Hs. destruct Hs as [Hin _].
        assert (Hmem : mem (s_id x) (map s_id rest) = true).
        { apply mem_In. rewrite Hid. apply in_map. exact Hin. }
        rewrite Hmem in Hx. discriminate Hx.
      * destruct (update_first _ _ rest) as [rest'|] eqn:Hr; [|discriminate Hu].
        simpl in Hu. inversion Hu; subst. simpl.
        destruct (byName other x); [reflexivity|].
        apply (IH s rest' Hd Hs Hr other Hne).
Qed.

Lemma fulfillPrescription_stockRemaining user now id method db status r db' :
  fulfillPrescription user now id method db = (Json status r, db') ->
  exists pr m,
    find (byPrescriptionId id) (prescriptions db) = Some pr /\
    find (byName (p_medication pr)) (pharmacyStock db) = Some m /\
    f_stockRemaining r = s_currentStock m - p_quantity pr.
Proof.
  unfold fulfillPrescription. intros H.
  destruct user as [u|]; [|discriminate H].
  destruct (find _ (prescriptions db)) as [pr|] eqn:Hpr; [|discriminate H].
  destruct (String.eqb (p_paymentStatus pr) "Paid"); [discriminate H|].
  destruct (String.eqb (p_status pr) "Cancelled"); [discriminate H|].
  destruct (find _ (pharmacyStock db)) as [m|] eqn:Hm; [|discriminate H].
  destruct (s_currentStock m <? p_quantity pr); [discriminate H|].
  destruct (transaction _ db) as [[res|e] db1] eqn:Htx; [|discriminate H].
  apply transaction_Done in Htx. inversion H; subst. clear H.
  exists pr, m. split; [first [exact Hpr | reflexivity]|].
  split; [first [exact Hm | reflexivity]|].
  unfold fulfillPrescriptionTx in Htx.
  apply bind_Done in Htx. destruct Htx as (upd & db2 & Hupd & Htx).
  apply pharmacyStock_update_Done in Hupd.
  destruct Hupd as (old & stock' & _ & _ & -> & ->).
  apply bind_Done in Htx. destruct Htx as (visit & db3 & Hv & Htx).
  destruct visit as [visit|]; [|discriminate Htx].
  apply bind_Done in Htx. destruct Htx as (tx & db4 & _ & Htx).
  apply bind_Done in Htx. destruct Htx as (updated & db5 & _ & Hret).
  unfold ret in Hret. inversion Hret; subst. reflexivity.
Qed.

(** X3. With distinct stock keys, a successful [fulfillPrescription] takes
    exactly the prescribed quantity off the stock of the prescribed
    medication, reports that level as [stockRemaining], and leaves the level
    of every other medication as it was. *)
Theorem fulfillPrescription_deducts_quantity :
  forall user now id method db r db' pr m,
    distinct (map s_id (pharmacyStock db)) = true ->
    find (byPrescriptionId id) (prescriptions db) = Some pr ->
    find (byName (p_medication pr)) (pharmacyStock db) = Some m ->
    fulfillPrescription user now id method db = (Json 200 r, db') ->
    stockOf db' (p_medication pr) = Some (s_currentStock m - p_quantity pr) /\
    f_stockRemaining r = s_currentStock m - p_quantity pr /\
    0 <= s_currentStock m - p_quantity pr /\
    (forall other, other <> p_medication pr ->
       stockOf db' other = stockOf db other).
Proof.
  intros user now id method db r db' pr m Hd Hpr Hm H.
  pose proof (fulfillPrescription_stockRemaining _ _ _ _ _ _ _ _ H)
    as (pr1 & m1 & Hpr1 & Hm1 & Hrem).
  rewrite Hpr in Hpr1. inversion Hpr1; subst pr1.
  rewrite Hm in Hm1. inversion Hm1; subst m1.
  apply fulfillPrescription_Json in H.
  destruct H as (u & pr2 & m2 & stock' & l & tx & _ & _ & Hpr2 & _ & Hm2 & Hq
                 & Hstock & _ & _ & _ & _ & _ & _ & _ & _ & _ & Hs' & _).
  rewrite Hpr in Hpr2. inversion Hpr2; subst pr2.
  rewrite Hm in Hm2. inversion Hm2; subst m2.
  unfold stockOf. rewrite Hs'.
  split.
  - rewrite (update_first_named _ _ _ _ _ Hd Hm Hstock). reflexivity.
  - split; [exact Hrem|]. split; [lia|].
    intros other Hne.
    rewrite (update_first_other_names _ _ _ _ _ Hd Hm Hstock other Hne).
    reflexivity.
Qed.

Lemma fulfillPrescription_deducts_quantity_witness :
  exists r db',
    fulfillPrescription (Some pharmacist) 1000 "rx-1" None db_clinic
      = (Json 200 r, db') /\
    stockOf db' "A" = Some (10 - 4) /\
    f_stockRemaining r = 10 - 4 /\
    0 <= 10 - 4 /\
    (forall other, other <> "A" -> stockOf db' other = stockOf db_clinic other).
Proof.
  destruct (fulfillPrescription (Some pharmacist) 1000 "rx-1" None db_clinic)
    as [resp db'] eqn:E.
  assert (Hr : exists r, resp = Json 200 r).
  { vm_compute in E. inversion E. eexists. reflexivity. }
  destruct Hr as [r ->]. exists r, db'. split; [reflexivity|].
  exact (fulfillPrescription_deducts_quantity (Some pharmacist) 1000 "rx-1" None
           db_clinic r db' pendingRow (stockRow "med-A" "A" 10 (1#4) (1#2))
           eq_refl eq_refl eq_refl E).
Defined.

(** X4. Once [fulfillPrescription] has succeeded for a prescription, any
    further call for it, by any authenticated caller, is answered 400
    "Prescription already fulfilled" and changes nothing. *)
Theorem fulfillPrescription_only_once :
  forall user now id method db r db' u' now' method',
    fulfillPrescription user now id method db = (Json 200 r, db') ->
    fulfillPrescription (Some u') now' id method' db'
      = (ErrorJson 400 (Message "Prescription already fulfilled"), db').
Proof.
  intros user now id method db r db' u' now' method' H.
  apply fulfillPrescription_Json in H.
  destruct H as (u & pr & m & stock' & l & tx & _ & _ & Hpr & _ & _ & _ & _
                 & Hl & _ & _ & _ & _ & _ & _ & _ & Hp' & _).
  assert (Hfind : find (byPrescriptionId id) (prescriptions db')
                  = Some (markPaid (Product (s_sellingPrice m) (p_quantity pr))
                                   now (uuid (uuidSeed db)) pr)).
  { rewrite Hp'. apply (update_first_find _ _ _ _ _ Hpr Hl).
    apply find_some in Hpr. destruct Hpr as [_ Hhit]. exact Hhit. }
  unfold fulfillPrescription. rewrite Hfind. reflexivity.
Qed.

Lemma fulfillPrescription_only_once_witness :
  exists r db',
    fulfillPrescription (Some pharmacist) 1000 "rx-1" None db_clinic
      = (Json 200 r, db') /\
    fulfillPrescription (Some admin) 1001 "rx-1" (Some "Card") db'
      = (ErrorJson 400 (Message "Prescription already fulfilled"), db').
Proof.
  destruct (fulfillPrescription (Some pharmacist) 1000 "rx-1" None db_clinic)
    as [resp db'] eqn:E.
  assert (Hr : exists r, resp = Json 200 r).
  { vm_compute in E. inversion E. eexists. reflexivity. }
  destruct Hr as [r ->]. exists r, db'. split; [reflexivity|].
  exact (fulfillPrescription_only_once _ _ _ _ _ _ _ admin 1001 (Some "Card") E).
Defined.

(** ** adjustStock *)

Lemma createAuditLog_pharmacyStock u a e i db :
  pharmacyStock (createAuditLog u a e i db) = pharmacyStock db.
Proof. apply createAuditLog_tables. Qed.

(** The writes of [adjustStock] when they all go through. *)
Lemma adjustStockWrites_Done user now id m body db r db1 :
  adjustStockWrites user now id m body db = (Done r, db1) ->
  exists old l es ts,
    find (byStockId id) (pharmacyStock db) = Some old /\
    update_first (byStockId id) (stockUpdateData m body) (pharmacyStock db) = Some l /\
    r = stockUpdateData m body old /\
    pharmacyStock db1 = l /\
    users db1 = users db /\ patients db1 = patients db /\
    visits db1 = visits db /\ prescriptions db1 = prescriptions db /\
    expenses db1 = expenses db ++ es /\
    transactions db1 = transactions db ++ ts /\
    (isAdd body = false -> es = [] /\ ts = []) /\
    (isAdd body = true -> 0 < adj_quantity body ->
     isPositive (totalCostOf m body) = true ->
     exists u,
       user = Some u /\
       es = [mkExpense (uuid (uuidSeed db)) "INVENTORY" (totalCostOf m body)
               now (userId u)] /\
       ts = [mkTransaction (uuid (S (uuidSeed db))) "EXPENSE" "PHARMACY"
               (totalCostOf m body) (Some (s_id m)) (Some "PharmacyStock")
               None (userId u) None]).
Proof.
  unfold adjustStockWrites. intros H.
  apply bind_Done in H. destruct H as (upd & db2 & Hupd & H).
  apply validated_Done in Hupd. destruct Hupd as [_ Hupd].
  apply pharmacyStock_update_Done in Hupd.
  destruct Hupd as (old & l & Hold & Hl & -> & ->).
  apply bind_Done in H. destruct H as ([] & db3 & H & Hret).
  unfold ret in Hret. inversion Hret; subst. clear Hret.
  exists old, l.
  destruct (isAdd body && (0 <? adj_quantity body))%bool eqn:Hadd;
    [destruct (isPositive (totalCostOf m body)) eqn:Htot; simpl in H|];
    [| |].
  2:{ unfold ret in H. inversion H; subst. simpl.
      exists [], []. rewrite !app_nil_r.
      repeat split; try assumption; intros; discriminate. }
  - destruct user as [u|]; [|discriminate H].
    unfold bind in H. rewrite expense_create_eq in H. simpl in H.
    destruct (mem (userId u) (users db)) eqn:Hu; [|discriminate H].
    rewrite transaction_create_eq in H. simpl in H. rewrite Hu in H.
    unfold ret in H. inversion H; subst. simpl.
    apply andb_prop in Hadd. destruct Hadd as [Hadd _].
    eexists. eexists.
    split; [assumption|]. split; [assumption|]. split; [reflexivity|].
    split; [reflexivity|]. split; [reflexivity|]. split; [reflexivity|].
    split; [reflexivity|]. split; [reflexivity|]. split; [reflexivity|].
    split; [reflexivity|]. split; [congruence|].
    intros _ _ _. exists u. repeat split.
  - unfold ret in H. inversion H; subst. simpl.
    exists [], []. rewrite !app_nil_r.
    repeat split; try assumption.
    intros Ha Hq _. rewrite Ha in Hadd. apply Z.ltb_lt in Hq.
    rewrite Hq in Hadd. discriminate Hadd.
Qed.

(** What an accepted [adjustStock] did. *)
Lemma adjustStock_Json user now id body db status updated db' :
  adjustStock user now id body db = (Json status updated, db') ->
  exists m l es ts,
    status = 200%nat /\
    find (byStockId id) (pharmacyStock db) = Some m /\
    0 <= newStockOf m body /\
    update_first (byStockId id) (stockUpdateData m body) (pharmacyStock db) = Some l /\
    updated = stockUpdateData m body m /\
    pharmacyStock db' = l /\
    users db' = users db /\ patients db' = patients db /\
    visits db' = visits db /\ prescriptions db' = prescriptions db /\
    expenses db' = expenses db ++ es /\
    transactions db' = transactions db ++ ts /\
    (isAdd body = false -> es = [] /\ ts = []) /\
    (isAdd body = true -> 0 < adj_quantity body ->
     isPositive (totalCostOf m body) = true ->
     exists u,
       user = Some u /\
       es = [mkExpense (uuid (uuidSeed db)) "INVENTORY" (totalCostOf m body)
               now (userId u)] /\
       ts = [mkTransaction (uuid (S (uuidSeed db))) "EXPENSE" "PHARMACY"
               (totalCostOf m body) (Some (s_id m)) (Some "PharmacyStock")
               None (userId u) None]).
Proof.
  unfold adjustStock. intros H.
  destruct (find _ (pharmacyStock db)) as [m|] eqn:Hm; [|discriminate H].
  destruct (Z.ltb_spec (newStockOf m body) 0) as [|Hge]; [discriminate H|].
  destruct (adjustStockWrites user now id m body db) as [[r|e] db1] eqn:Hw;
    [|discriminate H].
  apply adjustStockWrites_Done in Hw.
  destruct Hw as (old & l & es & ts & Hold & Hl & -> & Hs & Hu & Hp & Hv & Hpr
                  & He & Ht & Hsub & Hadd).
  rewrite Hm in Hold. injection Hold as <-.
  injection H as <- <- Hdb.
  exists m, l, es, ts.
  assert (T : pharmacyStock db' = pharmacyStock db1 /\ users db' = users db1 /\
              patients db' = patients db1 /\ visits db' = visits db1 /\
              prescriptions db' = prescriptions db1 /\
              expenses db' = expenses db1 /\ transactions db' = transactions db1).
  { rewrite <- Hdb. destruct user as [u|]; [|repeat split].
    pose proof (createAuditLog_tables (userId u) "ADJUST_STOCK" "PharmacyStock"
                  (Some (s_id m)) db1) as T. tauto. }
  clear Hdb.
  destruct T as (T1 & T2 & T3 & T4 & T5 & T6 & T7).
  rewrite T1, T2, T3, T4, T5, T6, T7.
  split; [reflexivity|]. split; [reflexivity|]. split; [assumption|].
  split; [assumption|]. split; [reflexivity|]. split; [assumption|].
  split; [assumption|]. split; [assumption|]. split; [assumption|].
  split; [assumption|]. split; [assumption|]. split; [assumption|].
  split; assumption.
Qed.

Lemma byStockId_stockUpdateData id m body x :
  byStockId id (stockUpdateData m body x) = byStockId id x.
Proof. reflexivity. Qed.

Lemma update_first_find_other {A} hit hit2 (f : A -> A) : forall l l',
  update_first hit f l = Some l' ->
  (forall x, hit x = true -> hit2 x = false /\ hit2 (f x) = false) ->
  find hit2 l' = find hit2 l.
Proof.
  induction l as [|x rest IH]; intros l' H Hd; [discriminate H|].
  simpl in H. destruct (hit x) eqn:Hx.
  - injection H as <-. simpl. destruct (Hd x Hx) as [-> ->]. reflexivity.
  - destruct (update_first hit f rest) as [r|] eqn:Hr; [|discriminate H].
    simpl in H. injection H as <-. simpl. rewrite (IH r eq_refl Hd). reflexivity.
Qed.

Lemma update_first_map {A B} hit (f : A -> A) (g : A -> B) : forall l l',
  update_first hit f l = Some l' ->
  (forall x, g (f x) = g x) ->
  map g l' = map g l.
Proof.
  induction l as [|x rest IH]; intros l' H Hg; [discriminate H|].
  simpl in H. destruct (hit x).
  - injection H as <-. simpl. rewrite Hg. reflexivity.
  - destruct (update_first hit f rest) as [r|] eqn:Hr; [|discriminate H].
    simpl in H. injection H as <-. simpl. rewrite (IH r eq_refl Hg). reflexivity.
Qed.

Lemma byStockId_other id other x :
  other <> id -> byStockId id x = true -> byStockId other x = false.
Proof.
  unfold byStockId. intros Hne H. apply String.eqb_eq in H.
  apply String.eqb_neq. congruence.
Qed.

(** The row a withdrawal leaves. *)
Lemma adjustStock_withdraws user now id body db m :
  find (byStockId id) (pharmacyStock db) = Some m ->
  isAdd body = false ->
  adj_quantity body <= s_currentStock m ->
  exists updated db',
    adjustStock user now id body db = (Json 200 updated, db') /\
    find (byStockId id) (pharmacyStock db') = Some updated /\
    s_currentStock updated = s_currentStock m - adj_quantity body /\
    s_costPrice updated = s_costPrice m /\
    s_expiryDate updated = s_expiryDate m /\
    expenses db' = expenses db /\ transactions db' = transactions db.
Proof.
  intros Hm Hadd Hq.
  assert (Hnew : newStockOf m body = s_currentStock m - adj_quantity body).
  { unfold newStockOf. rewrite Hadd. reflexivity. }
  assert (H : exists updated db',
             adjustStock user now id body db = (Json 200 updated, db')).
  { unfold adjustStock. rewrite Hm.
    destruct (Z.ltb_spec (newStockOf m body) 0) as [Hlt|_]; [lia|].
    unfold adjustStockWrites. rewrite Hadd. simpl andb.
    rewrite validated_false.
    destruct (pharmacyStock_update_ok id (stockUpdateData m body) db m Hm)
      as (l & _ & Hupd).
    rewrite (bind_step _ _ _ _ _ Hupd). simpl.
    unfold bind, ret. eexists. eexists. reflexivity. }
  destruct H as (updated & db' & H).
  exists updated, db'. split; [exact H|].
  apply adjustStock_Json in H.
  destruct H as (m1 & l & es & ts & _ & Hm1 & _ & Hl & -> & Hs & _ & _ & _ & _
                 & He & Ht & Hsub & _).
  rewrite Hm in Hm1. injection Hm1 as <-.
  destruct (Hsub Hadd) as [-> ->]. rewrite app_nil_r in He, Ht.
  rewrite Hs. split.
  - apply (update_first_find _ _ _ _ _ Hm Hl).
    rewrite byStockId_stockUpdateData.
    apply find_some in Hm. destruct Hm as [_ Hhit]. exact Hhit.
  - unfold stockUpdateData. simpl. rewrite Hadd, Hnew.
    repeat split; assumption.
Qed.

(** X5. For an existing medication and any [type] other than "add", the
    adjustment is a withdrawal: asking for more than the stock holds is
    answered 400 "Insufficient stock" and changes nothing; asking for at most
    the stock (all of it included) is accepted, leaves exactly the
    difference, keeps cost price and expiry date whatever [newCost] and
    [newExpiry] the body carries, and writes neither an expense nor a
    transaction. *)
Theorem adjustStock_withdrawal :
  forall user now id body db m,
    find (byStockId id) (pharmacyStock db) = Some m ->
    isAdd body = false ->
    (s_currentStock m < adj_quantity body ->
     adjustStock user now id body db
       = (ErrorJson 400 (Message "Insufficient stock"), db))
    /\
    (adj_quantity body <= s_currentStock m ->
     exists updated db',
       adjustStock user now id body db = (Json 200 updated, db') /\
       find (byStockId id) (pharmacyStock db') = Some updated /\
       s_currentStock updated = s_currentStock m - adj_quantity body /\
       s_costPrice updated = s_costPrice m /\
       s_expiryDate updated = s_expiryDate m /\
       expenses db' = expenses db /\ transactions db' = transactions db).
Proof.
  intros user now id body db m Hm Hadd.
  split.
  - intros Hlt. unfold adjustStock. rewrite Hm.
    assert (Hnew : newStockOf m body = s_currentStock m - adj_quantity body).
    { unfold newStockOf. rewrite Hadd. reflexivity. }
    destruct (Z.ltb_spec (newStockOf m body) 0) as [_|Hge]; [reflexivity | lia].
  - apply adjustStock_withdraws; assumption.
Qed.

Lemma adjustStock_withdrawal_witness :
  adjustStock (Some pharmacist) 1000 "med-B"
      (mkAdjustStockBody 4 "subtract" None None) db_clinic
    = (ErrorJson 400 (Message "Insufficient stock"), db_clinic) /\
  exists updated db',
    adjustStock (Some pharmacist) 1000 "med-B"
        (mkAdjustStockBody 3 "remove" (Some (9#1))
           (Some (InvalidDate "next week"))) db_clinic
      = (Json 200 updated, db') /\
    find (byStockId "med-B") (pharmacyStock db') = Some updated /\
    s_currentStock updated = 3 - 3 /\
    s_costPrice updated = (1#1) /\
    s_expiryDate updated = None /\
    expenses db' = expenses db_clinic /\ transactions db' = transactions db_clinic.
Proof.
  split.
  - apply (proj1 (adjustStock_withdrawal (Some pharmacist) 1000 "med-B"
                    (mkAdjustStockBody 4 "subtract" None None) db_clinic
                    (stockRow "med-B" "B" 3 (1#1) (2#1)) eq_refl eq_refl)).
    simpl. lia.
  - apply (proj2 (adjustStock_withdrawal (Some pharmacist) 1000 "med-B"
                    (mkAdjustStockBody 3 "remove" (Some (9#1))
           (Some (InvalidDate "next week")))
                    db_clinic (stockRow "med-B" "B" 3 (1#1) (2#1)) eq_refl eq_refl)).
    simpl. lia.
Defined.

(** X6. An accepted [adjustStock] rewrites the addressed row and nothing
    else of the catalogue: the row keeps its key, name, selling price and
    minimum stock, its level is the old level plus or minus the quantity and
    is not negative, every other medication row reads as before, no row is
    added or removed, and visits and prescriptions are untouched. *)
Theorem adjustStock_touches_one_row :
  forall user now id body db status updated db',
    adjustStock user now id body db = (Json status updated, db') ->
    exists m,
      find (byStockId id) (pharmacyStock db) = Some m /\
      find (byStockId id) (pharmacyStock db') = Some updated /\
      s_id updated = s_id m /\
      s_medicationName updated = s_medicationName m /\
      s_sellingPrice updated = s_sellingPrice m /\
      s_minimumStock updated = s_minimumStock m /\
      s_currentStock updated
        = (if isAdd body then s_currentStock m + adj_quantity body
           else s_currentStock m - adj_quantity body) /\
      0 <= s_currentStock updated /\
      (forall other, other <> id ->
         find (byStockId other) (pharmacyStock db')
           = find (byStockId other) (pharmacyStock db)) /\
      map s_id (pharmacyStock db') = map s_id (pharmacyStock db) /\
      visits db' = visits db /\ prescriptions db' = prescriptions db.
Proof.
  intros user now id body db status updated db' H.
  apply adjustStock_Json in H.
  destruct H as (m & l & es & ts & _ & Hm & Hge & Hl & -> & Hs & _ & _ & Hv & Hp
                 & _).
  exists m. rewrite Hs.
  split; [exact Hm|]. split.
  { apply (update_first_find _ _ _ _ _ Hm Hl).
    rewrite byStockId_stockUpdateData.
    apply find_some in Hm. destruct Hm as [_ Hhit]. exact Hhit. }
  split; [reflexivity|]. split; [reflexivity|]. split; [reflexivity|].
  split; [reflexivity|]. split; [reflexivity|]. split; [exact Hge|].
  split.
  { intros other Hne. apply (update_first_find_other _ _ _ _ _ Hl).
    intros x Hx. rewrite byStockId_stockUpdateData.
    split; apply (byStockId_other id); assumption. }
  split; [|split; assumption].
  apply (update_first_map _ _ _ _ _ Hl). reflexivity.
Qed.

Lemma adjustStock_touches_one_row_witness :
  exists updated db' m,
    adjustStock (Some pharmacist) 1000 "med-B"
        (mkAdjustStockBody 7 "add" (Some (3#2)) None) db_clinic
      = (Json 200 updated, db') /\
    find (byStockId "med-B") (pharmacyStock db_clinic) = Some m /\
    find (byStockId "med-B") (pharmacyStock db') = Some updated /\
    s_id updated = s_id m /\
    s_medicationName updated = s_medicationName m /\
    s_sellingPrice updated = s_sellingPrice m /\
    s_minimumStock updated = s_minimumStock m /\
    s_currentStock updated = s_currentStock m + 7 /\
    0 <= s_currentStock updated /\
    (forall other, other <> "med-B" ->
       find (byStockId other) (pharmacyStock db')
         = find (byStockId other) (pharmacyStock db_clinic)) /\
    map s_id (pharmacyStock db') = map s_id (pharmacyStock db_clinic) /\
    visits db' = visits db_clinic /\ prescriptions db' = prescriptions db_clinic.
Proof.
  destruct (adjustStock (Some pharmacist) 1000 "med-B"
              (mkAdjustStockBody 7 "add" (Some (3#2)) None) db_clinic)
    as [r db'] eqn:E.
  assert (Hr : exists updated, r = Json 200 updated).
  { vm_compute in E. inversion E. eexists. reflexivity. }
  destruct Hr as (updated & ->).
  destruct (adjustStock_touches_one_row _ _ _ _ _ _ _ _ E) as (m & H).
  exists updated, db', m. split; [reflexivity|]. exact H.
Defined.

(** X7. Restocking a medication and then withdrawing the same quantity
    brings the level back to where it was, but only the level: the
    withdrawal is accepted, writes no expense and no transaction, so what
    the restock booked stays booked, and the cost price stays the one the
    restock set. *)
Theorem adjustStock_restock_then_withdraw :
  forall user user' now now' id q cost expiry db m r1 db1,
    find (byStockId id) (pharmacyStock db) = Some m ->
    0 <= s_currentStock m ->
    adjustStock user now id (mkAdjustStockBody q "add" cost expiry) db
      = (Json 200 r1, db1) ->
    exists r2 db2,
      adjustStock user' now' id (mkAdjustStockBody q "subtract" None None) db1
        = (Json 200 r2, db2) /\
      find (byStockId id) (pharmacyStock db2) = Some r2 /\
      s_currentStock r2 = s_currentStock m /\
      s_costPrice r2 = orElse cost (s_costPrice m) /\
      expenses db2 = expenses db1 /\ transactions db2 = transactions db1.
Proof.
  intros user user' now now' id q cost expiry db m r1 db1 Hm Hcur H.
  apply adjustStock_Json in H.
  destruct H as (m1 & l & es & ts & _ & Hm1 & Hge & Hl & -> & Hs & _).
  rewrite Hm in Hm1. injection Hm1 as <-.
  assert (Hrow : find (byStockId id) (pharmacyStock db1)
                 = Some (stockUpdateData m (mkAdjustStockBody q "add" cost expiry) m)).
  { rewrite Hs. apply (update_first_find _ _ _ _ _ Hm Hl).
    rewrite byStockId_stockUpdateData.
    apply find_some in Hm. destruct Hm as [_ Hhit]. exact Hhit. }
  destruct (adjustStock_withdraws user' now' id
              (mkAdjustStockBody q "subtract" None None) db1 _ Hrow eq_refl)
    as (r2 & db2 & H2 & Hfind & Hlevel & Hcost & _ & He & Ht).
  { simpl. unfold newStockOf. simpl. lia. }
  exists r2, db2. split; [exact H2|]. split; [exact Hfind|].
  split.
  { rewrite Hlevel. simpl. unfold newStockOf. simpl. lia. }
  split; [|split; assumption].
  rewrite Hcost. reflexivity.
Qed.

Lemma adjustStock_restock_then_withdraw_witness :
  exists r1 db1 r2 db2,
    adjustStock (Some pharmacist) 1000 "med-B"
        (mkAdjustStockBody 7 "add" (Some (3#2)) None) db_clinic
      = (Json 200 r1, db1) /\
    adjustStock (Some admin) 2000 "med-B"
        (mkAdjustStockBody 7 "subtract" None None) db1
      = (Json 200 r2, db2) /\
    find (byStockId "med-B") (pharmacyStock db2) = Some r2 /\
    s_currentStock r2 = 3 /\
    s_costPrice r2 = (3#2) /\
    expenses db2 = expenses db1 /\ transactions db2 = transactions db1.
Proof.
  destruct (adjustStock (Some pharmacist) 1000 "med-B"
              (mkAdjustStockBody 7 "add" (Some (3#2)) None) db_clinic)
    as [r db1] eqn:E.
  assert (Hr : exists r1, r = Json 200 r1).
  { vm_compute in E. inversion E. eexists. reflexivity. }
  destruct Hr as (r1 & ->).
  assert (Hcur : 0 <= s_currentStock (stockRow "med-B" "B" 3 (1#1) (2#1)))
    by (simpl; lia).
  destruct (adjustStock_restock_then_withdraw (Some pharmacist) (Some admin)
              1000 2000 "med-B" 7 (Some (3#2)) None db_clinic
              (stockRow "med-B" "B" 3 (1#1) (2#1)) r1 db1 eq_refl Hcur E)
    as (r2 & db2 & H).
  exists r1, db1, r2, db2. split; [reflexivity|]. exact H.
Defined.

(** X8. A restock whose [newCost] is zero stores zero as the cost price
    (the update tests [newCost !== undefined]) and still books its expense
    and its transaction at the previous cost price (the pricing tests
    [newCost] for truthiness): one Expense and one Transaction whose amount
    is the product the code computes as [Number(previous cost price) *
    quantity], while the row says the cost is zero. *)
Theorem adjustStock_zero_newCost :
  forall user now id q c expiry db m updated db',
    find (byStockId id) (pharmacyStock db) = Some m ->
    0 < q -> (c == 0)%Q -> (0 < s_costPrice m)%Q ->
    adjustStock user now id (mkAdjustStockBody q "add" (Some c) expiry) db
      = (Json 200 updated, db') ->
    s_costPrice updated = c /\
    exists ex tx,
      expenses db' = expenses db ++ [ex] /\
      e_amount ex = Product (s_costPrice m) q /\
      transactions db' = transactions db ++ [tx] /\
      t_amount tx = Product (s_costPrice m) q /\
      t_referenceId tx = Some id.
Proof.
  intros user now id q c expiry db m updated db' Hm Hq Hc Hpos H.
  apply adjustStock_Json in H.
  destruct H as (m1 & l & es & ts & _ & Hm1 & _ & _ & -> & _ & _ & _ & _ & _
                 & He & Ht & _ & Hadd).
  rewrite Hm in Hm1. injection Hm1 as <-.
  split; [reflexivity|].
  assert (Hunit : costPerUnitOf m (mkAdjustStockBody q "add" (Some c) expiry)
                  = s_costPrice m).
  { unfold costPerUnitOf. simpl.
    apply Qeq_bool_iff in Hc. rewrite Hc. reflexivity. }
  assert (Htot : isPositive (totalCostOf m (mkAdjustStockBody q "add" (Some c) expiry))
                 = true).
  { unfold isPositive, totalCostOf. rewrite Hunit. simpl.
    rewrite Qle_bool_false_of_pos; [reflexivity|].
    apply Qmult_lt_0_compat; [exact Hpos|]. unfold Qlt. simpl. lia. }
  destruct (Hadd eq_refl Hq Htot) as (u & _ & -> & ->).
  unfold totalCostOf in He, Ht. rewrite Hunit in He, Ht. simpl in He, Ht.
  eexists. eexists. split; [exact He|]. split; [reflexivity|].
  split; [exact Ht|]. split; [reflexivity|].
  simpl. apply find_some in Hm. destruct Hm as [_ Hhit].
  unfold byStockId in Hhit. apply String.eqb_eq in Hhit. rewrite Hhit. reflexivity.
Qed.

Lemma adjustStock_zero_newCost_witness :
  exists updated db',
    adjustStock (Some pharmacist) 1000 "med-B"
        (mkAdjustStockBody 7 "add" (Some 0%Q) None) db_clinic
      = (Json 200 updated, db') /\
    s_costPrice updated = 0%Q /\
    exists ex tx,
      expenses db' = expenses db_clinic ++ [ex] /\
      e_amount ex = Product (1#1) 7 /\
      transactions db' = transactions db_clinic ++ [tx] /\
      t_amount tx = Product (1#1) 7 /\
      t_referenceId tx = Some "med-B".
Proof.
  destruct (adjustStock (Some pharmacist) 1000 "med-B"
              (mkAdjustStockBody 7 "add" (Some 0%Q) None) db_clinic)
    as [r db'] eqn:E.
  assert (Hr : exists updated, r = Json 200 updated).
  { vm_compute in E. inversion E. eexists. reflexivity. }
  destruct Hr as (updated & ->).
  assert (Hq : 0 < 7) by lia.
  assert (Hc : (0 == 0)%Q) by reflexivity.
  assert (Hpos : (0 < s_costPrice (stockRow "med-B" "B" 3 (1#1) (2#1)))%Q)
    by reflexivity.
  exists updated, db'. split; [reflexivity|].
  exact (adjustStock_zero_newCost (Some pharmacist) 1000 "med-B" 7 0%Q None
           db_clinic (stockRow "med-B" "B" 3 (1#1) (2#1)) updated db'
           eq_refl Hq Hc Hpos E).
Defined.

(** ** createMedication and updateMedication *)

Lemma pharmacyStock_create_eq row db :
  pharmacyStock_create row db =
  if existsb (byName (s_medicationName (row (uuid (uuidSeed db))))) (pharmacyStock db)
  then (Thrown (Message "Unique constraint failed on the fields: (`medicationName`)"),
        mkDB (users db) (patients db) (visits db) (prescriptions db)
             (pharmacyStock db) (transactions db) (expenses db) (auditLogs db)
             (S (uuidSeed db)))
  else (Done (row (uuid (uuidSeed db))),
        mkDB (users db) (patients db) (visits db) (prescriptions db)
             (pharmacyStock db ++ [row (uuid (uuidSeed db))])
             (transactions db) (expenses db) (auditLogs db) (S (uuidSeed db))).
Proof.
  unfold pharmacyStock_create. prim. simpl.
  destruct (existsb _ (pharmacyStock db)); reflexivity.
Qed.

Lemma find_app_None {A} (hit : A -> bool) l l' :
  existsb hit l = false -> find hit (l ++ l') = find hit l'.
Proof.
  induction l as [|x rest IH]; simpl; [reflexivity|].
  destruct (hit x); [discriminate|]. exact IH.
Qed.

Lemma numberOrZ_zero x :
  numberOrZ x 0 = match x with Some v => v | None => 0 end.
Proof.
  unfold numberOrZ. destruct x as [v|]; [|reflexivity].
  destruct (Z.eqb_spec v 0) as [->|]; reflexivity.
Qed.

Lemma numberOrZ_not_zero x d : d <> 0 -> numberOrZ x d <> 0.
Proof.
  unfold numberOrZ. intros Hd. destruct x as [v|]; [|exact Hd].
  destruct (Z.eqb_spec v 0) as [|Hv]; assumption.
Qed.

(** X9. [createMedication] succeeds exactly when the name is not taken and
    the expiry date, if the body carries a non-empty one, is a date.  Then
    it gives a 200 whose row is appended to the catalogue under a fresh key,
    is the row found under that name afterwards, holds the stock level of
    the body (none given: 0), never a minimum stock of 0 (0 or none given:
    10) and the expiry date of the body (none or an empty string: none); no
    other table but the audit log changes.  A taken name or an expiry date
    that [new Date] cannot read is answered 500 "Failed to create
    medication" and changes no table. *)
Theorem createMedication_accepts_iff :
  forall user body db,
    (existsb (byName (cm_medicationName body)) (pharmacyStock db) = false ->
     invalidDate (truthyDate (cm_expiryDate body)) = false ->
     exists med db',
       createMedication user body db = (Json 200 med, db') /\
       pharmacyStock db' = pharmacyStock db ++ [med] /\
       s_id med = uuid (uuidSeed db) /\
       s_medicationName med = cm_medicationName body /\
       find (byName (cm_medicationName body)) (pharmacyStock db') = Some med /\
       s_currentStock med
         = match cm_currentStock body with Some v => v | None => 0 end /\
       s_minimumStock med <> 0 /\
       (cm_minimumStock body = Some 0 -> s_minimumStock med = 10) /\
       s_expiryDate med = dateColumn (truthyDate (cm_expiryDate body)) /\
       prescriptions db' = prescriptions db /\
       transactions db' = transactions db /\ expenses db' = expenses db)
    /\
    (existsb (byName (cm_medicationName body)) (pharmacyStock db) = true \/
     invalidDate (truthyDate (cm_expiryDate body)) = true ->
     exists db',
       createMedication user body db
         = (ErrorJson 500 (Message "Failed to create medication"), db') /\
       same_tables db db').
Proof.
  intros user body db. split; [intros Hname Hdate | intros Hbad].
  - unfold createMedication. rewrite Hdate, validated_false.
    rewrite pharmacyStock_create_eq. simpl.
    rewrite Hname.
    eexists. eexists. split; [reflexivity|].
    assert (T : forall d : DB,
               let d' := match user with
                         | Some u => createAuditLog (userId u) "CREATE_MEDICATION"
                                       "PharmacyStock"
                                       (Some (uuid (uuidSeed db))) d
                         | None => d
                         end in
               pharmacyStock d' = pharmacyStock d /\
               prescriptions d' = prescriptions d /\
               transactions d' = transactions d /\ expenses d' = expenses d).
    { intros d. destruct user as [u|]; simpl; [|repeat split].
      pose proof (createAuditLog_tables (userId u) "CREATE_MEDICATION"
                    "PharmacyStock" (Some (uuid (uuidSeed db))) d) as T. tauto. }
    match goal with
    | |- pharmacyStock ?d' = _ /\ _ =>
        match d' with
        | context [createAuditLog _ _ _ _ ?d] => specialize (T d)
        | _ => idtac
        end
    end.
    destruct user as [u|]; simpl in *.
    + destruct T as (T1 & T2 & T3 & T4). rewrite T1, T2, T3, T4. simpl.
      split; [reflexivity|]. split; [reflexivity|]. split; [reflexivity|].
      split.
      { rewrite (find_app_None _ _ _ Hname). simpl. unfold byName. simpl.
        rewrite String.eqb_refl. reflexivity. }
      split; [apply numberOrZ_zero|].
      split; [apply numberOrZ_not_zero; lia|].
      split; [intros ->; reflexivity|]. repeat split.
    + split; [reflexivity|]. split; [reflexivity|]. split; [reflexivity|].
      split.
      { rewrite (find_app_None _ _ _ Hname). simpl. unfold byName. simpl.
        rewrite String.eqb_refl. reflexivity. }
      split; [apply numberOrZ_zero|].
      split; [apply numberOrZ_not_zero; lia|].
      split; [intros ->; reflexivity|]. repeat split.
  - unfold createMedication.
    destruct (invalidDate (truthyDate (cm_expiryDate body))) eqn:Hdate.
    + exists db. split; [reflexivity | apply same_tables_refl].
    + destruct Hbad as [Hname|Hno]; [|discriminate Hno].
      rewrite validated_false, pharmacyStock_create_eq. simpl.
      rewrite Hname. eexists. split; [reflexivity|].
      unfold same_tables. simpl. repeat split.
Qed.

Lemma createMedication_accepts_iff_witness :
  (exists med db',
     createMedication (Some pharmacist)
         (mkCreateMedicationBody "D" (Some 0) (Some (1#2)) (Some (2#1))
            (Some (ValidDate "2030-01-01")) None)
         db_clinic = (Json 200 med, db') /\
     find (byName "D") (pharmacyStock db') = Some med /\
     s_currentStock med = 0 /\ s_minimumStock med = 10 /\
     s_expiryDate med = Some "2030-01-01") /\
  (exists db',
     createMedication (Some pharmacist)
         (mkCreateMedicationBody "B" (Some 5) (Some (1#2)) (Some (2#1)) None (Some 20))
         db_clinic
       = (ErrorJson 500 (Message "Failed to create medication"), db') /\
     same_tables db_clinic db') /\
  (exists db',
     createMedication (Some pharmacist)
         (mkCreateMedicationBody "D" (Some 5) (Some (1#2)) (Some (2#1))
            (Some (InvalidDate "not-a-date")) (Some 20))
         db_clinic
       = (ErrorJson 500 (Message "Failed to create medication"), db') /\
     same_tables db_clinic db').
Proof.
  split; [|split].
  - destruct (proj1 (createMedication_accepts_iff (Some pharmacist)
                       (mkCreateMedicationBody "D" (Some 0) (Some (1#2)) (Some (2#1))
                          (Some (ValidDate "2030-01-01")) None) db_clinic)
                    eq_refl eq_refl)
      as (med & db' & H & _ & _ & _ & Hfind & Hcur & _ & Hmin & Hexp & _).
    exists med, db'. split; [exact H|]. split; [exact Hfind|].
    split; [exact Hcur|]. split; [apply Hmin; reflexivity | exact Hexp].
  - apply (proj2 (createMedication_accepts_iff (Some pharmacist)
                    (mkCreateMedicationBody "B" (Some 5) (Some (1#2)) (Some (2#1))
                       None (Some 20)) db_clinic)).
    left. reflexivity.
  - apply (proj2 (createMedication_accepts_iff (Some pharmacist)
                    (mkCreateMedicationBody "D" (Some 5) (Some (1#2)) (Some (2#1))
                       (Some (InvalidDate "not-a-date")) (Some 20)) db_clinic)).
    right. reflexivity.
Defined.

(** The catalogue after [updateMedication]: as before, or with the addressed
    row rewritten by a function that keeps key and level. *)
Lemma updateMedication_stock user id data db :
  pharmacyStock (snd (updateMedication user id data db)) = pharmacyStock db \/
  exists f,
    (forall s, s_id (f s) = s_id s /\ s_currentStock (f s) = s_currentStock s) /\
    update_first (byStockId id) f (pharmacyStock db)
      = Some (pharmacyStock (snd (updateMedication user id data db))).
Proof.
  destruct (updateMedication_snd user id data db)
    as [->|(old & l & f & db1 & Hf & _ & Hl & -> & ->)]; [left; reflexivity|].
  right. exists f. split; [exact Hf|]. rewrite Hl. f_equal.
  destruct user as [u|]; [|reflexivity].
  symmetry. apply createAuditLog_pharmacyStock.
Qed.

(** X10. Whatever its body and whatever the outcome, [updateMedication]
    moves no stock level: the catalogue has the same keys in the same order
    with the same levels afterwards, so name, prices, minimum stock and
    expiry date are all it can rewrite; and an id that addresses no row is
    answered 500 "Failed to update medication" with the database as it
    was. *)
Theorem updateMedication_keeps_levels :
  forall user id data db,
    map (fun s => (s_id s, s_currentStock s))
        (pharmacyStock (snd (updateMedication user id data db)))
      = map (fun s => (s_id s, s_currentStock s)) (pharmacyStock db)
    /\
    (find (byStockId id) (pharmacyStock db) = None ->
     updateMedication user id data db
       = (ErrorJson 500 (Message "Failed to update medication"), db)).
Proof.
  intros user id data db. split.
  - destruct (updateMedication_stock user id data db) as [->|(f & Hf & Hup)];
      [reflexivity|].
    apply (update_first_map _ _ _ _ _ Hup).
    intros x. destruct (Hf x) as [-> ->]. reflexivity.
  - intros Hnone.
    unfold updateMedication, validated, throw, pharmacyStock_rename,
      pharmacyStock_update.
    destruct (invalidDate _); [reflexivity|].
    destruct (nameTaken _ _ _); [reflexivity|].
    rewrite Hnone. reflexivity.
Qed.

Lemma updateMedication_keeps_levels_witness :
  map (fun s => (s_id s, s_currentStock s))
      (pharmacyStock
         (snd (updateMedication (Some pharmacist) "med-B"
                 (mkMedicationUpdate (Some "B forte") (Some 1) None (Some (5#1)) None)
                 db_clinic)))
    = [("med-A", 10); ("med-B", 3); ("med-C", 0)] /\
  updateMedication (Some pharmacist) "med-Z"
      (mkMedicationUpdate None (Some 1) None None None) db_clinic
    = (ErrorJson 500 (Message "Failed to update medication"), db_clinic).
Proof.
  split.
  - exact (proj1 (updateMedication_keeps_levels (Some pharmacist) "med-B"
                    (mkMedicationUpdate (Some "B forte") (Some 1) None (Some (5#1)) None)
                    db_clinic)).
  - exact (proj2 (updateMedication_keeps_levels (Some pharmacist) "med-Z"
                    (mkMedicationUpdate None (Some 1) None None None) db_clinic)
                 eq_refl).
Defined.

(** ** The pharmacy routes *)

Lemma requireRole_snd {A} (P : DB -> Prop) roles user
  (next : DB -> Response A * DB) db :
  P db -> P (snd (next db)) -> P (snd (requireRole roles user next db)).
Proof.
  intros H Hn. unfold requireRole.
  destruct user as [u|]; [|exact H].
  destruct (existsb _ roles); [exact Hn | exact H].
Qed.

Lemma validate_snd {B A} (P : DB -> Prop) (schema : B -> bool)
  (controller : B -> DB -> Response A * DB) body db :
  P db -> (schema body = true -> P (snd (controller body db))) ->
  P (snd (validate schema controller body db)).
Proof.
  intros H Hc. unfold validate.
  destruct (schema body); [apply Hc; reflexivity | exact H].
Qed.

Lemma stock_nonneg_createMedication user body db :
  0 <= numberOrZ (cm_currentStock body) 0 ->
  stock_nonneg db -> stock_nonneg (snd (createMedication user body db)).
Proof.
  intros Hcur H. unfold createMedication.
  destruct (invalidDate _); [exact H|].
  rewrite validated_false, pharmacyStock_create_eq.
  destruct (existsb _ (pharmacyStock db)); simpl; [exact H|].
  assert (H1 : stock_nonneg
                 (mkDB (users db) (patients db) (visits db) (prescriptions db)
                    (pharmacyStock db ++ [newMedication body (uuid (uuidSeed db))])
                    (transactions db) (expenses db) (auditLogs db)
                    (S (uuidSeed db)))).
  { unfold stock_nonneg. simpl. apply Forall_app. split; [exact H|].
    constructor; [exact Hcur | constructor]. }
  destruct user as [u|]; [|exact H1].
  apply stock_nonneg_createAuditLog. exact H1.
Qed.

Lemma stock_nonneg_updateMedication user id data db :
  stock_nonneg db -> stock_nonneg (snd (updateMedication user id data db)).
Proof.
  intros H. unfold stock_nonneg in *.
  destruct (updateMedication_stock user id data db) as [->|(f & Hf & Hup)];
    [exact H|].
  eapply update_first_Forall; [exact H | | exact Hup].
  intros x Hx. simpl. destruct (Hf x) as [_ ->]. exact Hx.
Qed.

(** X11. Behind their routes -- the role check and the schema in front of
    the controller -- the three writing pharmacy endpoints keep every stock
    level non-negative: POST /pharmacy (the schema refuses a negative
    [currentStock]), PUT /pharmacy/:id (no level is written) and
    POST /pharmacy/:id/stock (the controller's own guard), whoever calls and
    whatever the outcome.  The schema check is what protects the first:
    [createMedication] itself stores a negative level as it is given. *)
Theorem pharmacy_routes_keep_stock_nonneg :
  forall db,
    stock_nonneg db ->
    (forall user body, stock_nonneg (snd (postMedication user body db))) /\
    (forall user id data, stock_nonneg (snd (putMedication user id data db))) /\
    (forall user now id body, stock_nonneg (snd (postStock user now id body db))) /\
    (forall user name cost price level,
       level < 0 ->
       existsb (byName name) (pharmacyStock db) = false ->
       ~ stock_nonneg
           (snd (createMedication user
                   (mkCreateMedicationBody name None cost price None (Some level))
                   db))).
Proof.
  intros db H. repeat split.
  - intros user body. unfold postMedication.
    apply requireRole_snd; [exact H|].
    apply validate_snd; [exact H|]. intros Hs.
    apply stock_nonneg_createMedication; [|exact H].
    unfold createMedicationSchema in Hs.
    rewrite !andb_true_iff in Hs. destruct Hs as ((((_ & Hcur) & _) & _) & _).
    destruct (cm_currentStock body) as [v|]; [|discriminate Hcur].
    apply Z.leb_le in Hcur. rewrite numberOrZ_zero. exact Hcur.
  - intros user id data. unfold putMedication.
    apply requireRole_snd; [exact H|].
    apply validate_snd; [exact H|]. intros _.
    apply stock_nonneg_updateMedication. exact H.
  - intros user now id body. unfold postStock.
    apply requireRole_snd; [exact H|].
    apply validate_snd; [exact H|]. intros _.
    apply stock_nonneg_adjustStock. exact H.
  - intros user name cost price level Hneg Hname Hnn.
    assert (Hin : In (newMedication
                        (mkCreateMedicationBody name None cost price None (Some level))
                        (uuid (uuidSeed db)))
                     (pharmacyStock
                        (snd (createMedication user
                                (mkCreateMedicationBody name None cost price None
                                   (Some level)) db)))).
    { unfold createMedication.
      change (invalidDate
                (truthyDate
                   (cm_expiryDate
                      (mkCreateMedicationBody name None cost price None
                         (Some level))))) with false.
      rewrite validated_false, pharmacyStock_create_eq. simpl.
      rewrite Hname. simpl.
      destruct user as [u|]; [rewrite createAuditLog_pharmacyStock|]; simpl;
        apply in_or_app; right; left; reflexivity. }
    unfold stock_nonneg in Hnn. rewrite Forall_forall in Hnn.
    specialize (Hnn _ Hin). unfold newMedication, numberOrZ in Hnn.
    simpl in Hnn. destruct (Z.eqb_spec level 0); lia.
Qed.

Lemma pharmacy_routes_keep_stock_nonneg_witness :
  stock_nonneg
    (snd (postMedication (Some pharmacist)
            (mkCreateMedicationBody "D" (Some 0) (Some (1#2)) (Some (2#1)) None
               (Some (-5))) db_clinic)) /\
  stock_nonneg
    (snd (postStock (Some pharmacist) 1000 "med-B"
            (mkAdjustStockBody 4 "subtract" None None) db_clinic)) /\
  ~ stock_nonneg
      (snd (createMedication (Some pharmacist)
              (mkCreateMedicationBody "D" None (Some (1#2)) (Some (2#1)) None
                 (Some (-5))) db_clinic)).
Proof.
  assert (H : stock_nonneg db_clinic).
  { unfold stock_nonneg. simpl. repeat constructor; simpl; lia. }
  destruct (pharmacy_routes_keep_stock_nonneg db_clinic H) as (H1 & _ & H3 & H4).
  split; [apply H1|]. split; [apply H3|].
  apply H4; [lia | reflexivity].
Defined.

(** ** The low-stock queries *)

Section OrderBy.

Variables (A : Type) (le : A -> A -> bool).

Hypothesis le_total : forall a b, le a b = true \/ le b a = true.

Lemma insertBy_Permutation x : forall l, Permutation (insertBy le x l) (x :: l).
Proof.
  induction l as [|y rest IH]; simpl; [apply Permutation_refl|].
  destruct (le x y); [apply Permutation_refl|].
  apply Permutation_trans with (y :: x :: rest).
  - apply perm_skip. exact IH.
  - apply perm_swap.
Qed.

Lemma orderBy_Permutation : forall l, Permutation (orderBy le l) l.
Proof.
  induction l as [|x rest IH]; simpl; [apply perm_nil|].
  apply Permutation_trans with (x :: orderBy le rest).
  - apply insertBy_Permutation.
  - apply perm_skip. exact IH.
Qed.

Lemma insertBy_HdRel a x l :
  HdRel (fun u v => le u v = true) a l -> le a x = true ->
  HdRel (fun u v => le u v = true) a (insertBy le x l).
Proof.
  intros H Hax. destruct l as [|y rest]; simpl.
  - constructor. exact Hax.
  - destruct (le x y); constructor; [exact Hax|].
    inversion H; assumption.
Qed.

Lemma insertBy_Sorted x : forall l,
  Sorted (fun u v => le u v = true) l ->
  Sorted (fun u v => le u v = true) (insertBy le x l).
Proof.
  induction l as [|y rest IH]; simpl; intros H.
  - constructor; constructor.
  - destruct (le x y) eqn:E.
    + constructor; [exact H|]. constructor. exact E.
    + inversion H; subst. constructor; [apply IH; assumption|].
      apply insertBy_HdRel; [assumption|].
      destruct (le_total x y) as [Hxy|Hyx]; [congruence | exact Hyx].
Qed.

Lemma orderBy_Sorted : forall l, Sorted (fun u v => le u v = true) (orderBy le l).
Proof.
  induction l as [|x rest IH]; simpl; [constructor|].
  apply insertBy_Sorted. exact IH.
Qed.

Lemma orderBy_In l x : In x (orderBy le l) <-> In x l.
Proof.
  split; apply Permutation_in;
    [apply orderBy_Permutation | apply Permutation_sym, orderBy_Permutation].
Qed.

End OrderBy.

Lemma levels_total (a b : PharmacyStock) :
  (s_currentStock a <=? s_currentStock b) = true \/
  (s_currentStock b <=? s_currentStock a) = true.
Proof.
  destruct (Z.leb_spec (s_currentStock a) (s_currentStock b)); [left; reflexivity|].
  right. apply Z.leb_le. lia.
Qed.

Lemma names_total (a b : PharmacyStock) :
  String.leb (s_medicationName a) (s_medicationName b) = true \/
  String.leb (s_medicationName b) (s_medicationName a) = true.
Proof. apply String.leb_total. Qed.

(** X12. [getLowStockAlerts] answers 200 with exactly the catalogue rows
    whose level is at or below their minimum -- each as often as it is in
    the table, none else, out-of-stock rows included -- in ascending order
    of level, and changes nothing. *)
Theorem getLowStockAlerts_sorted_complete :
  forall db,
    exists rows,
      getLowStockAlerts db = (Json 200 rows, db) /\
      Permutation rows
        (filter (fun s => s_currentStock s <=? s_minimumStock s) (pharmacyStock db)) /\
      (forall s, In s rows <->
                 In s (pharmacyStock db) /\ s_currentStock s <= s_minimumStock s) /\
      StronglySorted (fun a b => s_currentStock a <= s_currentStock b) rows.
Proof.
  intros db. eexists. split; [reflexivity|]. split; [|split].
  - apply orderBy_Permutation.
  - intros s. rewrite orderBy_In, filter_In, Z.leb_le. reflexivity.
  - apply Sorted_StronglySorted.
    + intros a b c Hab Hbc. lia.
    + eapply Sorted_ind with
        (P := fun l => Sorted (fun a b => s_currentStock a <= s_currentStock b) l);
        [constructor | | apply (orderBy_Sorted _ _ levels_total)].
      intros a l _ IH Hd. constructor; [exact IH|].
      destruct Hd as [|b l' Hab]; constructor. apply Z.leb_le. exact Hab.
Qed.

(** X13. The [status=low_stock] listing of [getAllMedications] and the
    alerts of [getLowStockAlerts] differ: the listing holds the alert rows
    whose level is positive, in ascending order of name, so a medication
    that is at or below its minimum because it is out of stock is in the
    alerts and not in the listing; when no level is negative, the rows the
    listing leaves out are exactly the alert rows at level 0. *)
Theorem low_stock_listing_omits_out_of_stock :
  forall db,
    exists listing alerts,
      getAllMedications_low_stock db = (Json 200 listing, db) /\
      getLowStockAlerts db = (Json 200 alerts, db) /\
      (forall s, In s listing <-> In s alerts /\ 0 < s_currentStock s) /\
      Sorted (fun a b => String.leb (s_medicationName a) (s_medicationName b) = true)
             listing /\
      (stock_nonneg db ->
       forall s, In s alerts -> (~ In s listing <-> s_currentStock s = 0)).
Proof.
  intros db. eexists. eexists.
  split; [reflexivity|]. split; [reflexivity|].
  assert (Hiff : forall s,
    In s (orderBy (fun a b => String.leb (s_medicationName a) (s_medicationName b))
            (filter (fun s => (s_currentStock s <=? s_minimumStock s)
                              && (0 <? s_currentStock s)) (pharmacyStock db))) <->
    In s (orderBy (fun a b => s_currentStock a <=? s_currentStock b)
            (filter (fun s => s_currentStock s <=? s_minimumStock s)
                    (pharmacyStock db))) /\ 0 < s_currentStock s).
  { intros s. rewrite !orderBy_In, !filter_In, andb_true_iff, Z.ltb_lt. tauto. }
  split; [exact Hiff|]. split.
  - apply (orderBy_Sorted _ _ names_total).
  - intros Hnn s Hs. rewrite Hiff.
    assert (Hge : 0 <= s_currentStock s).
    { unfold stock_nonneg in Hnn. rewrite Forall_forall in Hnn. apply Hnn.
      rewrite orderBy_In, filter_In in Hs. tauto. }
    split; [intros Hno | intros Hz [_ Hpos]]; [|lia].
    destruct (Z.eq_dec (s_currentStock s) 0) as [|Hne]; [assumption|].
    exfalso. apply Hno. split; [exact Hs | lia].
Qed.

Lemma low_stock_listing_omits_out_of_stock_witness :
  exists listing alerts,
    getAllMedications_low_stock db_clinic = (Json 200 listing, db_clinic) /\
    getLowStockAlerts db_clinic = (Json 200 alerts, db_clinic) /\
    map s_medicationName alerts = ["C"; "B"; "A"] /\
    map s_medicationName listing = ["A"; "B"] /\
    forall s, In s alerts -> (~ In s listing <-> s_currentStock s = 0).
Proof.
  destruct (low_stock_listing_omits_out_of_stock db_clinic)
    as (listing & alerts & H1 & H2 & _ & _ & H).
  exists listing, alerts.
  split; [exact H1|]. split; [exact H2|].
  vm_compute in H1. vm_compute in H2.
  inversion H1; subst listing. inversion H2; subst alerts.
  split; [reflexivity|]. split; [reflexivity|].
  apply H. unfold stock_nonneg. simpl. repeat constructor; simpl; lia.
Defined.

Lemma find_In_row {A} (hit : A -> bool) l x : find hit l = Some x -> In x l.
Proof. intros H. apply find_some in H. tauto. Qed.

Lemma find_byStockId_distinct : forall l s,
  distinct (map s_id l) = true -> In s l ->
  find (byStockId (s_id s)) l = Some s.
Proof.
  induction l as [|x rest IH]; intros s Hd Hin; [destruct Hin|].
  simpl in Hd. apply andb_prop in Hd. destruct Hd as [Hx Hd].
  simpl. unfold byStockId at 1.
  destruct Hin as [->|Hin]; [rewrite String.eqb_refl; reflexivity|].
  destruct (String.eqb_spec (s_id x) (s_id s)) as [E|_].
  - exfalso. apply negb_true_iff in Hx.
    assert (Hm : mem (s_id x) (map s_id rest) = true).
    { apply mem_In. rewrite E. apply in_map. exact Hin. }
    congruence.
  - apply IH; assumption.
Qed.

(** X14. After an accepted stock adjustment the alerts follow the new
    level: with distinct keys in the catalogue, the adjusted medication is
    in the answer of [getLowStockAlerts] exactly when its new level is at or
    below its minimum stock, and the row listed for it is the row the
    adjustment returned. *)
Theorem adjustStock_alert_iff :
  forall user now id body db status updated db',
    distinct (map s_id (pharmacyStock db)) = true ->
    adjustStock user now id body db = (Json status updated, db') ->
    exists alerts,
      getLowStockAlerts db' = (Json 200 alerts, db') /\
      (In updated alerts <-> s_currentStock updated <= s_minimumStock updated) /\
      (forall s, In s alerts -> s_id s = id -> s = updated).
Proof.
  intros user now id body db status updated db' Hd H.
  apply adjustStock_Json in H.
  destruct H as (m & l & es & ts & _ & Hm & _ & Hl & -> & Hs & _).
  assert (Hfind : find (byStockId id) (pharmacyStock db')
                  = Some (stockUpdateData m body m)).
  { rewrite Hs. apply (update_first_find _ _ _ _ _ Hm Hl).
    rewrite byStockId_stockUpdateData.
    apply find_some in Hm. destruct Hm as [_ Hhit]. exact Hhit. }
  assert (Hd' : distinct (map s_id (pharmacyStock db')) = true).
  { rewrite Hs, (update_first_map _ _ s_id _ _ Hl); [exact Hd | reflexivity]. }
  eexists. split; [reflexivity|]. split.
  - rewrite orderBy_In, filter_In, Z.leb_le.
    split; [tauto|]. intros Hle. split; [|exact Hle].
    apply (find_In_row _ _ _ Hfind).
  - intros s Hin Hid. rewrite orderBy_In, filter_In in Hin.
    destruct Hin as [Hin _].
    pose proof (find_byStockId_distinct _ _ Hd' Hin) as Hf.
    rewrite Hid, Hfind in Hf. congruence.
Qed.

Lemma adjustStock_alert_iff_witness :
  exists updated db' alerts,
    adjustStock (Some pharmacist) 1000 "med-B"
        (mkAdjustStockBody 8 "add" None None) db_clinic
      = (Json 200 updated, db') /\
    getLowStockAlerts db' = (Json 200 alerts, db') /\
    (In updated alerts <-> s_currentStock updated <= s_minimumStock updated) /\
    (forall s, In s alerts -> s_id s = "med-B" -> s = updated).
Proof.
  destruct (adjustStock (Some pharmacist) 1000 "med-B"
              (mkAdjustStockBody 8 "add" None None) db_clinic)
    as [r db'] eqn:E.
  assert (Hr : exists updated, r = Json 200 updated).
  { vm_compute in E. inversion E. eexists. reflexivity. }
  destruct Hr as (updated & ->).
  destruct (adjustStock_alert_iff (Some pharmacist) 1000 "med-B"
              (mkAdjustStockBody 8 "add" None None) db_clinic 200%nat updated db'
              eq_refl E) as (alerts & H).
  exists updated, db', alerts. split; [reflexivity|]. exact H.
Defined.

(** ** createPrescription: the loop and what it leaves *)

(** An accepted batch went through the loop. *)
Lemma createPrescription_loop user now body db status ps db' :
  createPrescription user now body db = (Json status ps, db') ->
  exists fv row db0 db1,
    ensureVisit user now body db = (Done fv, db0) /\
    find (byVisitId fv) (visits db0) = Some row /\
    fulfillItems user now body (paymentMethodOf (paymentMethod body)) fv
      (v_patientId row) (medications body) db0 = (Done ps, db1) /\
    users db' = users db1 /\ patients db' = patients db1 /\
    visits db' = visits db1 /\ prescriptions db' = prescriptions db1 /\
    pharmacyStock db' = pharmacyStock db1 /\
    transactions db' = transactions db1 /\ expenses db' = expenses db1.
Proof.
  intros H. apply createPrescription_Json in H.
  destruct H as (_ & fv & db1 & Htx & Hu & Hp & Hv & Hpr & Hs & Ht & He).
  unfold createPrescriptionTx in Htx.
  apply bind_Done in Htx. destruct Htx as (fv0 & db0 & Hens & Htx).
  apply bind_Done in Htx. destruct Htx as (visitData & db2 & Hfind & Htx).
  unfold visit_findUnique in Hfind. inversion Hfind; subst db2.
  destruct (find (byVisitId fv0) (visits db0)) as [row|] eqn:Hrow;
    subst visitData; [|discriminate Htx].
  apply bind_Done in Htx. destruct Htx as (created & db3 & Hloop & Hret).
  unfold ret in Hret. inversion Hret; subst.
  exists fv, row, db0, db1. repeat split; assumption.
Qed.

(** The rows of the loop are the [data] of its create calls. *)
Lemma fulfillItems_shape user now body method fv pid meds : forall db ps db',
  fulfillItems user now body method fv pid meds db = (Done ps, db') ->
  Forall2 (fun med p => exists amount tid id,
             p = newPrescription now body fv med amount tid id) meds ps.
Proof.
  induction meds as [|med rest IH]; intros db ps db' H.
  - simpl in H. unfold ret in H. inversion H; subst. constructor.
  - apply fulfillItems_cons_Done in H.
    destruct H as (p & db1 & created & Hp & Hrest & ->).
    constructor; [|exact (IH _ _ _ Hrest)].
    apply fulfillItem_Done in Hp.
    destruct Hp as (s & stock' & txs' & _ & _ & _ & _ & -> & _).
    eexists. eexists. eexists. reflexivity.
Qed.

Lemma shape_quantities now body fv meds ps :
  Forall2 (fun med p => exists amount tid id,
             p = newPrescription now body fv med amount tid id) meds ps ->
  map p_quantity ps = map quantity meds.
Proof.
  induction 1 as [|med p meds ps (a & t & i & ->) _ IH]; simpl;
    [reflexivity | rewrite IH; reflexivity].
Qed.

Lemma shape_completed now body fv meds ps :
  Forall2 (fun med p => exists amount tid id,
             p = newPrescription now body fv med amount tid id) meds ps ->
  Forall (fun p => p_status p = "Completed" /\ p_visitId p = fv) ps.
Proof.
  induction 1 as [|med p meds ps (a & t & i & ->) _ IH]; constructor;
    [split; reflexivity | exact IH].
Qed.

Lemma update_first_units hit (f : PharmacyStock -> PharmacyStock) : forall l l' x,
  find hit l = Some x -> update_first hit f l = Some l' ->
  totalUnits l' = totalUnits l - s_currentStock x + s_currentStock (f x).
Proof.
  unfold totalUnits.
  induction l as [|y rest IH]; intros l' x Hf Hu; [discriminate Hf|].
  simpl in Hf, Hu. destruct (hit y).
  - injection Hf as <-. injection Hu as <-. simpl. lia.
  - destruct (update_first hit f rest) as [r|] eqn:Hr; [|discriminate Hu].
    simpl in Hu. injection Hu as <-. simpl.
    rewrite (IH r x Hf eq_refl). lia.
Qed.

Lemma batch_served_units : forall stock meds stock',
  batch_served stock meds stock' ->
  distinct (map s_id stock) = true ->
  totalUnits stock' = totalUnits stock - sumZ (map quantity meds) /\
  map s_id stock' = map s_id stock.
Proof.
  induction 1 as [stock | stock med rest s stock1 stock2 Hs Hq Hup _ IH];
    intros Hd.
  - simpl. split; [lia | reflexivity].
  - assert (Hids : map s_id stock1 = map s_id stock).
    { apply (update_first_map _ _ _ _ _ Hup). reflexivity. }
    destruct IH as [IH1 IH2]; [rewrite Hids; exact Hd|].
    split; [|rewrite IH2; exact Hids].
    rewrite IH1.
    pose proof (find_byStockId_distinct _ _ Hd (find_In_row _ _ _ Hs)) as Hrow.
    rewrite (update_first_units _ _ _ _ _ Hrow Hup). simpl. lia.
Qed.

Lemma batch_served_catalogue : forall stock meds stock',
  batch_served stock meds stock' ->
  map (setCurrentStock 0) stock' = map (setCurrentStock 0) stock.
Proof.
  induction 1 as [stock | stock med rest s stock1 stock2 _ _ Hup _ IH];
    [reflexivity|].
  rewrite IH. apply (update_first_map _ _ _ _ _ Hup). reflexivity.
Qed.

(** X15. An accepted batch conserves units: with distinct keys in the
    catalogue, the units on the shelves after the call plus the quantities
    on the prescriptions it returned are the units on the shelves before,
    and the returned quantities are those requested, line by line. *)
Theorem createPrescription_conserves_units :
  forall user now body db status ps db',
    distinct (map s_id (pharmacyStock db)) = true ->
    createPrescription user now body db = (Json status ps, db') ->
    totalUnits (pharmacyStock db') + sumZ (map p_quantity ps)
      = totalUnits (pharmacyStock db) /\
    map p_quantity ps = map quantity (medications body) /\
    map p_medication ps = map medication (medications body).
Proof.
  intros user now body db status ps db' Hd H.
  apply createPrescription_loop in H.
  destruct H as (fv & row & db0 & db1 & Hens & _ & Hloop & _ & _ & _ & _ & Hs & _).
  apply ensureVisit_Done in Hens. destruct Hens as (_ & Hs0 & _).
  pose proof (fulfillItems_served _ _ _ _ _ _ _ _ _ _ Hloop) as Hserved.
  pose proof (fulfillItems_shape _ _ _ _ _ _ _ _ _ _ Hloop) as Hshape.
  rewrite Hs0 in Hserved.
  destruct (batch_served_units _ _ _ Hserved Hd) as [Hunits _].
  rewrite Hs, Hunits, (shape_quantities _ _ _ _ _ Hshape).
  split; [lia|]. split; [reflexivity|].
  clear -Hshape. induction Hshape as [|med p meds ps (a & t & i & ->) _ IH];
    simpl; [reflexivity | rewrite IH; reflexivity].
Qed.

Lemma createPrescription_conserves_units_witness :
  exists ps db',
    createPrescription (Some admin) 1000 batch_on_visit db_clinic
      = (Json 201 ps, db') /\
    totalUnits (pharmacyStock db') + sumZ (map p_quantity ps) = 13 /\
    map p_quantity ps = [4; 3] /\
    map p_medication ps = ["A"; "B"].
Proof.
  destruct (createPrescription (Some admin) 1000 batch_on_visit db_clinic)
    as [r db'] eqn:E.
  assert (Hr : exists ps, r = Json 201 ps).
  { vm_compute in E. inversion E. eexists. reflexivity. }
  destruct Hr as (ps & ->).
  exists ps, db'. split; [reflexivity|].
  exact (createPrescription_conserves_units (Some admin) 1000 batch_on_visit
           db_clinic 201%nat ps db' eq_refl E).
Defined.

(** X16. Dispensing never edits the catalogue: whatever the request and
    whatever the outcome, after [createPrescription] and after
    [fulfillPrescription] the medication rows are the same rows in the same
    order with the same key, name, minimum stock, cost price, selling price
    and expiry date; only levels move. *)
Theorem dispensing_keeps_catalogue :
  forall db,
    (forall user now body,
       catalogue (snd (createPrescription user now body db)) = catalogue db) /\
    (forall user now id method,
       catalogue (snd (fulfillPrescription user now id method db)) = catalogue db).
Proof.
  intros db. unfold catalogue. split.
  - intros user now body.
    destruct (createPrescription user now body db) as [[status ps|status e] db']
      eqn:H; simpl.
    + apply createPrescription_loop in H.
      destruct H as (fv & row & db0 & db1 & Hens & _ & Hloop & _ & _ & _ & _ & Hs & _).
      apply ensureVisit_Done in Hens. destruct Hens as (_ & Hs0 & _).
      pose proof (fulfillItems_served _ _ _ _ _ _ _ _ _ _ Hloop) as Hserved.
      rewrite Hs, <- Hs0. exact (batch_served_catalogue _ _ _ Hserved).
    + unfold createPrescription in H.
      destruct (transaction _ db) as [[[fv result]|e0] db1] eqn:Htx;
        [discriminate H|].
      inversion H; subst. apply transaction_Thrown in Htx.
      destruct Htx as [Hsame _]. unfold same_tables in Hsame.
      destruct Hsame as (_ & _ & _ & _ & <- & _). reflexivity.
  - intros user now id method.
    destruct (fulfillPrescription user now id method db) as [[status r|status e] db']
      eqn:H; simpl.
    + apply fulfillPrescription_Json in H.
      destruct H as (u & pr & m & stock' & l & tx & _ & _ & _ & _ & _ & _ & Hup & _
                     & _ & _ & _ & _ & _ & _ & _ & _ & Hs & _).
      rewrite Hs. apply (update_first_map _ _ _ _ _ Hup). reflexivity.
    + unfold fulfillPrescription in H.
      destruct user as [u|]; [|inversion H; reflexivity].
      destruct (find _ (prescriptions db)) as [pr|]; [|inversion H; reflexivity].
      destruct (String.eqb (p_paymentStatus pr) "Paid"); [inversion H; reflexivity|].
      destruct (String.eqb (p_status pr) "Cancelled"); [inversion H; reflexivity|].
      destruct (find _ (pharmacyStock db)) as [m|]; [|inversion H; reflexivity].
      destruct (s_currentStock m <? p_quantity pr); [inversion H; reflexivity|].
      destruct (transaction _ db) as [[res|e0] db1] eqn:Htx; [discriminate H|].
      inversion H; subst. apply transaction_Thrown in Htx.
      destruct Htx as [Hsame _]. unfold same_tables in Hsame.
      destruct Hsame as (_ & _ & _ & _ & <- & _). reflexivity.
Qed.

(** One line on a database whose transaction keys are fresh: the two rows
    it leaves. *)
Lemma fulfillItem_rows user now body method fv pid med db p db' :
  Forall (fun t => below (uuidSeed db) (t_id t) = true) (transactions db) ->
  fulfillItem user now body method fv pid med db = (Done p, db') ->
  exists t,
    transactions db' = transactions db ++ [t] /\
    line_attribution user now body method fv pid med p t /\
    Forall (fun t => below (uuidSeed db') (t_id t) = true) (transactions db').
Proof.
  intros Hfresh H. apply fulfillItem_Done in H.
  destruct H as (s & stock' & txs' & Hs & _ & Hstock & Htxs & -> & -> & _).
  rewrite update_first_app_fresh in Htxs.
  - inversion Htxs; subst. eexists. split; [reflexivity|]. split.
    + unfold line_attribution. simpl. repeat split.
    + simpl. apply Forall_app. split.
      * eapply Forall_impl; [|exact Hfresh]. intros t Ht.
        apply (below_mono _ _ _ Ht). lia.
      * constructor; [|constructor]. simpl. unfold below.
        rewrite uuid_index_uuid. apply Nat.ltb_lt. lia.
  - intros x Hx. rewrite Forall_forall in Hfresh.
    unfold byTransactionId. apply (below_not_generated (uuidSeed db)); [|lia].
    apply Hfresh. exact Hx.
  - unfold byTransactionId. simpl. apply String.eqb_refl.
Qed.

Lemma fulfillItems_attributed user now body method fv pid meds :
  forall db ps db',
    Forall (fun t => below (uuidSeed db) (t_id t) = true) (transactions db) ->
    fulfillItems user now body method fv pid meds db = (Done ps, db') ->
    exists txs,
      transactions db' = transactions db ++ txs /\
      Forall3 (line_attribution user now body method fv pid) meds ps txs.
Proof.
  induction meds as [|med rest IH]; intros db ps db' Hfresh H.
  - simpl in H. unfold ret in H. inversion H; subst.
    exists []. rewrite app_nil_r. split; [reflexivity | constructor].
  - apply fulfillItems_cons_Done in H.
    destruct H as (p & db1 & created & Hp & Hrest & ->).
    destruct (fulfillItem_rows _ _ _ _ _ _ _ _ _ _ Hfresh Hp)
      as (t & Htx & Hline & Hfresh1).
    destruct (IH db1 created db' Hfresh1 Hrest) as (txs & Htxs & Hall).
    exists (t :: txs). rewrite Htxs, Htx, <- app_assoc. simpl.
    split; [reflexivity|]. constructor; assumption.
Qed.

(** X17. How an accepted batch is attributed.  Line by line, in request
    order, it appends one prescription and one SALE transaction: the
    prescription carries the request line, the visit and the prescriber of
    the body, is Completed and paid at the time of the call; the transaction
    carries the caller, the payment method (none given: "Cash") and the
    patient of the visit row; each row refers to the other.  When the body
    names a visit, no visit is added and the patient is that visit's,
    whatever [patientId] the body carries. *)
Theorem createPrescription_attribution :
  forall user now body db status ps db',
    fresh_transaction_ids db = true ->
    createPrescription user now body db = (Json status ps, db') ->
    exists fv row txs,
      find (byVisitId fv) (visits db') = Some row /\
      prescriptions db' = prescriptions db ++ ps /\
      transactions db' = transactions db ++ txs /\
      Forall3 (line_attribution user now body
                 (match truthy (paymentMethod body) with
                  | Some m => m
                  | None => "Cash"
                  end) fv (v_patientId row))
              (medications body) ps txs /\
      (forall v, truthy (visitId body) = Some v ->
         fv = v /\ visits db' = visits db /\
         find (byVisitId v) (visits db) = Some row).
Proof.
  intros user now body db status ps db' Hfresh H.
  apply fresh_transaction_ids_Forall in Hfresh.
  apply createPrescription_loop in H.
  destruct H as (fv & row & db0 & db1 & Hens & Hrow & Hloop & _ & _ & Hv & Hp & _
                 & Ht & _).
  pose proof (ensureVisit_Done _ _ _ _ _ _ Hens) as (Ht0 & _ & Hp0 & Hseed).
  pose proof (fulfillItems_Done _ _ _ _ _ _ _ _ _ _ Hloop)
    as (_ & _ & Hv1 & _ & _ & Hp1 & _).
  assert (Hfresh0 : Forall (fun t => below (uuidSeed db0) (t_id t) = true)
                           (transactions db0)).
  { rewrite Ht0. eapply Forall_impl; [|exact Hfresh].
    intros t Hb. exact (below_mono _ _ _ Hb Hseed). }
  destruct (fulfillItems_attributed _ _ _ _ _ _ _ _ _ _ Hfresh0 Hloop)
    as (txs & Htxs & Hall).
  exists fv, row, txs.
  split; [rewrite Hv, Hv1; exact Hrow|].
  split; [rewrite Hp, Hp1, Hp0; reflexivity|].
  split; [rewrite Ht, Htxs, Ht0; reflexivity|].
  split; [exact Hall|].
  intros v Hvis. unfold ensureVisit in Hens. rewrite Hvis in Hens.
  unfold ret in Hens. inversion Hens; subst.
  split; [reflexivity|]. split; [rewrite Hv, Hv1; reflexivity | exact Hrow].
Qed.

Lemma createPrescription_attribution_witness :
  exists ps db' row txs,
    createPrescription (Some admin) 1000 batch_on_visit db_clinic
      = (Json 201 ps, db') /\
    find (byVisitId "visit-1") (visits db') = Some row /\
    v_patientId row = "pat-1" /\
    visits db' = visits db_clinic /\
    transactions db' = txs /\
    Forall3 (line_attribution (Some admin) 1000 batch_on_visit "Card"
               "visit-1" "pat-1")
            (medications batch_on_visit) ps txs.
Proof.
  destruct (createPrescription (Some admin) 1000 batch_on_visit db_clinic)
    as [r db'] eqn:E.
  assert (Hr : exists ps, r = Json 201 ps).
  { vm_compute in E. inversion E. eexists. reflexivity. }
  destruct Hr as (ps & ->).
  destruct (createPrescription_attribution (Some admin) 1000 batch_on_visit
              db_clinic 201%nat ps db' eq_refl E)
    as (fv & row & txs & Hrow & _ & Ht & Hall & Hvis).
  destruct (Hvis "visit-1" eq_refl) as (-> & Hv & Hrow0).
  assert (Hpat : v_patientId row = "pat-1").
  { vm_compute in Hrow0. inversion Hrow0. reflexivity. }
  exists ps, db', row, txs.
  split; [reflexivity|]. split; [exact Hrow|]. split; [exact Hpat|].
  split; [exact Hv|]. split; [exact Ht|].
  rewrite <- Hpat. exact Hall.
Defined.

Lemma countStatus_app status l l' :
  countStatus status (l ++ l') = (countStatus status l + countStatus status l')%nat.
Proof. unfold countStatus. rewrite filter_app, length_app. reflexivity. Qed.

Lemma countStatus_all status l :
  Forall (fun p => p_status p = status) l -> countStatus status l = length l.
Proof.
  unfold countStatus. induction 1 as [|p l Hp _ IH]; simpl; [reflexivity|].
  rewrite Hp, String.eqb_refl. simpl. rewrite IH. reflexivity.
Qed.

Lemma countStatus_none status other l :
  other <> status ->
  Forall (fun p => p_status p = other) l -> countStatus status l = 0%nat.
Proof.
  unfold countStatus. intros Hne. induction 1 as [|p l Hp _ IH]; simpl; [reflexivity|].
  rewrite Hp. destruct (String.eqb_spec other status) as [|_]; [contradiction|].
  exact IH.
Qed.

(** X18. The counts of [getPrescriptionStats] after [createPrescription]:
    an accepted batch of n lines raises [total] and [completed] by n and
    leaves [active] and [cancelled] as they were -- a batch never leaves an
    Active prescription behind -- and a refused batch leaves all four
    counts as they were. *)
Theorem prescriptionCounts_after_createPrescription :
  forall user now body db,
    let n := length (medications body) in
    let before := prescriptionCounts db in
    let after := prescriptionCounts (snd (createPrescription user now body db)) in
    match fst (createPrescription user now body db) with
    | Json _ ps =>
        length ps = n /\
        c_total after = (c_total before + n)%nat /\
        c_completed after = (c_completed before + n)%nat /\
        c_active after = c_active before /\
        c_cancelled after = c_cancelled before
    | ErrorJson _ _ => after = before
    end.
Proof.
  intros user now body db. simpl.
  destruct (createPrescription user now body db) as [[status ps|status e] db']
    eqn:H; simpl.
  - apply createPrescription_loop in H.
    destruct H as (fv & row & db0 & db1 & Hens & _ & Hloop & _ & _ & _ & Hp & _).
    apply ensureVisit_Done in Hens. destruct Hens as (_ & _ & Hp0 & _).
    pose proof (fulfillItems_Done _ _ _ _ _ _ _ _ _ _ Hloop)
      as (_ & _ & _ & _ & _ & Hp1 & Hlen & _).
    pose proof (shape_completed _ _ _ _ _
                  (fulfillItems_shape _ _ _ _ _ _ _ _ _ _ Hloop)) as Hst.
    assert (Hc : Forall (fun p => p_status p = "Completed") ps).
    { eapply Forall_impl; [|exact Hst]. intros p [Hp' _]. exact Hp'. }
    unfold prescriptionCounts. rewrite Hp, Hp1, Hp0. simpl.
    rewrite length_app, !countStatus_app, (countStatus_all _ _ Hc), Hlen.
    rewrite (countStatus_none "Active" "Completed" ps) by (discriminate || exact Hc).
    rewrite (countStatus_none "Cancelled" "Completed" ps) by (discriminate || exact Hc).
    repeat split; lia.
  - unfold createPrescription in H.
    destruct (transaction _ db) as [[[fv result]|e0] db1] eqn:Htx;
      [discriminate H|].
    inversion H; subst. apply transaction_Thrown in Htx.
    destruct Htx as [Hsame _]. unfold same_tables in Hsame.
    destruct Hsame as (_ & _ & _ & Hp & _).
    unfold prescriptionCounts. rewrite <- Hp. reflexivity.
Qed.

(** X19. [getPrescriptionsByVisit] after an accepted batch: all
    prescriptions of the batch are on one visit; the answer for that visit
    is the answer from before the call together with the prescriptions the
    batch returned, nothing lost and nothing else gained; the answer for
    every other visit is unchanged. *)
Theorem getPrescriptionsByVisit_after_createPrescription :
  forall user now body db status ps db',
    createPrescription user now body db = (Json status ps, db') ->
    exists fv,
      Forall (fun p => p_visitId p = fv) ps /\
      (exists row, find (byVisitId fv) (visits db') = Some row) /\
      (exists before after,
         getPrescriptionsByVisit fv db = (Json 200 before, db) /\
         getPrescriptionsByVisit fv db' = (Json 200 after, db') /\
         Permutation after (ps ++ before)) /\
      (forall v, v <> fv ->
         fst (getPrescriptionsByVisit v db') = fst (getPrescriptionsByVisit v db)).
Proof.
  intros user now body db status ps db' H.
  apply createPrescription_loop in H.
  destruct H as (fv & row & db0 & db1 & Hens & Hrow & Hloop & _ & _ & Hv & Hp & _).
  apply ensureVisit_Done in Hens. destruct Hens as (_ & _ & Hp0 & _).
  pose proof (fulfillItems_Done _ _ _ _ _ _ _ _ _ _ Hloop)
    as (_ & _ & Hv1 & _ & _ & Hp1 & _ & Hall).
  exists fv. split; [exact Hall|].
  split; [exists row; rewrite Hv, Hv1; exact Hrow|].
  assert (Hkeep : filter (fun p => String.eqb (p_visitId p) fv) ps = ps).
  { clear -Hall. induction Hall as [|p l Hp _ IH]; simpl; [reflexivity|].
    rewrite Hp, String.eqb_refl, IH. reflexivity. }
  split.
  - eexists. eexists. split; [reflexivity|]. split; [reflexivity|].
    rewrite Hp, Hp1, Hp0, filter_app, Hkeep, rev_app_distr.
    apply Permutation_app;
      [apply Permutation_sym, Permutation_rev | apply Permutation_refl].
  - intros v Hne. unfold getPrescriptionsByVisit. simpl.
    rewrite Hp, Hp1, Hp0, filter_app.
    assert (Hdrop : filter (fun p => String.eqb (p_visitId p) v) ps = []).
    { clear -Hall Hne. induction Hall as [|p l Hp _ IH]; simpl; [reflexivity|].
      rewrite Hp. destruct (String.eqb_spec fv v) as [E|_]; [congruence|].
      exact IH. }
    rewrite Hdrop, app_nil_r. reflexivity.
Qed.

Lemma getPrescriptionsByVisit_after_createPrescription_witness :
  exists ps db' before after,
    createPrescription (Some admin) 1000 batch_on_visit db_clinic
      = (Json 201 ps, db') /\
    Forall (fun p => p_visitId p = "visit-1") ps /\
    getPrescriptionsByVisit "visit-1" db_clinic = (Json 200 before, db_clinic) /\
    getPrescriptionsByVisit "visit-1" db' = (Json 200 after, db') /\
    Permutation after (ps ++ before) /\
    before = [pendingRow] /\ length after = 3%nat.
Proof.
  destruct (createPrescription (Some admin) 1000 batch_on_visit db_clinic)
    as [r db'] eqn:E.
  assert (Hr : exists ps, r = Json 201 ps /\ length ps = 2%nat /\
                          exists p rest, ps = p :: rest /\ p_visitId p = "visit-1").
  { vm_compute in E. inversion E. eexists. split; [reflexivity|].
    split; [reflexivity|]. eexists. eexists. split; reflexivity. }
  destruct Hr as (ps & -> & Hlen & p & rest & Hps & Hp).
  destruct (getPrescriptionsByVisit_after_createPrescription (Some admin) 1000
              batch_on_visit db_clinic 201%nat ps db' E)
    as (fv & Hall & _ & (before & after & Hb & Ha & Hperm) & _).
  assert (Hfv : fv = "visit-1").
  { rewrite Hps in Hall. inversion Hall; subst. congruence. }
  subst fv.
  assert (Hbefore : before = [pendingRow]).
  { vm_compute in Hb. inversion Hb. reflexivity. }
  exists ps, db', before, after.
  split; [reflexivity|]. split; [exact Hall|]. split; [exact Hb|].
  split; [exact Ha|]. split; [exact Hperm|]. split; [exact Hbefore|].
  rewrite (Permutation_length Hperm), length_app, Hlen, Hbefore. reflexivity.
Defined.

(** ** updatePrescription *)

(** What [updatePrescription] does to the database. *)
Lemma updatePrescription_cases user id data db :
  (find (byPrescriptionId id) (prescriptions db) = None /\
   updatePrescription user id data db
     = (ErrorJson 500 (Message "Failed to update prescription"), db))
  \/
  (exists pr l db',
     find (byPrescriptionId id) (prescriptions db) = Some pr /\
     update_first (byPrescriptionId id) (applyUpdate data) (prescriptions db)
       = Some l /\
     updatePrescription user id data db = (Json 200 (applyUpdate data pr), db') /\
     prescriptions db' = l /\
     users db' = users db /\ patients db' = patients db /\
     visits db' = visits db /\ pharmacyStock db' = pharmacyStock db /\
     transactions db' = transactions db /\ expenses db' = expenses db).
Proof.
  destruct (find (byPrescriptionId id) (prescriptions db)) as [pr|] eqn:Hpr.
  - right. destruct (prescription_update_ok id (applyUpdate data) db pr Hpr)
      as (l & Hl & Hup).
    exists pr, l. unfold updatePrescription. rewrite Hup.
    eexists. split; [reflexivity|]. split; [exact Hl|]. split; [reflexivity|].
    destruct user as [u|]; simpl; [|repeat split].
    pose proof (createAuditLog_tables (userId u) "UPDATE_PRESCRIPTION"
                  "Prescription" (Some (p_id pr)) (set_prescriptions l db)) as T.
    simpl in T. tauto.
  - left. split; [reflexivity|].
    unfold updatePrescription, prescription_update. rewrite Hpr. reflexivity.
Qed.

Lemma byPrescriptionId_applyUpdate id data p :
  byPrescriptionId id (applyUpdate data p) = byPrescriptionId id p.
Proof. reflexivity. Qed.

(** X20. For a body made of keys among status, instructions, quantity,
    totalAmount, paymentStatus, paidAt and transactionId,
    [updatePrescription] rewrites one prescription row and nothing else:
    whatever the outcome, stock levels, transactions, expenses and visits
    are as before -- cancelling a paid prescription neither returns its
    units to the shelf nor touches its sale -- no prescription is added or
    removed and every other prescription reads as before; an id that
    addresses no row is answered 500 with the database unchanged; and for a
    body of the route's schema (status, instructions) an id that addresses a
    row is answered 200 with the row as it is stored afterwards. *)
Theorem updatePrescription_touches_one_row :
  forall user id data db,
    (pharmacyStock (snd (updatePrescription user id data db)) = pharmacyStock db /\
     transactions (snd (updatePrescription user id data db)) = transactions db /\
     expenses (snd (updatePrescription user id data db)) = expenses db /\
     visits (snd (updatePrescription user id data db)) = visits db /\
     map p_id (prescriptions (snd (updatePrescription user id data db)))
       = map p_id (prescriptions db) /\
     forall other, other <> id ->
       find (byPrescriptionId other)
            (prescriptions (snd (updatePrescription user id data db)))
         = find (byPrescriptionId other) (prescriptions db))
    /\
    (find (byPrescriptionId id) (prescriptions db) = None ->
     updatePrescription user id data db
       = (ErrorJson 500 (Message "Failed to update prescription"), db))
    /\
    (forall pr,
       schema_keys_only data = true ->
       find (byPrescriptionId id) (prescriptions db) = Some pr ->
       exists db',
         updatePrescription user id data db = (Json 200 (applyUpdate data pr), db') /\
         find (byPrescriptionId id) (prescriptions db') = Some (applyUpdate data pr) /\
         payment_view (applyUpdate data pr) = payment_view pr).
Proof.
  intros user id data db.
  destruct (updatePrescription_cases user id data db)
    as [[Hnone Hup] | (pr & l & db' & Hpr & Hl & Hup & Hp & _ & _ & Hv & Hs & Ht & He)].
  - rewrite Hup. simpl. split; [repeat split|].
    split; [reflexivity|]. intros pr _ Hpr. congruence.
  - rewrite Hup. simpl. split; [|split].
    + split; [exact Hs|]. split; [exact Ht|]. split; [exact He|].
      split; [exact Hv|]. rewrite Hp. split.
      * apply (update_first_map _ _ _ _ _ Hl). reflexivity.
      * intros other Hne. apply (update_first_find_other _ _ _ _ _ Hl).
        intros x Hx. rewrite byPrescriptionId_applyUpdate.
        unfold byPrescriptionId in *. apply String.eqb_eq in Hx.
        assert (E : String.eqb (p_id x) other = false).
        { apply String.eqb_neq. congruence. }
        split; exact E.
    + intros Hnone. congruence.
    + intros pr0 Hkeys Hpr0. rewrite Hpr in Hpr0. injection Hpr0 as <-.
      exists db'. split; [reflexivity|].
      split; [|exact (payment_view_applyUpdate _ _ Hkeys)].
      rewrite Hp.
      apply (update_first_find _ _ _ _ _ Hpr Hl).
      rewrite byPrescriptionId_applyUpdate.
      apply find_some in Hpr. destruct Hpr as [_ Hhit]. exact Hhit.
Qed.

Lemma updatePrescription_touches_one_row_witness :
  updatePrescription (Some doctor) "rx-9" cancel db_clinic
    = (ErrorJson 500 (Message "Failed to update prescription"), db_clinic) /\
  exists db',
    updatePrescription (Some doctor) "rx-1" cancel db_clinic
      = (Json 200 (applyUpdate cancel pendingRow), db') /\
    find (byPrescriptionId "rx-1") (prescriptions db')
      = Some (applyUpdate cancel pendingRow) /\
    payment_view (applyUpdate cancel pendingRow) = payment_view pendingRow.
Proof.
  split.
  - exact (proj1 (proj2 (updatePrescription_touches_one_row (Some doctor) "rx-9"
                           cancel db_clinic)) eq_refl).
  - exact (proj2 (proj2 (updatePrescription_touches_one_row (Some doctor) "rx-1"
                           cancel db_clinic)) pendingRow eq_refl eq_refl).
Defined.

(** X21. A prescription set to Cancelled cannot be paid: after
    [updatePrescription] on an existing row with a body of the route's
    schema -- status "Cancelled", with or without instructions, and no
    other key -- the update is answered 200, the stock is as it was, and
    [fulfillPrescription] on that row is answered 400 and changes nothing,
    so no unit leaves the shelf for it: "Prescription already fulfilled" if
    the row was Paid, "Cannot fulfill cancelled prescription" otherwise. *)
Theorem cancelled_prescription_is_not_fulfilled :
  forall user u now id data method db pr r db',
    find (byPrescriptionId id) (prescriptions db) = Some pr ->
    schema_keys_only data = true ->
    u_status data = Some "Cancelled" ->
    updatePrescription user id data db = (r, db') ->
    r = Json 200 (applyUpdate data pr) /\
    pharmacyStock db' = pharmacyStock db /\
    fulfillPrescription (Some u) now id method db'
      = (ErrorJson 400
           (Message (if String.eqb (p_paymentStatus pr) "Paid"
                     then "Prescription already fulfilled"
                     else "Cannot fulfill cancelled prescription")), db').
Proof.
  intros user u now id data method db pr r db' Hpr Hkeys Hst Hup.
  destruct (updatePrescription_cases user id data db)
    as [[Hnone _] | (pr0 & l & db1 & Hpr0 & Hl & Hup1 & Hp & _ & _ & _ & Hs & _)];
    [congruence|].
  rewrite Hup in Hup1. injection Hup1 as -> ->.
  rewrite Hpr in Hpr0. injection Hpr0 as <-.
  split; [reflexivity|]. split; [exact Hs|].
  assert (Hrow : find (byPrescriptionId id) (prescriptions db1)
                 = Some (applyUpdate data pr)).
  { rewrite Hp. apply (update_first_find _ _ _ _ _ Hpr Hl).
    rewrite byPrescriptionId_applyUpdate.
    apply find_some in Hpr. destruct Hpr as [_ Hhit]. exact Hhit. }
  assert (Hpay : p_paymentStatus (applyUpdate data pr) = p_paymentStatus pr).
  { pose proof (payment_view_applyUpdate data pr Hkeys) as Hv.
    unfold payment_view in Hv. congruence. }
  unfold fulfillPrescription. rewrite Hrow, Hpay.
  destruct (String.eqb (p_paymentStatus pr) "Paid"); [reflexivity|].
  unfold applyUpdate at 1. simpl. rewrite Hst. simpl. reflexivity.
Qed.

Lemma cancelled_prescription_is_not_fulfilled_witness :
  exists r db',
    updatePrescription (Some doctor) "rx-1" cancel db_clinic = (r, db') /\
    r = Json 200 (applyUpdate cancel pendingRow) /\
    pharmacyStock db' = pharmacyStock db_clinic /\
    fulfillPrescription (Some pharmacist) 2000 "rx-1" None db'
      = (ErrorJson 400 (Message "Cannot fulfill cancelled prescription"), db').
Proof.
  destruct (updatePrescription (Some doctor) "rx-1" cancel db_clinic)
    as [r db'] eqn:E.
  exists r, db'. split; [reflexivity|].
  exact (cancelled_prescription_is_not_fulfilled (Some doctor) pharmacist 2000
           "rx-1" cancel None db_clinic pendingRow r db' eq_refl eq_refl
           eq_refl E).
Defined.

(** ** requireRole in front of the writing routes *)

(** X22. The pharmacy endpoints and the fulfilment endpoint are closed to
    every caller that is neither Admin nor Pharmacist -- a Doctor, say, or
    a request without a user: POST /pharmacy, PUT /pharmacy/:id,
    POST /pharmacy/:id/stock and POST /prescriptions/:id/fulfill answer 401
    (no user) or 403 (other role) and leave the database exactly as it was,
    key generator included; PUT /prescriptions/:id is open to a Doctor. *)
Theorem pharmacy_routes_closed_to_other_roles :
  forall user db,
    (forall u, user = Some u ->
               roleName u <> "Admin" /\ roleName u <> "Pharmacist") ->
    let refusal := match user with Some _ => 403%nat | None => 401%nat end in
    (forall body, exists e,
       postMedication user body db = (ErrorJson refusal e, db)) /\
    (forall id data, exists e,
       putMedication user id data db = (ErrorJson refusal e, db)) /\
    (forall now id body, exists e,
       postStock user now id body db = (ErrorJson refusal e, db)) /\
    (forall now id method, exists e,
       postFulfill user now id method db = (ErrorJson refusal e, db)) /\
    (forall u id data,
       user = Some u -> roleName u = "Doctor" ->
       routePutPrescription user id data db = putPrescription user id data db).
Proof.
  intros user db Hrole.
  assert (Hreq : forall A (next : DB -> Response A * DB), exists e,
             requireRole ["Admin"; "Pharmacist"] user next db
               = (ErrorJson match user with Some _ => 403%nat | None => 401%nat end e, db)).
  { intros A next. unfold requireRole. destruct user as [u|].
    - destruct (Hrole u eq_refl) as [Ha Hp]. simpl.
      apply String.eqb_neq in Ha, Hp. rewrite Ha, Hp. simpl.
      eexists. reflexivity.
    - eexists. reflexivity. }
  simpl. split; [intros; apply Hreq|]. split; [intros; apply Hreq|].
  split; [intros; apply Hreq|]. split; [intros; apply Hreq|].
  intros u id data -> Hdoc. unfold routePutPrescription, requireRole.
  rewrite Hdoc. reflexivity.
Qed.

Lemma pharmacy_routes_closed_to_other_roles_witness :
  (exists e,
     postStock (Some doctor) 1000 "med-B"
         (mkAdjustStockBody 3 "subtract" None None) db_clinic
       = (ErrorJson 403 e, db_clinic)) /\
  (exists e,
     postFulfill (Some doctor) 1000 "rx-1" None db_clinic
       = (ErrorJson 403 e, db_clinic)) /\
  routePutPrescription (Some doctor) "rx-1" cancel db_clinic
    = putPrescription (Some doctor) "rx-1" cancel db_clinic.
Proof.
  assert (Hrole : forall u, Some doctor = Some u ->
                            roleName u <> "Admin" /\ roleName u <> "Pharmacist").
  { intros u H. injection H as <-. split; discriminate. }
  destruct (pharmacy_routes_closed_to_other_roles (Some doctor) db_clinic Hrole)
    as (_ & _ & H3 & H4 & H5).
  split; [apply H3|]. split; [apply H4|].
  apply (H5 doctor); reflexivity.
Defined.

(** ** The audit trail of adjustStock *)

Lemma adjustStockWrites_auditLogs user now id m body db o db1 :
  adjustStockWrites user now id m body db = (o, db1) ->
  auditLogs db1 = auditLogs db /\ users db1 = users db /\
  (uuidSeed db <= uuidSeed db1)%nat.
Proof.
  unfold adjustStockWrites, bind. intros H.
  destruct (validated (isAdd body && invalidDate (newExpiry body))
              (pharmacyStock_update id (stockUpdateData m body)) db)
    as [[upd|e] db2] eqn:Hupd.
  - apply validated_Done in Hupd. destruct Hupd as [_ Hupd].
    apply pharmacyStock_update_Done in Hupd.
    destruct Hupd as (old & l & _ & _ & _ & ->).
    destruct (isAdd body && (0 <? adj_quantity body))%bool;
      [destruct (isPositive (totalCostOf m body))|].
    + destruct user as [u|]; [|inversion H; subst; simpl; repeat split; lia].
      rewrite expense_create_eq in H. simpl in H.
      destruct (mem (userId u) (users db)) eqn:Hu;
        [|inversion H; subst; simpl; repeat split; lia].
      rewrite transaction_create_eq in H. simpl in H. rewrite Hu in H.
      inversion H; subst; simpl; repeat split; lia.
    + inversion H; subst; simpl; repeat split; lia.
    + inversion H; subst; simpl; repeat split; lia.
  - assert (Hsame : db2 = db).
    { apply validated_Thrown in Hupd.
      destruct Hupd as [[_ ->]|[_ Hupd]]; [reflexivity|].
      exact (pharmacyStock_update_Thrown _ _ _ _ _ Hupd). }
    inversion H; subst. repeat split; lia.
Qed.

(** X23. The audit trail of [adjustStock].  An accepted adjustment by a
    caller whose user row exists appends exactly one audit row -- that
    caller, ADJUST_STOCK, PharmacyStock, the medication's id -- and a
    refused one (404, 400) appends none.  The audit insert cannot fail the
    request: a withdrawal sent with a token whose user row is gone is still
    answered 200 and takes the units off the shelf, and leaves no audit
    row. *)
Theorem adjustStock_audit_trail :
  forall user now id body db,
    (forall status updated db',
       adjustStock user now id body db = (Json status updated, db') ->
       match user with
       | Some u =>
           if mem (userId u) (users db) then
             exists k,
               auditLogs db' = auditLogs db ++
                 [mkAuditLog k (userId u) "ADJUST_STOCK" "PharmacyStock" (Some id)]
           else auditLogs db' = auditLogs db
       | None => auditLogs db' = auditLogs db
       end)
    /\
    (forall status e db',
       adjustStock user now id body db = (ErrorJson status e, db') ->
       status <> 500%nat -> db' = db)
    /\
    (forall u m,
       user = Some u -> mem (userId u) (users db) = false ->
       find (byStockId id) (pharmacyStock db) = Some m ->
       isAdd body = false -> adj_quantity body <= s_currentStock m ->
       exists updated db',
         adjustStock user now id body db = (Json 200 updated, db') /\
         s_currentStock updated = s_currentStock m - adj_quantity body /\
         find (byStockId id) (pharmacyStock db') = Some updated /\
         auditLogs db' = auditLogs db).
Proof.
  intros user now id body db.
  assert (Htrail : forall status updated db',
    adjustStock user now id body db = (Json status updated, db') ->
    match user with
    | Some u =>
        if mem (userId u) (users db) then
          exists k,
            auditLogs db' = auditLogs db ++
              [mkAuditLog k (userId u) "ADJUST_STOCK" "PharmacyStock" (Some id)]
        else auditLogs db' = auditLogs db
    | None => auditLogs db' = auditLogs db
    end).
  { intros status updated db' H. unfold adjustStock in H.
    destruct (find _ (pharmacyStock db)) as [m|] eqn:Hm; [|discriminate H].
    destruct (newStockOf m body <? 0); [discriminate H|].
    destruct (adjustStockWrites user now id m body db) as [[r|e] db1] eqn:Hw;
      [|discriminate H].
    apply adjustStockWrites_auditLogs in Hw. destruct Hw as (Ha & Hu & _).
    injection H as _ _ <-.
    assert (Hid : s_id m = id).
    { apply find_some in Hm. destruct Hm as [_ Hhit].
      apply String.eqb_eq in Hhit. exact Hhit. }
    destruct user as [u|]; [|exact Ha].
    unfold createAuditLog. rewrite Hu.
    destruct (mem (userId u) (users db)); [|exact Ha].
    simpl. rewrite Ha, Hid. eexists. reflexivity. }
  split; [exact Htrail|]. split.
  - intros status e db' H Hne. unfold adjustStock in H.
    destruct (find _ (pharmacyStock db)) as [m|]; [|inversion H; reflexivity].
    destruct (newStockOf m body <? 0); [inversion H; reflexivity|].
    destruct (adjustStockWrites user now id m body db) as [[r|e0] db1];
      [discriminate H|].
    inversion H; subst. contradiction.
  - intros u m -> Hu Hm Hadd Hq.
    destruct (adjustStock_withdraws (Some u) now id body db m Hm Hadd Hq)
      as (updated & db' & H & Hfind & Hlevel & _).
    exists updated, db'. split; [exact H|]. split; [exact Hlevel|].
    split; [exact Hfind|].
    specialize (Htrail _ _ _ H). simpl in Htrail. rewrite Hu in Htrail.
    exact Htrail.
Qed.

Lemma adjustStock_audit_trail_witness :
  (exists updated db' k,
     adjustStock (Some pharmacist) 1000 "med-B"
         (mkAdjustStockBody 2 "subtract" None None) db_clinic
       = (Json 200 updated, db') /\
     auditLogs db' = auditLogs db_clinic ++
       [mkAuditLog k "pharm-1" "ADJUST_STOCK" "PharmacyStock" (Some "med-B")]) /\
  (exists updated db',
     adjustStock (Some ghost) 1000 "med-B"
         (mkAdjustStockBody 2 "subtract" None None) db_clinic
       = (Json 200 updated, db') /\
     s_currentStock updated = 3 - 2 /\
     find (byStockId "med-B") (pharmacyStock db') = Some updated /\
     auditLogs db' = auditLogs db_clinic).
Proof.
  split.
  - destruct (adjustStock (Some pharmacist) 1000 "med-B"
                (mkAdjustStockBody 2 "subtract" None None) db_clinic)
      as [r db'] eqn:E.
    assert (Hr : exists updated, r = Json 200 updated).
    { vm_compute in E. inversion E. eexists. reflexivity. }
    destruct Hr as (updated & ->).
    destruct (proj1 (adjustStock_audit_trail (Some pharmacist) 1000 "med-B"
                       (mkAdjustStockBody 2 "subtract" None None) db_clinic)
                    200%nat updated db' E) as (k & Hk).
    exists updated, db', k. split; [reflexivity | exact Hk].
  - apply (proj2 (proj2 (adjustStock_audit_trail (Some ghost) 1000 "med-B"
                           (mkAdjustStockBody 2 "subtract" None None) db_clinic))
                 ghost (stockRow "med-B" "B" 3 (1#1) (2#1)));
      try reflexivity.
    simpl. lia.
Defined.
